(** * RealToken YAM offer viewer: a shallow embedding and its properties

    The development follows the three source units of the application:
    the cache service [pages/api/token/index.ts] (module [Server]), the
    in-memory registry cache, the RPC gateway and the offer enrichment of
    [pages/index.tsx] (modules [RealTokenAPI], [Gateway], [Enrichment])
    and the purchase modal of the same page (module [Purchase]). The
    loading of an offer by [loadOffer] (module [Loading]) and the two
    [shortenAddress] functions (modules [Display] and [ConnectButton])
    complete the page.

    JavaScript values are modelled as the code has them: a [number] is an
    IEEE-754 binary64 value (the kernel's primitive [float]), an optional
    field is an [option] (a member that is used as a divisor, where [null]
    and a missing member differ, is a [JS.member]), a [BigNumber] is an integer of [Z], a string is a
    [string] of code units, a [Map<string, T>] is a finite map
    [gmap string T], a [Record<string, T>] is the list of its properties
    in insertion order, and a thrown exception is [None]. *)

From Stdlib Require Import ZArith Lia Bool List Ascii String Floats DecimalString.
From Stdlib Require DecimalFacts DecimalN.
From stdpp Require Import base option list gmap strings.
Import ListNotations.

Local Open Scope string_scope.
Local Open Scope Z_scope.

(** ** The JavaScript platform functions the program calls *)

Module JS.

(** A JavaScript [number]. *)
Definition number : Type := float.

Definition NaN : number := PrimFloat.nan.
Definition Infinity : number := PrimFloat.infinity.

(** [ToBoolean] on a number: [+0], [-0] and [NaN] are falsy. *)
Definition truthy (x : number) : bool :=
  negb (PrimFloat.eqb x 0%float || PrimFloat.is_nan x).

(** A numeric member of a parsed JSON object, where [null] and a missing
    member are told apart: no member ([undefined] when read), [null], or a
    number. *)
Inductive member :=
| absent
| null
| num (x : number).

(** [ToNumber] of such a member, as a division applies it: [undefined]
    becomes [NaN] and [null] becomes [+0]. *)
Definition toNumber (x : member) : number :=
  match x with
  | num v => v
  | null => 0%float
  | absent => NaN
  end.

(** [Number.isFinite]. *)
Definition isFinite (x : number) : bool :=
  negb (PrimFloat.is_nan x || PrimFloat.is_infinity x).

(** [ToBoolean] on a string and on an optional string. *)
Definition nonEmpty (s : string) : bool :=
  match s with EmptyString => false | String _ _ => true end.

Definition truthyStr (s : option string) : bool :=
  match s with Some v => nonEmpty v | None => false end.

(** [a || b] on optional strings. *)
Definition orStr (a b : option string) : option string :=
  if truthyStr a then a else b.

(** [String.prototype.toLowerCase], on code units below 128. *)
Definition lowerChar (c : ascii) : ascii :=
  let n := nat_of_ascii c in
  if Nat.leb 65 n && Nat.leb n 90 then ascii_of_nat (n + 32) else c.

Fixpoint toLowerCase (s : string) : string :=
  match s with
  | EmptyString => EmptyString
  | String c r => String (lowerChar c) (toLowerCase r)
  end.

(** Decimal digits of a natural number, as [BigNumber.toString] and
    [Number.prototype.toFixed] write them. *)
Definition digits (n : Z) : string :=
  NilZero.string_of_uint (N.to_uint (Z.to_N n)).

Definition isDigit (c : ascii) : bool :=
  let n := nat_of_ascii c in Nat.leb 48 n && Nat.leb n 57.

Definition digitVal (c : ascii) : Z := Z.of_nat (nat_of_ascii c) - 48.

(** Value of a hexadecimal digit, if it is one. *)
Definition hexVal (c : ascii) : option Z :=
  let n := nat_of_ascii c in
  if Nat.leb 48 n && Nat.leb n 57 then Some (Z.of_nat n - 48)
  else if Nat.leb 97 n && Nat.leb n 102 then Some (Z.of_nat n - 87)
  else if Nat.leb 65 n && Nat.leb n 70 then Some (Z.of_nat n - 55)
  else None.

(** Longest prefix of decimal digits: its value, its length, and the rest. *)
Fixpoint scanDigits (s : string) (acc : Z) (len : nat) : Z * nat * string :=
  match s with
  | String c r =>
      if isDigit c then scanDigits r (10 * acc + digitVal c) (S len)
      else (acc, len, s)
  | EmptyString => (acc, len, s)
  end.

Fixpoint scanHex (s : string) (acc : Z) (len : nat) : Z * nat * string :=
  match s with
  | String c r =>
      match hexVal c with
      | Some d => scanHex r (16 * acc + d) (S len)
      | None => (acc, len, s)
      end
  | EmptyString => (acc, len, s)
  end.

(** [StrWhiteSpaceChar], on code units below 256. *)
Definition isSpace (c : ascii) : bool :=
  let n := nat_of_ascii c in
  Nat.leb 9 n && Nat.leb n 13 || Nat.eqb n 32 || Nat.eqb n 160.

Fixpoint skipSpaces (s : string) : string :=
  match s with
  | String c r => if isSpace c then skipSpaces r else s
  | EmptyString => s
  end.

(** *** Rounding a rational to the nearest binary64 value

    [roundNearest p q] is the binary64 value nearest to [p / q] for
    [0 <= p] and [0 < q], ties to even, as [StringToNumber] produces it. *)
Definition scaled (p q e : Z) : Z * Z :=
  if 0 <=? e then (p, q * 2 ^ e) else (p * 2 ^ (- e), q).

Definition roundNearest (p q : Z) : number :=
  if p <=? 0 then 0%float
  else
    let l := Z.log2 p - Z.log2 q in
    let e0 := l - 53 in
    let '(n0, d0) := scaled p q e0 in
    let e1 := if 2 ^ 53 <=? n0 / d0 then e0 + 1 else e0 in
    let e := Z.max e1 (-1074) in
    let '(n, d) := scaled p q e in
    let m := n / d in
    let r := n mod d in
    let m' := if (d <? 2 * r) || ((d =? 2 * r) && Z.odd m) then m + 1 else m in
    if 971 <? e then Infinity
    else Z.ldexp (PrimFloat.of_uint63 (Uint63.of_Z m')) e.

Definition withSign (neg : bool) (x : number) : number :=
  if neg then PrimFloat.opp x else x.

(** The value [m * 10 ^ x] read as a number. *)
Definition decimalToNumber (m x : Z) : number :=
  if 0 <=? x then roundNearest (m * 10 ^ x) 1 else roundNearest m (10 ^ (- x)).

(** *** Reading numbers from strings *)

Definition startsWith (p s : string) : bool :=
  String.eqb p (String.substring 0 (String.length p) s).

Definition dropPrefix (p s : string) : string :=
  String.substring (String.length p) (String.length s - String.length p) s.

(** The string without the two characters of a radix prefix. *)
Definition dropRadixPrefix (s : string) : string := dropPrefix "0x" s.

(** An optional sign: whether it is [-], and the rest. *)
Definition scanSign (s : string) : bool * string :=
  match s with
  | String "-" r => (true, r)
  | String "+" r => (false, r)
  | _ => (false, s)
  end.

(** [ExponentPart]: [e] or [E], an optional sign and at least one digit.
    Without a digit the exponent is not part of the literal. *)
Definition scanExponent (s : string) : Z * string :=
  match s with
  | String c r =>
      if Ascii.eqb c "e" || Ascii.eqb c "E" then
        let '(neg, r1) := scanSign r in
        let '(v, len, r2) := scanDigits r1 0 0 in
        match len with
        | O => (0, s)
        | S _ => ((if neg then - v else v), r2)
        end
      else (0, s)
  | EmptyString => (0, s)
  end.

(** Longest prefix that is a [StrUnsignedDecimalLiteral] other than
    [Infinity]: the literal stands for [m * 10 ^ x]. *)
Definition scanDecimalLiteral (s : string) : option (Z * Z * string) :=
  let '(i, li, r1) := scanDigits s 0 0 in
  let afterMantissa :=
    match r1 with
    | String "." r =>
        let '(m, l, r2) := scanDigits r i li in
        match l with
        | O => None
        | S _ => Some (m, - Z.of_nat (l - li), r2)
        end
    | _ => match li with O => None | S _ => Some (i, 0, r1) end
    end in
  match afterMantissa with
  | Some (m, x, r) => let '(ex, r') := scanExponent r in Some (m, x + ex, r')
  | None => None
  end.

(** The global [parseFloat]. *)
Definition parseFloat (s : string) : number :=
  let '(neg, t) := scanSign (skipSpaces s) in
  if startsWith "Infinity" t then withSign neg Infinity
  else match scanDecimalLiteral t with
       | Some (m, x, _) => withSign neg (decimalToNumber m x)
       | None => NaN
       end.

(** The global [parseInt] without a radix argument. *)
Definition parseInt (s : string) : number :=
  let '(neg, t) := scanSign (skipSpaces s) in
  let '(v, len, _) :=
    if startsWith "0x" t || startsWith "0X" t
    then scanHex (dropRadixPrefix t) 0 0
    else scanDigits t 0 0 in
  match len with
  | O => NaN
  | S _ => withSign neg (roundNearest v 1)
  end.

Definition onlySpaces (s : string) : bool :=
  negb (nonEmpty (skipSpaces s)).

Fixpoint scanRadix (b : Z) (s : string) (acc : Z) (len : nat) : Z * nat * string :=
  match s with
  | String c r =>
      match hexVal c with
      | Some d => if d <? b then scanRadix b r (b * acc + d) (S len) else (acc, len, s)
      | None => (acc, len, s)
      end
  | EmptyString => (acc, len, s)
  end.

(** [Number(s)] on a string ([StringToNumber]): the whole string, white
    space trimmed, has to be a numeric literal; the empty string is [0]. *)
Definition Number (s : string) : number :=
  let t := skipSpaces s in
  if onlySpaces t then 0%float
  else
    let radix :=
      if startsWith "0x" t || startsWith "0X" t then Some 16
      else if startsWith "0o" t || startsWith "0O" t then Some 8
      else if startsWith "0b" t || startsWith "0B" t then Some 2
      else None in
    match radix with
    | Some b =>
        let '(v, len, r) := scanRadix b (dropRadixPrefix t) 0 0 in
        match len with
        | O => NaN
        | S _ => if onlySpaces r then roundNearest v 1 else NaN
        end
    | None =>
        let '(neg, u) := scanSign t in
        if startsWith "Infinity" u then
          if onlySpaces (dropPrefix "Infinity" u) then withSign neg Infinity else NaN
        else match scanDecimalLiteral u with
             | Some (m, x, r) =>
                 if onlySpaces r then withSign neg (decimalToNumber m x) else NaN
             | None => NaN
             end
    end.

(** *** Writing numbers *)

Fixpoint zeros (n : nat) : string :=
  match n with O => EmptyString | S k => String "0" (zeros k) end.

(** [Number::toString] in radix 10. A positive finite [x = p / q] is
    written with the integers [n], [k] and [s] such that [k >= 1],
    [10 ^ (k - 1) <= s < 10 ^ k], [s * 10 ^ (n - k)] reads back as [x], and
    [k] is as small as possible; of several such [s] the one closest to
    [x] is taken. *)
Definition numDigits (n : Z) : Z := Z.of_nat (String.length (digits n)).

(** Whether [p / q >= 10 ^ m]. *)
Definition atLeastPowerOfTen (p q m : Z) : bool :=
  if 0 <=? m then q * 10 ^ m <=? p else q <=? p * 10 ^ (- m).

(** The [n] with [10 ^ (n - 1) <= p / q < 10 ^ n]. *)
Definition decimalExponent (p q : Z) : Z :=
  let m := numDigits p - numDigits q in
  if atLeastPowerOfTen p q m then m + 1 else m.

Definition readsBack (x : number) (s e : Z) : bool :=
  PrimFloat.eqb (decimalToNumber s e) x.

(** The search for [s] over [k = 1, 2, ...]: the two integers around
    [x * 10 ^ (k - n)] are tried. Seventeen digits identify a binary64
    value, so the search ends by then; at the last [k] the closer of the
    two is taken in any case. *)
Fixpoint shortestDigits (x : number) (p q n : Z) (ks : list Z) : Z * Z :=
  match ks with
  | [] => (0, n)
  | k :: ks' =>
      let '(P, Q) :=
        if n <=? k then (p * 10 ^ (k - n), q) else (p, q * 10 ^ (n - k)) in
      let lo := P / Q in
      let hi := lo + 1 in
      let okLo := readsBack x lo (n - k) in
      let okHi := readsBack x hi (n - k) in
      let pick (s : Z) := if s =? 10 ^ k then (1, n + 1) else (s, n) in
      let closest :=
        let dLo := P - lo * Q in
        let dHi := hi * Q - P in
        if dLo <? dHi then pick lo
        else if dHi <? dLo then pick hi
        else if Z.even lo then pick lo else pick hi in
      if okLo && okHi then closest
      else if okLo then pick lo
      else if okHi then pick hi
      else match ks' with
           | [] => closest
           | _ => shortestDigits x p q n ks'
           end
  end.

(** The digits [s] and the exponent [n] written out. *)
Definition formatNumber (s n : Z) : string :=
  let ds := digits s in
  let k := Z.of_nat (String.length ds) in
  if (k <=? n) && (n <=? 21) then ds ++ zeros (Z.to_nat (n - k))
  else if (0 <? n) && (n <=? 21) then
    String.substring 0 (Z.to_nat n) ds ++ "."
    ++ String.substring (Z.to_nat n) (Z.to_nat (k - n)) ds
  else if (-6 <? n) && (n <=? 0) then "0." ++ zeros (Z.to_nat (- n)) ++ ds
  else
    let e := n - 1 in
    let es := (if e <? 0 then "-" else "+") ++ digits (Z.abs e) in
    match ds with
    | String d EmptyString => String d ("e" ++ es)
    | String d r => String d ("." ++ r ++ "e" ++ es)
    | EmptyString => EmptyString
    end.

Definition toString (x : number) : string :=
  match Prim2SF x with
  | S754_nan => "NaN"
  | S754_zero _ => "0"
  | S754_infinity neg => if neg then "-Infinity" else "Infinity"
  | S754_finite neg m e =>
      let '(p, q) := scaled (Z.pos m) 1 (- e) in
      let '(s, n) :=
        shortestDigits (PrimFloat.abs x) p q (decimalExponent p q)
          (map Z.of_nat (seq 1 17)) in
      if neg then "-" ++ formatNumber s n else formatNumber s n
  end.

(** [whole.fraction] with exactly [f] fraction digits, from the integer
    [n] that counts units of [10 ^ -f]. *)
Definition fixedDigits (n : Z) (f : nat) : string :=
  let d := digits n in
  let d' := zeros (S f - String.length d) ++ d in
  match f with
  | O => d'
  | S _ =>
      let w := (String.length d' - f)%nat in
      String.substring 0 w d' ++ "." ++ String.substring w f d'
  end.

(** [Number.prototype.toFixed(f)] for [0 <= f <= 100]. *)
Definition toFixed (x : number) (f : nat) : string :=
  match Prim2SF x with
  | S754_nan => "NaN"
  | S754_infinity neg => if neg then "-Infinity" else "Infinity"
  | S754_zero _ => fixedDigits 0 f
  | S754_finite neg m e =>
      let '(p, q) := scaled (Z.pos m) 1 (- e) in
      let body :=
        if 10 ^ 21 * q <=? p then toString (PrimFloat.abs x)
        else fixedDigits ((2 * p * 10 ^ Z.of_nat f + q) / (2 * q)) f in
      if neg then "-" ++ body else body
  end.

(** [toFixed] with a number of digits that is not known to be in range:
    a [RangeError] outside of 0 to 100. *)
Definition toFixedChecked (x : number) (f : Z) : option string :=
  if (0 <=? f) && (f <=? 100) then Some (toFixed x (Z.to_nat f)) else None.

(** *** Integers held in numbers, and dates *)

(** The integer a finite number holds, when it holds one. *)
Definition toInteger (x : number) : option Z :=
  match Prim2SF x with
  | S754_zero _ => Some 0
  | S754_finite neg m e =>
      let v :=
        if 0 <=? e then Some (Z.pos m * 2 ^ e)
        else if Z.pos m mod 2 ^ (- e) =? 0 then Some (Z.pos m / 2 ^ (- e))
        else None in
      (fun z => if neg then - z else z) <$> v
  | _ => None
  end.

(** [ToIntegerOrInfinity] on a finite number: truncation towards zero. *)
Definition truncate (x : number) : option Z :=
  match Prim2SF x with
  | S754_zero _ => Some 0
  | S754_finite neg m e =>
      let '(p, q) := scaled (Z.pos m) 1 (- e) in
      Some (if neg then - (p / q) else p / q)
  | _ => None
  end.

(** A time value: milliseconds since the epoch. The string that
    [Date.prototype.toISOString] writes determines the time value and is
    determined by it, so the time value stands for the string. *)
Definition ISOString : Type := Z.

(** [new Date(tv).toISOString()]: [TimeClip] makes the date invalid
    beyond 8.64e15 ms and for a number that is not finite, and
    [toISOString] throws a [RangeError] on an invalid date. *)
Definition Date_toISOString (tv : number) : option ISOString :=
  t ← truncate tv;
  if Z.abs t <=? 8640000000000000 then Some t else None.

(** The same on a time value that is already an integer, as [Date.now()]
    or a stored timestamp. *)
Definition validTime (t : Z) : bool := Z.abs t <=? 8640000000000000.

(** *** Slices *)

(** An index of [String.prototype.slice]: a negative one counts from the
    end of the string, and the result is clamped to the string. *)
Definition sliceIndex (len : nat) (i : Z) : nat :=
  if i <? 0 then Z.to_nat (Z.max (Z.of_nat len + i) 0)
  else Nat.min (Z.to_nat i) len.

(** [String.prototype.slice(start, end)]; without [end] the slice goes to
    the end of the string. *)
Definition slice (s : string) (start : Z) (end_ : option Z) : string :=
  let len := String.length s in
  let from := sliceIndex len start in
  let to := match end_ with Some e => sliceIndex len e | None => len end in
  String.substring from (to - from) s.

End JS.


(** ** The ethers (v5) functions the program calls *)

Module Ethers.

(** A [BigNumber] is an arbitrary-precision integer. *)
Definition BigNumber : Type := Z.

(** A string of decimal digits, at least one, read as an integer. *)
Definition ofDigits (s : string) : option Z :=
  let '(v, len, r) := JS.scanDigits s 0 0 in
  match len, r with
  | S _, EmptyString => Some v
  | _, _ => None
  end.

(** A string of hexadecimal digits, at least one, read as an integer. *)
Definition ofHexDigits (s : string) : option Z :=
  let '(v, len, r) := JS.scanHex s 0 0 in
  match len, r with
  | S _, EmptyString => Some v
  | _, _ => None
  end.

(** [BigNumber.from] on a string: an optional minus sign, then either [0x]
    and at least one hexadecimal digit, or at least one decimal digit;
    anything else throws.  The prefix is matched in lower case: the
    upper-case [0X], which passes the library's pattern and is then stored
    as a malformed hexadecimal string, is outside this model and given as
    throwing. *)
Definition BigNumber_from (s : string) : option BigNumber :=
  let '(negative, body) :=
    match s with
    | String "-" r => (true, r)
    | _ => (false, s)
    end in
  let magnitude :=
    if JS.startsWith "0x" body then ofHexDigits (JS.dropPrefix "0x" body)
    else ofDigits body in
  (fun v => if negative then - v else v) <$> magnitude.

(** [BigNumber.prototype.toString]. *)
Definition toString (n : BigNumber) : string :=
  if n <? 0 then "-" ++ JS.digits (- n) else JS.digits n.

(** [BigNumber.prototype.div]: truncating division, throwing on zero. *)
Definition div (a b : BigNumber) : option BigNumber :=
  if b =? 0 then None else Some (Z.quot a b).

(** [getMultiplier]: the number of decimals has to be an integer from 0
    to 256. *)
Definition getMultiplier (decimals : Z) : option Z :=
  if (0 <=? decimals) && (decimals <=? 256) then Some (10 ^ decimals) else None.

(** A string of digits without its trailing zeros. *)
Fixpoint stripZeros (s : string) : string :=
  match s with
  | EmptyString => EmptyString
  | String c r =>
      match stripZeros r with
      | EmptyString => if Ascii.eqb c "0" then EmptyString else String c EmptyString
      | r' => String c r'
      end
  end.

(** [formatUnits(value, decimals)] on a BigNumber ([formatFixed]). *)
Definition formatUnits (value : BigNumber) (decimals : Z) : option string :=
  multiplier ← getMultiplier decimals;
  let v := Z.abs value in
  let fraction := JS.digits (v mod multiplier) in
  let padded := JS.zeros (Z.to_nat decimals - String.length fraction) ++ fraction in
  let fraction' :=
    match stripZeros padded with EmptyString => "0" | f => f end in
  let whole := JS.digits (v / multiplier) in
  let body := if decimals =? 0 then whole else whole ++ "." ++ fraction' in
  Some (if value <? 0 then "-" ++ body else body).

(** [formatUnits] on a string, which [BigNumber.from] reads first. *)
Definition formatUnitsStr (value : string) (decimals : Z) : option string :=
  _ ← getMultiplier decimals;
  v ← BigNumber_from value;
  formatUnits v decimals.

(** Splitting at the first dot: the part before it and, when there is a
    dot, the part after it. *)
Fixpoint splitDot (s : string) : string * option string :=
  match s with
  | EmptyString => (EmptyString, None)
  | String c r =>
      if Ascii.eqb c "." then (EmptyString, Some r)
      else let '(w, f) := splitDot r in (String c w, f)
  end.

Fixpoint allDigitsOrDots (s : string) : bool :=
  match s with
  | EmptyString => true
  | String c r => (JS.isDigit c || Ascii.eqb c ".") && allDigitsOrDots r
  end.

Fixpoint hasDot (s : string) : bool :=
  match s with
  | EmptyString => false
  | String c r => Ascii.eqb c "." || hasDot r
  end.

(** [parseUnits(value, decimals)] ([parseFixed]): the string has to match
    [^-?[0-9.]+$], with one dot at most and no more fraction digits than
    [decimals] once trailing zeros are dropped. *)
Definition parseUnits (value : string) (decimals : Z) : option BigNumber :=
  multiplier ← getMultiplier decimals;
  let '(negative, v) :=
    match value with String "-" r => (true, r) | _ => (false, value) end in
  if negb (JS.nonEmpty v && allDigitsOrDots v) then None
  else if String.eqb v "." then None
  else
    let '(w, f) := splitDot v in
    if match f with Some f' => hasDot f' | None => false end then None
    else
      let whole := if JS.nonEmpty w then w else "0" in
      let fraction :=
        match f with
        | Some f' => if JS.nonEmpty f' then f' else "0"
        | None => "0"
        end in
      let trimmed := stripZeros fraction in
      if Z.of_nat (String.length trimmed) >? decimals then None
      else
        let fraction' := if JS.nonEmpty trimmed then trimmed else "0" in
        let padded :=
          fraction' ++ JS.zeros (Z.to_nat decimals - String.length fraction') in
        wholeValue ← BigNumber_from whole;
        fractionValue ← BigNumber_from padded;
        let wei := wholeValue * multiplier + fractionValue in
        Some (if negative then - wei else wei).

(** [Number(formatUnits(value, decimals))] as the enrichment uses it. *)
Definition unitsToNumber (value : string) (decimals : Z) : option JS.number :=
  JS.Number <$> formatUnitsStr value decimals.

End Ethers.

(** ** Strings of digits

    Two notions the proofs about [BigNumber.toString], [formatUnits] and
    [parseUnits] are stated with; the program does not have them. *)

Module Digits.

(** The number a string of digits stands for, after the digits [acc]. *)
Fixpoint decVal (s : string) (acc : Z) : Z :=
  match s with
  | EmptyString => acc
  | String c r => decVal r (10 * acc + JS.digitVal c)
  end.

Fixpoint allDigits (s : string) : bool :=
  match s with
  | EmptyString => true
  | String c r => JS.isDigit c && allDigits r
  end.

End Digits.

(** ** The cache service: [pages/api/token/index.ts] *)

Module Server.

(** A token as the community registry returns it ([any] in the source):
    the fields [fetchAllTokens] reads, taken to be strings and numbers
    where they are present.  For every member but [totalTokens] a [null]
    behaves as a missing member in all the program does with it (a [||]
    default, a [typeof] test), and [None] stands for both; [totalTokens]
    is a divisor, where [null] counts as 0 and a missing member as [NaN]. *)
Record RegistryToken := {
  r_tokenAddress : option string;
  r_address : option string;
  r_contractAddress : option string;
  r_ethereumContract : option string;
  r_xDaiContract : option string;
  r_gnosisContract : option string;
  r_shortName : option string;
  r_fullName : option string;
  r_tokenPrice : option JS.number;
  r_netRentYear : option JS.number;
  r_imageLink : option (list string);
  r_marketplaceLink : option string;
  r_totalTokens : JS.member;
  r_rentStartDate : option string
}.

(** [interface CachedToken]. *)
Record CachedToken := {
  tokenAddress : string;
  shortName : option string;
  fullName : option string;
  tokenPrice : option JS.number;
  netRentYear : option JS.number;
  imageLink : option (list string);
  marketplaceLink : option string;
  totalTokens : JS.member;
  rentStartDate : option string
}.

(** A [Record<string, CachedToken>]: the properties in insertion order. *)
Definition TokenRecord : Type := list (string * CachedToken).

(** [obj[key] = value]: an existing property keeps its place. *)
Fixpoint setProperty (obj : TokenRecord) (key : string) (value : CachedToken)
  : TokenRecord :=
  match obj with
  | [] => [(key, value)]
  | (k, v) :: rest =>
      if String.eqb k key then (k, value) :: rest
      else (k, v) :: setProperty rest key value
  end.

(** [interface CacheFile]. *)
Record CacheFile := {
  lastUpdated : Z;
  tokens : TokenRecord
}.

(** The JSON bodies the handler sends: a cache file, possibly with an
    [error] member, or an [error] alone. *)
Record Payload := {
  p_lastUpdated : option Z;
  p_tokens : option TokenRecord;
  p_error : option string
}.

Definition payloadOfCache (c : CacheFile) : Payload :=
  {| p_lastUpdated := Some (lastUpdated c);
     p_tokens := Some (tokens c);
     p_error := None |}.

Record Response := {
  status : Z;
  body : Payload
}.

Definition CACHE_MAX_AGE_MS : Z := 24 * 60 * 60 * 1000.

(** What the registry does with the request of [fetchAllTokens].  The
    entries of an array are taken to be objects: an entry such as [null],
    at which the loop over the tokens would throw, is not represented. *)
Inductive ReplyBody :=
| NotJson
| JsonArray (data : list RegistryToken)
| JsonOther.

Inductive RegistryReply :=
| NetworkError
| Reply (status : Z) (body : ReplyBody).

(** How writing the cache file fails, if it does: [MkdirFails] when the
    data directory is missing and [fs.mkdir] throws in [ensureDataDir],
    [WriteFails] when [fs.writeFile] throws. *)
Inductive DiskFault :=
| NoFault
| MkdirFails
| WriteFails.

(** The surroundings of one request: the configuration, the registry, the
    disk, and the clock as the successive values of [Date.now()]. *)
Record Env := {
  NEXT_PUBLIC_COMMUNITY_API_URI : option string;
  COMMUNITY_API_URI : option string;
  COMMUNITY_API_KEY : option string;
  registry : RegistryReply;
  diskFault : DiskFault;
  clock : nat -> Z
}.

(** Whether the cache file can be written. *)
Definition diskWritable (env : Env) : bool :=
  match diskFault env with
  | NoFault => true
  | MkdirFails | WriteFails => false
  end.

(** The state a request runs in: the parsed content of
    [data/tokens-cache.json] ([None] when the file is missing or is not
    JSON), the number of clock readings and of registry requests so far. *)
Record World := {
  disk : option CacheFile;
  ticks : nat;
  registryCalls : nat
}.

(** [Date.now()]. *)
Definition now (env : Env) (w : World) : Z * World :=
  (clock env (ticks w),
   {| disk := disk w; ticks := S (ticks w); registryCalls := registryCalls w |}).

(** [readCache]: every failure is caught and gives [null]. *)
Definition readCache (w : World) : option CacheFile := disk w.

(** [ensureDataDir]: throws ([None]) when the directory cannot be made. *)
Definition ensureDataDir (env : Env) : option unit :=
  match diskFault env with
  | MkdirFails => None
  | NoFault | WriteFails => Some tt
  end.

(** [writeCache]: awaits [ensureDataDir], then stamps the tokens with
    [Date.now()] and writes the file; [None] when it throws, the file
    being left as it was.  The clock is read only once the directory is
    there. *)
Definition writeCache (env : Env) (tokens : TokenRecord) (w : World)
  : option unit * World :=
  match ensureDataDir env with
  | None => (None, w)
  | Some _ =>
      let '(t, w1) := now env w in
      match diskFault env with
      | NoFault =>
          (Some tt,
           {| disk := Some {| lastUpdated := t; tokens := tokens |};
              ticks := ticks w1; registryCalls := registryCalls w1 |})
      | MkdirFails | WriteFails => (None, w1)
      end
  end.

(** [isCacheValid]: the clock is read only for a cache that exists. *)
Definition isCacheValid (env : Env) (cache : option CacheFile) (w : World)
  : bool * World :=
  match cache with
  | None => (false, w)
  | Some c =>
      let '(t, w1) := now env w in
      (t - lastUpdated c <? CACHE_MAX_AGE_MS, w1)
  end.

(** The address of a registry token: the first non-empty field wins. *)
Definition tokenAddressOf (token : RegistryToken) : option string :=
  JS.orStr (r_tokenAddress token)
   (JS.orStr (r_address token)
     (JS.orStr (r_contractAddress token)
       (JS.orStr (r_ethereumContract token)
         (JS.orStr (r_xDaiContract token) (r_gnosisContract token))))).

Definition cachedTokenOf (address : string) (token : RegistryToken) : CachedToken :=
  {| tokenAddress := address;
     shortName := r_shortName token;
     fullName := r_fullName token;
     tokenPrice := r_tokenPrice token;
     netRentYear := r_netRentYear token;
     imageLink := r_imageLink token;
     marketplaceLink := r_marketplaceLink token;
     totalTokens := r_totalTokens token;
     rentStartDate := r_rentStartDate token |}.

(** The loop of [fetchAllTokens] over the registry's tokens. *)
Fixpoint processTokens (allTokens : list RegistryToken) (cachedTokens : TokenRecord)
  : TokenRecord :=
  match allTokens with
  | [] => cachedTokens
  | token :: rest =>
      let address := tokenAddressOf token in
      if JS.truthyStr address then
        match address with
        | Some a =>
            processTokens rest
              (setProperty cachedTokens (JS.toLowerCase a) (cachedTokenOf a token))
        | None => processTokens rest cachedTokens
        end
      else processTokens rest cachedTokens
  end.

(** The inner [try] of [fetchAllTokens] around the [/tokens] request:
    [Some allTokens] when it completes, [None] when it throws. *)
Definition tryTokensEndpoint (reply : RegistryReply) : option (list RegistryToken) :=
  match reply with
  | NetworkError => None
  | Reply _ NotJson => None
  | Reply st body =>
      let ok := (200 <=? st) && (st <=? 299) in
      let isArray := match body with JsonArray _ => true | _ => false end in
      if ok || ((st =? 301) && isArray) then
        match body with
        | JsonArray data => Some data
        | _ => None
        end
      else if st =? 404 then Some []
      else None
  end.

(** [fetchAllTokens]: throws ([None]) without a base URL or an API key.
    The inner [catch] keeps the error of the [/tokens] request in
    [lastError] and goes on with the initial [allTokens = []]. *)
Definition fetchAllTokens (env : Env) (w : World) : option TokenRecord * World :=
  let baseUrl :=
    JS.orStr (NEXT_PUBLIC_COMMUNITY_API_URI env) (COMMUNITY_API_URI env) in
  if negb (JS.truthyStr baseUrl) then (None, w)
  else if negb (JS.truthyStr (COMMUNITY_API_KEY env)) then (None, w)
  else
    let w1 := {| disk := disk w; ticks := ticks w;
                 registryCalls := S (registryCalls w) |} in
    let allTokens :=
      match tryTokensEndpoint (registry env) with
      | Some data => data
      | None => []
      end in
    (Some (processTokens allTokens []), w1).

(** A request: its method and the [refresh] member of its query. *)
Record Request := {
  method : string;
  refresh : option string
}.

(** [res.status(200).json(cache)]; a [null] cache is a body without
    members. *)
Definition jsonOfCache (cache : option CacheFile) : Payload :=
  match cache with
  | Some c => payloadOfCache c
  | None => {| p_lastUpdated := None; p_tokens := None; p_error := None |}
  end.

Definition ok200 (p : Payload) : Response := {| status := 200; body := p |}.

(** The log lines for an existing cache: [toISOString] throws on a
    timestamp that is no valid date, and the age reads the clock. *)
Definition logCache (env : Env) (cache : option CacheFile) (w : World)
  : option World :=
  match cache with
  | Some c => if JS.validTime (lastUpdated c) then Some (snd (now env w)) else None
  | None => Some w
  end.

(** The [catch (fetchError)] of the refresh: a stale cache is returned,
    otherwise the error is thrown again. *)
Definition refreshFailed (cache : option CacheFile) (w : World)
  : option Response * World :=
  match cache with
  | Some c => (Some (ok200 (payloadOfCache c)), w)
  | None => (None, w)
  end.

(** The outer [try] of the handler: [Some] response when it answers,
    [None] when it throws. *)
Definition handlerTry (env : Env) (req : Request) (w : World)
  : option Response * World :=
  let cache := readCache w in
  let forceRefresh :=
    match refresh req with Some v => String.eqb v "true" | None => false end in
  match logCache env cache w with
  | None => (None, w)
  | Some w1 =>
      let '(valid, w2) := isCacheValid env cache w1 in
      if valid && negb forceRefresh then (Some (ok200 (jsonOfCache cache)), w2)
      else
        let '(valid', w3) := isCacheValid env cache w2 in
        if negb valid' || forceRefresh then
          match fetchAllTokens env w3 with
          | (Some tokens, w4) =>
              match writeCache env tokens w4 with
              | (Some _, w5) =>
                  let '(t, w6) := now env w5 in
                  (Some (ok200 (payloadOfCache
                                  {| lastUpdated := t; tokens := tokens |})), w6)
              | (None, w5) => refreshFailed cache w5
              end
          | (None, w4) => refreshFailed cache w4
          end
        else (Some (ok200 (jsonOfCache cache)), w3)
  end.

(** The outer [catch]: any cache that can be read, otherwise an empty
    cache with an [error] member; the status is 200 in both cases. *)
Definition handlerCatch (env : Env) (w : World) : Response * World :=
  match readCache w with
  | Some staleCache => (ok200 (payloadOfCache staleCache), w)
  | None =>
      let '(t, w1) := now env w in
      (ok200 {| p_lastUpdated := Some t;
                p_tokens := Some [];
                p_error := Some "Cache temporarily unavailable" |}, w1)
  end.

(** [export default async function handler(req, res)]. *)
Definition handler (env : Env) (req : Request) (w : World) : Response * World :=
  if negb (String.eqb (method req) "GET") then
    ({| status := 405;
        body := {| p_lastUpdated := None; p_tokens := None;
                   p_error := Some "Method not allowed" |} |}, w)
  else
    match handlerTry env req w with
    | (Some response, w') => (response, w')
    | (None, w') => handlerCatch env w'
    end.

(** Whether [fetchAllTokens] finds its base URL and its API key. *)
Definition configured (env : Env) : bool :=
  JS.truthyStr (JS.orStr (NEXT_PUBLIC_COMMUNITY_API_URI env) (COMMUNITY_API_URI env))
  && JS.truthyStr (COMMUNITY_API_KEY env).

End Server.


(** ** The in-memory registry cache: [class RealTokenAPI] *)

Module RealTokenAPI.

(** [token as RealToken]: the objects of the cache file, as they are. *)
Definition RealToken : Type := Server.CachedToken.

(** Promises are told apart by the order of their creation. *)
Definition PromiseId : Type := nat.

(** The static fields of the class. *)
Record State := {
  cache : gmap string RealToken;
  cacheTimestamp : option Z;
  initializationPromise : option PromiseId
}.

Definition CACHE_MAX_AGE_MS : Z := 24 * 60 * 60 * 1000.

(** What [fetch('/api/token')] and [response.json()] give. *)
Inductive Json :=
| JsonThrows
| JsonNull
| JsonObject (p : Server.Payload).

Inductive FetchResult :=
| FetchThrows
| HttpResponse (status : Z) (json : Json).

(** [this.cacheTimestamp && Date.now() - this.cacheTimestamp < MAX]. *)
Definition isFresh (s : State) (now : Z) : bool :=
  match cacheTimestamp s with
  | Some t => negb (t =? 0) && (now - t <? CACHE_MAX_AGE_MS)
  | None => false
  end.

(** The promise a caller of [initializeCache] gets: the resolved promise
    of [Promise.resolve()], or the promise of a refresh. *)
Inductive PromiseRef :=
| Resolved
| Pending (p : PromiseId).

(** The session: the static fields, the next promise to create, the
    refreshes whose [fetch] has not settled, and the number of requests
    sent to [/api/token] so far. *)
Record World := {
  api : State;
  nextPromise : PromiseId;
  inflight : list PromiseId;
  fetches : nat
}.

(** [initializeCache()], up to the [await] of its [fetch]: a fresh cache
    resolves at once, a refresh in flight is joined, otherwise a refresh
    starts and its promise is stored. *)
Definition initializeCache (now : Z) (w : World) : PromiseRef * World :=
  if isFresh (api w) now then (Resolved, w)
  else
    match initializationPromise (api w) with
    | Some p => (Pending p, w)
    | None =>
        let p := nextPromise w in
        (Pending p,
         {| api := {| cache := cache (api w);
                      cacheTimestamp := cacheTimestamp (api w);
                      initializationPromise := Some p |};
            nextPromise := S p;
            inflight := p :: inflight w;
            fetches := S (fetches w) |})
    end.

(** [Object.values(cacheData.tokens).forEach(...)] into the cleared map. *)
Fixpoint loadTokens (values : list RealToken) (m : gmap string RealToken)
  : gmap string RealToken :=
  match values with
  | [] => m
  | token :: rest =>
      loadTokens rest
        (if JS.nonEmpty (Server.tokenAddress token)
         then <[JS.toLowerCase (Server.tokenAddress token) := token]> m
         else m)
  end.

(** The rest of the refresh once the [fetch] has settled, with its
    [catch] and its [finally]. *)
Definition settleState (now : Z) (r : FetchResult) (s : State) : State :=
  let attempted :=
    {| cache := cache s; cacheTimestamp := Some now;
       initializationPromise := None |} in
  match r with
  | FetchThrows => attempted
  | HttpResponse st json =>
      if (200 <=? st) && (st <=? 299) then
        match json with
        | JsonObject p =>
            match Server.p_tokens p with
            | Some toks =>
                {| cache := loadTokens (map snd toks) ∅;
                   cacheTimestamp :=
                     Some (match Server.p_lastUpdated p with
                           | Some t => if t =? 0 then now else t
                           | None => now
                           end);
                   initializationPromise := None |}
            | None => attempted
            end
        | JsonNull => attempted
        | JsonThrows => attempted
        end
      else attempted
  end.

(** The refresh [p] completes; it has to be in flight. *)
Definition settle (p : PromiseId) (now : Z) (r : FetchResult) (w : World)
  : option World :=
  if bool_decide (p ∈ inflight w) then
    Some {| api := settleState now r (api w);
            nextPromise := nextPromise w;
            inflight := filter (fun q => q ≠ p) (inflight w);
            fetches := fetches w |}
  else None.

(** [getTokenDetails] after its [await]: [this.cache.get(addressLower) || null]. *)
Definition getTokenDetails (s : State) (tokenAddress : string) : option RealToken :=
  cache s !! JS.toLowerCase tokenAddress.

(** What can happen in a session: a call of [initializeCache] at some
    time, or the completion of a refresh. *)
Inductive Event :=
| Call (now : Z)
| Settle (p : PromiseId) (now : Z) (r : FetchResult).

Definition step (w : World) (e : Event) : option World :=
  match e with
  | Call now => Some (snd (initializeCache now w))
  | Settle p now r => settle p now r w
  end.

Definition initial : World :=
  {| api := {| cache := ∅; cacheTimestamp := None; initializationPromise := None |};
     nextPromise := 0%nat; inflight := []; fetches := 0%nat |}.

Inductive reachable : World -> Prop :=
| reachable_initial : reachable initial
| reachable_step w e w' : reachable w -> step w e = Some w' -> reachable w'.

(** Calls of [initializeCache] one after the other with no completion in
    between: the promises the callers get, and the session afterwards. *)
Fixpoint calls (times : list Z) (w : World) : list PromiseRef * World :=
  match times with
  | [] => ([], w)
  | t :: rest =>
      let '(r, w1) := initializeCache t w in
      let '(rs, w2) := calls rest w1 in
      (r :: rs, w2)
  end.


(** The outcomes of the [fetch] on which the refresh loads nothing: the
    request throws, the status is not 2xx, the body is not JSON, or it has
    no [tokens] member. *)
Definition fetchFailed (r : FetchResult) : bool :=
  match r with
  | FetchThrows => true
  | HttpResponse st json =>
      negb ((200 <=? st) && (st <=? 299))
      || match json with
         | JsonObject p =>
             match Server.p_tokens p with Some _ => false | None => true end
         | _ => true
         end
  end.

End RealTokenAPI.

(** ** The RPC gateway: [fetchOfferRpc] *)

Module Gateway.

(** [interface YamOffer]. *)
Record YamOffer := {
  offerId : string;
  buyerTokenAddress : string;
  offerTokenAddress : string;
  buyerAddress : string;
  price : string;
  amount : string;
  type : Z;
  createdAt : string;
  removedAt : option string;
  offerTokenDecimals : option Z;
  buyerTokenDecimals : option Z
}.

(** The tuple [showOffer] returns:
    [token0, token1, seller, buyer, price, amount]. *)
Record OfferData := {
  value0 : string;
  value1 : string;
  seller : string;
  buyer : string;
  priceBN : Ethers.BigNumber;
  amountBN : Ethers.BigNumber
}.

(** The chain as the calls of one load see it; [None] is a call that
    throws. *)
Record Rpc := {
  getOfferCount : option Ethers.BigNumber;
  showOffer : Z -> option OfferData;
  decimals : string -> option Z
}.

(** [BigNumber.prototype.toNumber]: throws from 2^53 on. *)
Definition toNumber (n : Ethers.BigNumber) : option JS.number :=
  if Z.abs n <? 2 ^ 53 then Some (JS.withSign (n <? 0) (JS.roundNearest (Z.abs n) 1))
  else None.

(** A number passed for a [uint256] argument: it has to hold an integer
    below [MAX_SAFE]. *)
Definition ofNumber (x : JS.number) : option Ethers.BigNumber :=
  n ← JS.toInteger x;
  if (Z.abs n <? 9007199254740991) && (0 <=? n) then Some n else None.

(** [getDecimals]: 18 when the ERC-20 call throws. *)
Definition getDecimals (rpc : Rpc) (tokenAddress : string) : Z :=
  match decimals rpc tokenAddress with
  | Some d => d
  | None => 18
  end.

(** The optional bounds check: [true] when the identifier is beyond the
    offer count; a failing [getOfferCount] is passed over. *)
Definition beyondOfferCount (rpc : Rpc) (offerIdNum : JS.number) : bool :=
  match getOfferCount rpc with
  | Some offerCountBN =>
      match toNumber offerCountBN with
      | Some offerCount => PrimFloat.leb offerCount offerIdNum
      | None => false
      end
  | None => false
  end.

(** [fetchOfferRpc(offerId)]: [None] is the [null] it returns when the
    identifier is refused or a call throws. *)
Definition fetchOfferRpc (rpc : Rpc) (offerId : string) : option YamOffer :=
  let offerIdNum := JS.Number offerId in
  if negb (JS.isFinite offerIdNum) || PrimFloat.ltb offerIdNum 0%float then None
  else if beyondOfferCount rpc offerIdNum then None
  else
    id ← ofNumber offerIdNum;
    offerData ← showOffer rpc id;
    let offerToken := value0 offerData in
    let buyerToken := value1 offerData in
    let offerTokenDecimals :=
      if JS.nonEmpty offerToken then getDecimals rpc offerToken else 18 in
    let buyerTokenDecimals :=
      if JS.nonEmpty buyerToken then getDecimals rpc buyerToken else 18 in
    Some {| offerId := offerId;
            buyerTokenAddress := buyerToken;
            offerTokenAddress := offerToken;
            buyerAddress := seller offerData;
            price := Ethers.toString (priceBN offerData);
            amount := Ethers.toString (amountBN offerData);
            type := 0;
            createdAt := "0";
            removedAt := None;
            offerTokenDecimals := Some offerTokenDecimals;
            buyerTokenDecimals := Some buyerTokenDecimals |}.

(** The same chain with other answers to [decimals()]. *)
Definition withDecimals (f : string -> option Z) (rpc : Rpc) : Rpc :=
  {| getOfferCount := getOfferCount rpc;
     showOffer := showOffer rpc;
     decimals := f |}.

End Gateway.

(** ** The enrichment: [combineOfferData] *)

Module Enrichment.

Inductive Chain := gnosis | ethereum.

Record StableMeta := {
  symbol : string;
  decimals : Z;
  name : option string
}.

(** [STABLE_TOKENS]. *)
Definition STABLE_TOKENS (chain : Chain) : list (string * StableMeta) :=
  match chain with
  | gnosis =>
      [ ("0xe91d153e0b41518a2ce8dd3d7944fa863463a97d",
         {| symbol := "WXDAI"; decimals := 18; name := Some "Wrapped xDAI" |});
        ("0xddafbb505ad214d7b80b1f830fccc89b60fb7a83",
         {| symbol := "USDC"; decimals := 6; name := None |});
        ("0x0ca4f5554dd9da6217d62d8df2816c82bba4157b",
         {| symbol := "armmv3WXDAI"; decimals := 18; name := None |});
        ("0xed56f76e9cbc6a64b821e9c016eafbd3db5436d1",
         {| symbol := "armmv3USDC"; decimals := 6; name := None |}) ]
  | ethereum => []
  end.

Fixpoint property {A} (obj : list (string * A)) (key : string) : option A :=
  match obj with
  | [] => None
  | (k, v) :: rest => if String.eqb k key then Some v else property rest key
  end.

Definition getStableMeta (chain : Chain) (tokenAddress : string) : option StableMeta :=
  if JS.nonEmpty tokenAddress
  then property (STABLE_TOKENS chain) (JS.toLowerCase tokenAddress)
  else None.

Definition isStableToken (chain : Chain) (tokenAddress : string) : bool :=
  match getStableMeta chain tokenAddress with Some _ => true | None => false end.

Definition getChainFromOffer (yamOffer : Gateway.YamOffer) : Chain := gnosis.

Inductive Status := active | sold | cancelled.

Definition getStatusFromOffer (yamOffer : Gateway.YamOffer) : Status :=
  if JS.truthyStr (Gateway.removedAt yamOffer) then cancelled
  else if PrimFloat.eqb (JS.parseFloat (Gateway.amount yamOffer)) 0%float then sold
  else active.

(** The ERC-20 [name()] and [symbol()] reads of one enrichment; [None] is
    a read that fails. *)
Record Erc20 := {
  erc20Name : string -> option string;
  erc20Symbol : string -> option string
}.

Record Meta := {
  metaName : option string;
  metaSymbol : option string
}.

Definition getErc20Meta (chainReads : Erc20) (tokenAddress : string) : Meta :=
  {| metaName := erc20Name chainReads tokenAddress;
     metaSymbol := erc20Symbol chainReads tokenAddress |}.

(** [interface Offer]. *)
Record Offer := {
  id : string;
  price : string;
  reversePrice : string;
  amount : string;
  seller : string;
  status : Status;
  createdAt : JS.ISOString;
  chain : Chain;
  tokenDetails : option RealTokenAPI.RealToken;
  offerAddress : string;
  offerDecimals : option Z;
  offerSymbol : string;
  buyerAddress : option string;
  buyerDecimals : option Z;
  buyerSymbol : option string;
  officialPriceUsd : option JS.number;
  priceDiff : option JS.number;
  priceDiffPct : option JS.number;
  offerYieldPct : option JS.number;
  officialYieldPct : option JS.number;
  offerYieldDiff : option JS.number;
  offerYieldDiffPct : option JS.number
}.

(** [a || b] on strings, and on an optional string and a string. *)
Definition orElse (a b : string) : string := if JS.nonEmpty a then a else b.

Definition orDefault (a : option string) (b : string) : string :=
  match a with
  | Some v => orElse v b
  | None => b
  end.

(** [combineOfferData(yamOffer)] on the registry cache as it is after
    [initializeCache], the ERC-20 reads of the chain and the value of the
    clock; [None] when a conversion throws. *)
Definition combineOfferData (registry : RealTokenAPI.State) (chainReads : Erc20)
    (now : Z) (yamOffer : Gateway.YamOffer) : option Offer :=
  let chain := getChainFromOffer yamOffer in
  let offerIsStable := isStableToken chain (Gateway.offerTokenAddress yamOffer) in
  let offerTokenDetails :=
    if offerIsStable then None
    else RealTokenAPI.getTokenDetails registry (Gateway.offerTokenAddress yamOffer) in
  let offerAddress := Gateway.offerTokenAddress yamOffer in
  let buyerAddress := Gateway.buyerTokenAddress yamOffer in
  let tokenDetails := offerTokenDetails in
  let exchangeStableMeta := getStableMeta chain buyerAddress in
  let exchangeMeta :=
    match exchangeStableMeta with
    | Some m => {| metaName := name m; metaSymbol := Some (symbol m) |}
    | None =>
        if JS.nonEmpty buyerAddress then getErc20Meta chainReads buyerAddress
        else {| metaName := None; metaSymbol := None |}
    end in
  let offerTokenDecimals := default 18 (Gateway.offerTokenDecimals yamOffer) in
  let buyerTokenDecimals := default 18 (Gateway.buyerTokenDecimals yamOffer) in
  priceNum ← Ethers.unitsToNumber (orElse (Gateway.price yamOffer) "0") buyerTokenDecimals;
  amountNum ← Ethers.unitsToNumber (orElse (Gateway.amount yamOffer) "0") offerTokenDecimals;
  let reversePriceNum := (1 / priceNum)%float in
  let officialPriceUsd :=
    match tokenDetails ≫= Server.tokenPrice with
    | Some p => if JS.truthy p then p else 1%float
    | None => 1%float
    end in
  let priceDiff := (priceNum - officialPriceUsd)%float in
  let priceDiffPct :=
    if PrimFloat.ltb 0 officialPriceUsd
    then Some (priceDiff / officialPriceUsd * 100)%float
    else None in
  let officialYieldPct :=
    match tokenDetails with
    | Some td =>
        match Server.netRentYear td with
        | Some netRentYear =>
            if PrimFloat.ltb 0 officialPriceUsd
            then Some (netRentYear / JS.toNumber (Server.totalTokens td)
                       / officialPriceUsd * 100)%float
            else None
        | None => None
        end
    | None => None
    end in
  let offerYieldPct :=
    match tokenDetails with
    | Some td =>
        match Server.netRentYear td with
        | Some netRentYear =>
            if PrimFloat.ltb 0 priceNum
            then Some (netRentYear / JS.toNumber (Server.totalTokens td)
                       / priceNum * 100)%float
            else None
        | None => None
        end
    | None => None
    end in
  let offerYieldDiff :=
    match offerYieldPct with
    | Some y => Some (y - default 0%float officialYieldPct)%float
    | None => None
    end in
  let offerYieldDiffPct :=
    match officialYieldPct, offerYieldDiff with
    | Some o, Some d => Some (d / o * 100)%float
    | _, _ => None
    end in
  let offerSymbol0 :=
    JS.orStr (tokenDetails ≫= Server.shortName) (tokenDetails ≫= Server.fullName) in
  let offerSymbol :=
    if JS.truthyStr offerSymbol0 then orDefault offerSymbol0 ""
    else
      match getStableMeta chain offerAddress with
      | Some stableMeta => orDefault (name stableMeta) (symbol stableMeta)
      | None =>
          let erc20Meta := getErc20Meta chainReads offerAddress in
          orDefault (metaName erc20Meta)
            (orDefault (metaSymbol erc20Meta) "Unknown property")
      end in
  createdAt ←
    (if JS.nonEmpty (Gateway.createdAt yamOffer)
        && negb (String.eqb (Gateway.createdAt yamOffer) "0")
     then JS.Date_toISOString (JS.parseInt (Gateway.createdAt yamOffer) * 1000)%float
     else Some now);
  Some {| id := Gateway.offerId yamOffer;
          price := JS.toFixed priceNum 2;
          reversePrice := JS.toFixed reversePriceNum 2;
          amount := JS.toFixed amountNum 6;
          seller := Gateway.buyerAddress yamOffer;
          status := getStatusFromOffer yamOffer;
          createdAt := createdAt;
          chain := chain;
          tokenDetails := tokenDetails;
          offerAddress := offerAddress;
          offerDecimals := Some offerTokenDecimals;
          offerSymbol := offerSymbol;
          buyerAddress := Some buyerAddress;
          buyerDecimals := Some buyerTokenDecimals;
          buyerSymbol := metaSymbol exchangeMeta;
          officialPriceUsd := Some officialPriceUsd;
          priceDiff := Some priceDiff;
          priceDiffPct := priceDiffPct;
          offerYieldPct := offerYieldPct;
          officialYieldPct := officialYieldPct;
          offerYieldDiff := offerYieldDiff;
          offerYieldDiffPct := offerYieldDiffPct |}.

(** Whether [createdAt] of the enriched offer is read from the clock:
    the raw [createdAt] is empty or ["0"]. *)
Definition usesClock (yamOffer : Gateway.YamOffer) : bool :=
  negb (JS.nonEmpty (Gateway.createdAt yamOffer)
        && negb (String.eqb (Gateway.createdAt yamOffer) "0")).

(** An offer with another [createdAt] and every other field as it is. *)
Definition withCreatedAt (t : JS.ISOString) (o : Offer) : Offer :=
  {| id := id o; price := price o; reversePrice := reversePrice o;
     amount := amount o; seller := seller o; status := status o;
     createdAt := t; chain := chain o; tokenDetails := tokenDetails o;
     offerAddress := offerAddress o; offerDecimals := offerDecimals o;
     offerSymbol := offerSymbol o; buyerAddress := buyerAddress o;
     buyerDecimals := buyerDecimals o; buyerSymbol := buyerSymbol o;
     officialPriceUsd := officialPriceUsd o; priceDiff := priceDiff o;
     priceDiffPct := priceDiffPct o; offerYieldPct := offerYieldPct o;
     officialYieldPct := officialYieldPct o; offerYieldDiff := offerYieldDiff o;
     offerYieldDiffPct := offerYieldDiffPct o |}.

End Enrichment.


(** ** The purchase modal of [Home] *)

Module Purchase.

Inductive TxStatus := idle | pending | success | error.

(** The state of [Home] the purchase uses: its [useState] cells and what
    [useWallet] gives. *)
Record State := {
  offer : option Enrichment.Offer;
  buyAmount : string;
  showBuyModal : bool;
  txStatus : TxStatus;
  allowance : Ethers.BigNumber;
  isAllowanceLoading : bool;
  isApproving : bool;
  txError : option string;
  balance : Ethers.BigNumber;
  isConnected : bool;
  signer : bool
}.

Definition PRECISION : Z := 6.

(** The arithmetic of [handleSetMaxAmount]: [None] when [parseUnits] or
    the division throws. *)
Definition maxAmountBN (offer : Enrichment.Offer) (balance : Ethers.BigNumber)
  : option Ethers.BigNumber :=
  let balanceBN := balance in
  priceBN ← Ethers.parseUnits (Enrichment.price offer) PRECISION;
  let balanceScaled := balanceBN * 10 ^ PRECISION in
  maxAmountFromBalanceBN ← Ethers.div balanceScaled priceBN;
  offerAmountBN ← Ethers.parseUnits (Enrichment.amount offer) PRECISION;
  Some (if maxAmountFromBalanceBN <? offerAmountBN
        then maxAmountFromBalanceBN
        else offerAmountBN).

(** The maximum as the specification words it: the balance scaled by
    [10 ^ PRECISION], divided (integer division) by the price at the same
    precision, and the minimum of that and the remaining amount at the
    same precision. *)
Definition maxAmountSpec (balance priceFixed remainingFixed : Z) : Z :=
  Z.min (balance * 10 ^ PRECISION / priceFixed) remainingFixed.

Definition setBuyAmount (v : string) (s : State) : State :=
  {| offer := offer s; buyAmount := v; showBuyModal := showBuyModal s;
     txStatus := txStatus s; allowance := allowance s;
     isAllowanceLoading := isAllowanceLoading s; isApproving := isApproving s;
     txError := txError s; balance := balance s;
     isConnected := isConnected s; signer := signer s |}.

Definition setShowBuyModal (v : bool) (s : State) : State :=
  {| offer := offer s; buyAmount := buyAmount s; showBuyModal := v;
     txStatus := txStatus s; allowance := allowance s;
     isAllowanceLoading := isAllowanceLoading s; isApproving := isApproving s;
     txError := txError s; balance := balance s;
     isConnected := isConnected s; signer := signer s |}.

Definition setTxStatus (v : TxStatus) (s : State) : State :=
  {| offer := offer s; buyAmount := buyAmount s; showBuyModal := showBuyModal s;
     txStatus := v; allowance := allowance s;
     isAllowanceLoading := isAllowanceLoading s; isApproving := isApproving s;
     txError := txError s; balance := balance s;
     isConnected := isConnected s; signer := signer s |}.

Definition setIsApproving (v : bool) (s : State) : State :=
  {| offer := offer s; buyAmount := buyAmount s; showBuyModal := showBuyModal s;
     txStatus := txStatus s; allowance := allowance s;
     isAllowanceLoading := isAllowanceLoading s; isApproving := v;
     txError := txError s; balance := balance s;
     isConnected := isConnected s; signer := signer s |}.

Definition setOffer (v : option Enrichment.Offer) (s : State) : State :=
  {| offer := v; buyAmount := buyAmount s; showBuyModal := showBuyModal s;
     txStatus := txStatus s; allowance := allowance s;
     isAllowanceLoading := isAllowanceLoading s; isApproving := isApproving s;
     txError := txError s; balance := balance s;
     isConnected := isConnected s; signer := signer s |}.

Definition setTxError (v : option string) (s : State) : State :=
  {| offer := offer s; buyAmount := buyAmount s; showBuyModal := showBuyModal s;
     txStatus := txStatus s; allowance := allowance s;
     isAllowanceLoading := isAllowanceLoading s; isApproving := isApproving s;
     txError := v; balance := balance s;
     isConnected := isConnected s; signer := signer s |}.

Definition setIsAllowanceLoading (v : bool) (s : State) : State :=
  {| offer := offer s; buyAmount := buyAmount s; showBuyModal := showBuyModal s;
     txStatus := txStatus s; allowance := allowance s;
     isAllowanceLoading := v; isApproving := isApproving s;
     txError := txError s; balance := balance s;
     isConnected := isConnected s; signer := signer s |}.

Definition setAllowance (v : Ethers.BigNumber) (s : State) : State :=
  {| offer := offer s; buyAmount := buyAmount s; showBuyModal := showBuyModal s;
     txStatus := txStatus s; allowance := v;
     isAllowanceLoading := isAllowanceLoading s; isApproving := isApproving s;
     txError := txError s; balance := balance s;
     isConnected := isConnected s; signer := signer s |}.

Definition setBalance (v : Ethers.BigNumber) (s : State) : State :=
  {| offer := offer s; buyAmount := buyAmount s; showBuyModal := showBuyModal s;
     txStatus := txStatus s; allowance := allowance s;
     isAllowanceLoading := isAllowanceLoading s; isApproving := isApproving s;
     txError := txError s; balance := v;
     isConnected := isConnected s; signer := signer s |}.

(** Whether [updateBuyModalData] goes past its first line. *)
Definition canReadAllowance (s : State) : bool :=
  signer s
  && match offer s with
     | Some o => JS.truthyStr (Enrichment.buyerAddress o)
     | None => false
     end.

(** [updateBuyModalData] once its reads have settled: the allowance and
    the balance read, or zero for both when a read throws. *)
Definition updateBuyModalData
    (reads : option (Ethers.BigNumber * Ethers.BigNumber)) (s : State) : State :=
  if canReadAllowance s then
    let '(currentAllowance, userBalance) := default (0, 0) reads in
    setIsAllowanceLoading false
      (setBalance userBalance (setAllowance currentAllowance s))
  else s.

(** [handleSetMaxAmount]: a [BigNumber] balance is never falsy; when the
    arithmetic throws no state is set. *)
Definition handleSetMaxAmount (s : State) : State :=
  match offer s with
  | None => s
  | Some o =>
      match maxAmountBN o (balance s) ≫= (fun m => Ethers.formatUnits m PRECISION) with
      | Some maxAmount => setBuyAmount maxAmount s
      | None => s
      end
  end.

(** [handleApprove] up to its first [await]. *)
Definition handleApprove (s : State) : State :=
  match offer s with
  | Some o =>
      if negb (signer s) || negb (JS.truthyStr (Enrichment.buyerAddress o))
         || negb (JS.nonEmpty (buyAmount s))
      then s
      else setTxStatus pending (setIsApproving true s)
  | None => s
  end.

(** [handleBuy] up to its first [await]; the three refusals only alert. *)
Definition handleBuy (s : State) : State :=
  match offer s with
  | Some o =>
      if negb (isConnected s) || negb (signer s) then s
      else if negb (JS.nonEmpty (buyAmount s))
              || PrimFloat.leb (JS.parseFloat (buyAmount s)) 0%float then s
      else if PrimFloat.ltb (JS.parseFloat (Enrichment.amount o))
                            (JS.parseFloat (buyAmount s)) then s
      else setTxStatus pending s
  | None => s
  end.

(** What the render of the modal derives before it draws the buttons:
    whether the allowance is below the cost of the amount typed in, and
    whether that cost could not be computed. *)
Record Render := {
  needsApproval : bool;
  calculationError : bool
}.

(** The cost of [buyAmount] tokens in units of the payment token, as the
    render and [handleApprove] compute it: the product of the two parsed
    numbers, rounded with [toFixed(decimals)], read again, written with
    [toString] and given to [parseUnits]. [None] when [toFixed] or
    [parseUnits] throws. *)
Definition amountNeeded (o : Enrichment.Offer) (buyAmount : string)
  : option Ethers.BigNumber :=
  let decimals :=
    match Enrichment.buyerDecimals o with
    | Some d => if d =? 0 then 18 else d
    | None => 18
    end in
  let totalCost :=
    (JS.parseFloat buyAmount * JS.parseFloat (Enrichment.price o))%float in
  fixed ← JS.toFixedChecked totalCost decimals;
  let totalCostRounded := JS.parseFloat fixed in
  Ethers.parseUnits (JS.toString totalCostRounded) decimals.

Definition costCheck (o : Enrichment.Offer) (buyAmount : string)
    (allowance : Ethers.BigNumber) : Render :=
  if JS.nonEmpty buyAmount && PrimFloat.ltb 0 (JS.parseFloat buyAmount) then
    if PrimFloat.is_nan
         (JS.parseFloat buyAmount * JS.parseFloat (Enrichment.price o))%float
    then {| needsApproval := false; calculationError := true |}
    else
      match amountNeeded o buyAmount with
      | Some needed =>
          {| needsApproval := allowance <? needed; calculationError := false |}
      | None => {| needsApproval := false; calculationError := true |}
      end
  else {| needsApproval := false; calculationError := false |}.

Definition render (s : State) : Render :=
  match offer s with
  | Some o => costCheck o (buyAmount s) (allowance s)
  | None => {| needsApproval := false; calculationError := false |}
  end.

Definition amountMissing (s : State) : bool :=
  negb (JS.nonEmpty (buyAmount s)) || PrimFloat.leb (JS.parseFloat (buyAmount s)) 0%float.

Definition isPending (s : State) : bool :=
  match txStatus s with pending => true | _ => false end.

(** The [disabled] attributes of the modal. *)
Definition inputDisabled (s : State) : bool := isPending s || isApproving s.

Definition cancelDisabled (s : State) : bool := isApproving s || isPending s.

Definition approveDisabled (r : Render) (s : State) : bool :=
  isApproving s || isPending s || isAllowanceLoading s || amountMissing s
  || calculationError r.

Definition buyDisabled (r : Render) (s : State) : bool :=
  amountMissing s || isApproving s || isPending s || needsApproval r
  || calculationError r.

(** The [Max] button carries no [disabled] attribute. *)
Definition maxDisabled (s : State) : bool := false.

(** The modal is drawn when [showBuyModal && offer]. *)
Definition modalShown (s : State) : bool :=
  showBuyModal s && match offer s with Some _ => true | None => false end.

(** What the user does in the modal. *)
Inductive UserEvent :=
| EditAmount (value : string)
| ClickMax
| ClickApprove
| ClickBuy
| ClickCancel
| ClickClose.

(** What the chain and the timers do: the reads of the modal start and
    settle, the pending transaction is confirmed or fails, the timer of a
    successful purchase fires, the offer is loaded again. *)
Inductive TxEvent :=
| ModalDataRequested
| ModalDataLoaded (reads : option (Ethers.BigNumber * Ethers.BigNumber))
| ApproveConfirmed (reads : option (Ethers.BigNumber * Ethers.BigNumber))
| ApproveFailed (message : string)
| BuyConfirmed
| BuyFailed (message : string)
| SuccessTimeout
| OfferLoaded (o : option Enrichment.Offer).

(** A user event on the modal as drawn: a control that is not drawn or is
    disabled does nothing. *)
Definition user (s : State) (e : UserEvent) : State :=
  let r := render s in
  if negb (modalShown s) then s
  else
    match e with
    | EditAmount v => if inputDisabled s then s else setBuyAmount v s
    | ClickMax => if maxDisabled s then s else handleSetMaxAmount s
    | ClickApprove =>
        if negb (needsApproval r) || approveDisabled r s then s else handleApprove s
    | ClickBuy =>
        if needsApproval r || buyDisabled r s then s else handleBuy s
    | ClickCancel => if cancelDisabled s then s else setShowBuyModal false s
    | ClickClose => setShowBuyModal false s
    end.

(** The effect that reads the allowance and the balance when the modal
    opens, and the continuations of [handleApprove] and [handleBuy] after
    their transaction: on a confirmed approval the allowance and the
    balance are read again and the status goes back to [idle]; on a
    confirmed purchase the status is [success] and a timer of two seconds
    closes the modal and starts [loadOffer], which sets the offer when it
    completes. *)
Definition tx (s : State) (e : TxEvent) : State :=
  match e with
  | ModalDataRequested =>
      if showBuyModal s && canReadAllowance s
      then setIsAllowanceLoading true s else s
  | ModalDataLoaded reads => updateBuyModalData reads s
  | ApproveConfirmed reads =>
      setIsApproving false (setTxStatus idle (updateBuyModalData reads s))
  | ApproveFailed message =>
      setIsApproving false
        (setTxStatus error
           (setTxError (Some ("Error approving token: " ++ message)) s))
  | BuyConfirmed => setTxStatus success s
  | BuyFailed message =>
      setTxStatus error (setTxError (Some ("Error buying token: " ++ message)) s)
  | SuccessTimeout =>
      setBuyAmount "" (setTxStatus idle (setShowBuyModal false s))
  | OfferLoaded o => setOffer o s
  end.

(** [x || 18] on an optional number of decimals. *)
Definition decimalsOr18 (x : option Z) : Z :=
  match x with
  | Some d => if d =? 0 then 18 else d
  | None => 18
  end.

(** The arguments [handleBuy] gives to [contract.buy]: the identifier as
    a number, the displayed price in units of the payment token and the
    amount typed in in units of the sold token. [None] when a
    [parseUnits] throws. *)
Definition buyArguments (o : Enrichment.Offer) (buyAmount : string)
  : option (JS.number * Ethers.BigNumber * Ethers.BigNumber) :=
  let offerId := JS.Number (Enrichment.id o) in
  price ← Ethers.parseUnits (Enrichment.price o)
            (decimalsOr18 (Enrichment.buyerDecimals o));
  amount ← Ethers.parseUnits buyAmount (decimalsOr18 (Enrichment.offerDecimals o));
  Some (offerId, price, amount).

(** The [Buy this offer] button of the page: it is drawn for an active
    offer, disabled without a connected wallet, and opens the modal. *)
Definition buyOfferShown (s : State) : bool :=
  match offer s with
  | Some o =>
      match Enrichment.status o with
      | Enrichment.active => true
      | _ => false
      end
  | None => false
  end.

Definition buyOfferDisabled (s : State) : bool := negb (isConnected s).

Definition clickBuyOffer (s : State) : State :=
  if buyOfferShown s && negb (buyOfferDisabled s) then setShowBuyModal true s
  else s.

End Purchase.

(** ** Loading an offer: [YamAPI.getOffer] and [loadOffer] of [Home] *)

Module Loading.

(** [YamAPI.getOffer]: [fetchOfferRpc] under a [catch] that gives [null]. *)
Definition getOffer (rpc : Gateway.Rpc) (offerId : string) : option Gateway.YamOffer :=
  Gateway.fetchOfferRpc rpc offerId.

(** The state of [Home] the loading sets. *)
Record State := {
  searchId : string;
  offer : option Enrichment.Offer;
  loading : bool;
  error : option string
}.

(** [loadOffer(id)] when it has completed: the offer of the gateway is
    enriched on the registry cache, the ERC-20 reads and the clock of
    that moment; a [combineOfferData] that throws is caught. *)
Definition loadOffer (rpc : Gateway.Rpc) (registry : RealTokenAPI.State)
    (chainReads : Enrichment.Erc20) (now : Z) (id : string) (s : State) : State :=
  match getOffer rpc id with
  | Some yamOffer =>
      match Enrichment.combineOfferData registry chainReads now yamOffer with
      | Some combinedOffer =>
          {| searchId := id; offer := Some combinedOffer;
             loading := false; error := None |}
      | None =>
          {| searchId := searchId s; offer := None; loading := false;
             error := Some ("Error loading offer #" ++ id) |}
      end
  | None =>
      {| searchId := searchId s; offer := None; loading := false;
         error := Some ("Offer #" ++ id ++ " not found") |}
  end.

End Loading.

(** ** Addresses as they are displayed *)

Module Display.

(** [shortenAddress] of [pages/index.tsx]. *)
Definition shortenAddress (address : string) : string :=
  JS.slice address 0 (Some 6) ++ "..." ++ JS.slice address (-4) None.

End Display.

Module ConnectButton.

(** [shortenAddress] of [ConnectButton]: an empty address gives the empty
    string. *)
Definition shortenAddress (address : string) : string :=
  if negb (JS.nonEmpty address) then ""
  else JS.slice address 0 (Some 6) ++ "..." ++ JS.slice address (-4) None.

End ConnectButton.

(** ** Sample values *)

Module Samples.

(** Offer 7 of the specification: 2 USDC a token, 26.031567 tokens. *)
Definition offer7 : Gateway.YamOffer :=
  {| Gateway.offerId := "7";
     Gateway.buyerTokenAddress := "0xDDAfbb505ad214D7b80b1f830fcCc89B60fb7A83";
     Gateway.offerTokenAddress := "0x9528a7402C0Fe85B817aa6E106EAFa03A02924c4";
     Gateway.buyerAddress := "0x1111111111111111111111111111111111111111";
     Gateway.price := "2000000";
     Gateway.amount := "26031567000000000000";
     Gateway.type := 0;
     Gateway.createdAt := "0";
     Gateway.removedAt := None;
     Gateway.offerTokenDecimals := Some 18;
     Gateway.buyerTokenDecimals := Some 6 |}.

(** The same offer with a price of zero. *)
Definition freeOffer : Gateway.YamOffer :=
  {| Gateway.offerId := "8";
     Gateway.buyerTokenAddress := Gateway.buyerTokenAddress offer7;
     Gateway.offerTokenAddress := Gateway.offerTokenAddress offer7;
     Gateway.buyerAddress := Gateway.buyerAddress offer7;
     Gateway.price := "0";
     Gateway.amount := Gateway.amount offer7;
     Gateway.type := 0;
     Gateway.createdAt := "0";
     Gateway.removedAt := None;
     Gateway.offerTokenDecimals := Some 18;
     Gateway.buyerTokenDecimals := Some 6 |}.

(** A chain on which every [name()] and [symbol()] read fails. *)
Definition noReads : Enrichment.Erc20 :=
  {| Enrichment.erc20Name := fun _ => None;
     Enrichment.erc20Symbol := fun _ => None |}.

(** The sold token of offer 7 in the registry: 50 USD a token, a yearly
    net rent of 5000 USD over 1000 tokens. *)
Definition property7 (netRentYear totalTokens : option JS.number)
  : RealTokenAPI.RealToken :=
  {| Server.tokenAddress := "0x9528a7402C0Fe85B817aa6E106EAFa03A02924c4";
     Server.shortName := Some "Sample St";
     Server.fullName := Some "Sample St, Detroit";
     Server.tokenPrice := Some 50%float;
     Server.netRentYear := netRentYear;
     Server.imageLink := None;
     Server.marketplaceLink := None;
     Server.totalTokens :=
       match totalTokens with Some x => JS.num x | None => JS.absent end;
     Server.rentStartDate := None |}.

Definition registryWith (token : RealTokenAPI.RealToken) : RealTokenAPI.State :=
  {| RealTokenAPI.cache :=
       {[ JS.toLowerCase (Server.tokenAddress token) := token ]};
     RealTokenAPI.cacheTimestamp := Some 1700000000000;
     RealTokenAPI.initializationPromise := None |}.

Definition emptyRegistry : RealTokenAPI.State :=
  RealTokenAPI.api RealTokenAPI.initial.

(** A cache file written long ago, with one token. *)
Definition oldFile : Server.CacheFile :=
  {| Server.lastUpdated := 1600000000000;
     Server.tokens :=
       [ ("0x9528a7402c0fe85b817aa6e106eafa03a02924c4",
          property7 (Some 5000%float) (Some 1000%float)) ] |}.

(** Two tokens as the registry lists them: one known by its Gnosis
    contract only, one without any address. *)
Definition listed : list Server.RegistryToken :=
  [ {| Server.r_tokenAddress := None; Server.r_address := None;
       Server.r_contractAddress := None; Server.r_ethereumContract := Some "";
       Server.r_xDaiContract := None;
       Server.r_gnosisContract := Some "0x9528a7402C0Fe85B817aa6E106EAFa03A02924c4";
       Server.r_shortName := Some "Sample St";
       Server.r_fullName := Some "Sample St, Detroit";
       Server.r_tokenPrice := Some 50%float;
       Server.r_netRentYear := Some 5000%float;
       Server.r_imageLink := None; Server.r_marketplaceLink := None;
       Server.r_totalTokens := JS.num 1000%float;
       Server.r_rentStartDate := None |};
    {| Server.r_tokenAddress := None; Server.r_address := None;
       Server.r_contractAddress := None; Server.r_ethereumContract := None;
       Server.r_xDaiContract := None; Server.r_gnosisContract := None;
       Server.r_shortName := Some "Unlisted"; Server.r_fullName := None;
       Server.r_tokenPrice := None; Server.r_netRentYear := None;
       Server.r_imageLink := None; Server.r_marketplaceLink := None;
       Server.r_totalTokens := JS.absent; Server.r_rentStartDate := None |} ].

(** A configured service whose registry answers with those tokens. *)
Definition answering : Server.Env :=
  {| Server.NEXT_PUBLIC_COMMUNITY_API_URI := None;
     Server.COMMUNITY_API_URI := Some "https://api.realtoken.community/v1";
     Server.COMMUNITY_API_KEY := Some "key";
     Server.registry := Server.Reply 200 (Server.JsonArray listed);
     Server.diskFault := Server.NoFault;
     Server.clock := fun n => 1700000000000 + Z.of_nat n |}.

Definition getRequest : Server.Request :=
  {| Server.method := "GET"; Server.refresh := None |}.

(** A configured service whose registry cannot be reached. *)
Definition unreachable : Server.Env :=
  {| Server.NEXT_PUBLIC_COMMUNITY_API_URI := None;
     Server.COMMUNITY_API_URI := Some "https://api.realtoken.community/v1";
     Server.COMMUNITY_API_KEY := Some "key";
     Server.registry := Server.NetworkError;
     Server.diskFault := Server.NoFault;
     Server.clock := fun n => 1700000000000 + Z.of_nat n |}.

(** A service without its API key. *)
Definition unconfigured : Server.Env :=
  {| Server.NEXT_PUBLIC_COMMUNITY_API_URI := None;
     Server.COMMUNITY_API_URI := Some "https://api.realtoken.community/v1";
     Server.COMMUNITY_API_KEY := None;
     Server.registry := Server.NetworkError;
     Server.diskFault := Server.NoFault;
     Server.clock := fun n => 1700000000000 + Z.of_nat n |}.

Definition worldWith (file : option Server.CacheFile) : Server.World :=
  {| Server.disk := file; Server.ticks := 0; Server.registryCalls := 0 |}.

(** A chain with two offers whose tokens answer no [decimals()] call. *)
Definition plainChain : Gateway.Rpc :=
  {| Gateway.getOfferCount := Some 2;
     Gateway.showOffer := fun _ =>
       Some {| Gateway.value0 := "0x9528a7402C0Fe85B817aa6E106EAFa03A02924c4";
               Gateway.value1 := "0xDDAfbb505ad214D7b80b1f830fcCc89B60fb7A83";
               Gateway.seller := "0x1111111111111111111111111111111111111111";
               Gateway.buyer := "0x0000000000000000000000000000000000000000";
               Gateway.priceBN := 2000000;
               Gateway.amountBN := 26031567000000000000 |};
     Gateway.decimals := fun _ => None |}.

(** Offer 7 as the page shows it when the registry does not know its
    token and the chain gives no name: enriched at 1700000000000. *)
Definition display7 : Enrichment.Offer :=
  {| Enrichment.id := "7";
     Enrichment.price := "2.00";
     Enrichment.reversePrice := "0.50";
     Enrichment.amount := "26.031567";
     Enrichment.seller := "0x1111111111111111111111111111111111111111";
     Enrichment.status := Enrichment.active;
     Enrichment.createdAt := 1700000000000;
     Enrichment.chain := Enrichment.gnosis;
     Enrichment.tokenDetails := None;
     Enrichment.offerAddress := "0x9528a7402C0Fe85B817aa6E106EAFa03A02924c4";
     Enrichment.offerDecimals := Some 18;
     Enrichment.offerSymbol := "Unknown property";
     Enrichment.buyerAddress := Some "0xDDAfbb505ad214D7b80b1f830fcCc89B60fb7A83";
     Enrichment.buyerDecimals := Some 6;
     Enrichment.buyerSymbol := Some "USDC";
     Enrichment.officialPriceUsd := Some 1%float;
     Enrichment.priceDiff := Some 1%float;
     Enrichment.priceDiffPct := Some 100%float;
     Enrichment.offerYieldPct := None;
     Enrichment.officialYieldPct := None;
     Enrichment.offerYieldDiff := None;
     Enrichment.offerYieldDiffPct := None |}.

(** The modal on that offer with ten USDC in the wallet, an amount of 1
    typed in and a purchase waiting for its confirmation. *)
Definition waiting7 : Purchase.State :=
  {| Purchase.offer := Some display7;
     Purchase.buyAmount := "1";
     Purchase.showBuyModal := true;
     Purchase.txStatus := Purchase.pending;
     Purchase.allowance := 2000000;
     Purchase.isAllowanceLoading := false;
     Purchase.isApproving := false;
     Purchase.txError := None;
     Purchase.balance := 10000000;
     Purchase.isConnected := true;
     Purchase.signer := true |}.

(** A cache file written a second before the clock of the samples
    starts. *)
Definition freshFile : Server.CacheFile :=
  {| Server.lastUpdated := 1699999999000;
     Server.tokens := Server.tokens oldFile |}.

Definition refreshRequest : Server.Request :=
  {| Server.method := "GET"; Server.refresh := Some "true" |}.



(** The session of the page while its first refresh is in flight, after
    that refresh has loaded [oldFile], and after it has failed. *)
Definition refreshing : RealTokenAPI.World :=
  {| RealTokenAPI.api :=
       {| RealTokenAPI.cache := ∅;
          RealTokenAPI.cacheTimestamp := None;
          RealTokenAPI.initializationPromise := Some 0%nat |};
     RealTokenAPI.nextPromise := 1%nat;
     RealTokenAPI.inflight := [0%nat];
     RealTokenAPI.fetches := 1%nat |}.

Definition loaded : RealTokenAPI.World :=
  {| RealTokenAPI.api :=
       {| RealTokenAPI.cache :=
            {[ "0x9528a7402c0fe85b817aa6e106eafa03a02924c4"
               := property7 (Some 5000%float) (Some 1000%float) ]};
          RealTokenAPI.cacheTimestamp := Some 1600000000000;
          RealTokenAPI.initializationPromise := None |};
     RealTokenAPI.nextPromise := 1%nat;
     RealTokenAPI.inflight := [];
     RealTokenAPI.fetches := 1%nat |}.

Definition failedOnce : RealTokenAPI.World :=
  {| RealTokenAPI.api :=
       {| RealTokenAPI.cache := ∅;
          RealTokenAPI.cacheTimestamp := Some 1700000001000;
          RealTokenAPI.initializationPromise := None |};
     RealTokenAPI.nextPromise := 1%nat;
     RealTokenAPI.inflight := [];
     RealTokenAPI.fetches := 1%nat |}.

(** A chain with a hundred offers whose tokens answer [decimals()]: 6 for
    USDC, 18 for any other token. *)
Definition gnosisChain : Gateway.Rpc :=
  {| Gateway.getOfferCount := Some 100;
     Gateway.showOffer := Gateway.showOffer plainChain;
     Gateway.decimals := fun tokenAddress =>
       if String.eqb (JS.toLowerCase tokenAddress)
            "0xddafbb505ad214d7b80b1f830fccc89b60fb7a83"
       then Some 6 else Some 18 |}.

(** An offer that sells WXDAI for USDC. *)
Definition swapOffer : Gateway.YamOffer :=
  {| Gateway.offerId := "9";
     Gateway.buyerTokenAddress := "0xDDAfbb505ad214D7b80b1f830fcCc89B60fb7A83";
     Gateway.offerTokenAddress := "0xe91D153E0b41518A2Ce8Dd3D7944Fa863463a97d";
     Gateway.buyerAddress := "0x1111111111111111111111111111111111111111";
     Gateway.price := "1000000";
     Gateway.amount := "5000000000000000000";
     Gateway.type := 0;
     Gateway.createdAt := "0";
     Gateway.removedAt := None;
     Gateway.offerTokenDecimals := Some 18;
     Gateway.buyerTokenDecimals := Some 6 |}.

(** The metadata of USDC in [STABLE_TOKENS]. *)
Definition usdc : Enrichment.StableMeta :=
  {| Enrichment.symbol := "USDC"; Enrichment.decimals := 6;
     Enrichment.name := None |}.

(** Offer 7 priced in WXDAI, a payment token of 18 decimals: 2 WXDAI a
    token. *)
Definition wxdaiOffer : Gateway.YamOffer :=
  {| Gateway.offerId := "10";
     Gateway.buyerTokenAddress := "0xe91D153E0b41518A2Ce8Dd3D7944Fa863463a97d";
     Gateway.offerTokenAddress := Gateway.offerTokenAddress offer7;
     Gateway.buyerAddress := Gateway.buyerAddress offer7;
     Gateway.price := "2000000000000000000";
     Gateway.amount := Gateway.amount offer7;
     Gateway.type := 0;
     Gateway.createdAt := "0";
     Gateway.removedAt := None;
     Gateway.offerTokenDecimals := Some 18;
     Gateway.buyerTokenDecimals := Some 18 |}.

(** [wxdaiOffer] as the page shows it. *)
Definition wxdaiDisplay : Enrichment.Offer :=
  {| Enrichment.id := "10";
     Enrichment.price := "2.00";
     Enrichment.reversePrice := "0.50";
     Enrichment.amount := "26.031567";
     Enrichment.seller := "0x1111111111111111111111111111111111111111";
     Enrichment.status := Enrichment.active;
     Enrichment.createdAt := 1700000000000;
     Enrichment.chain := Enrichment.gnosis;
     Enrichment.tokenDetails := None;
     Enrichment.offerAddress := "0x9528a7402C0Fe85B817aa6E106EAFa03A02924c4";
     Enrichment.offerDecimals := Some 18;
     Enrichment.offerSymbol := "Unknown property";
     Enrichment.buyerAddress := Some "0xe91D153E0b41518A2Ce8Dd3D7944Fa863463a97d";
     Enrichment.buyerDecimals := Some 18;
     Enrichment.buyerSymbol := Some "WXDAI";
     Enrichment.officialPriceUsd := Some 1%float;
     Enrichment.priceDiff := Some 1%float;
     Enrichment.priceDiffPct := Some 100%float;
     Enrichment.offerYieldPct := None;
     Enrichment.officialYieldPct := None;
     Enrichment.offerYieldDiff := None;
     Enrichment.offerYieldDiffPct := None |}.

(** [freeOffer] as the page shows it. *)
Definition freeDisplay : Enrichment.Offer :=
  {| Enrichment.id := "8";
     Enrichment.price := "0.00";
     Enrichment.reversePrice := "Infinity";
     Enrichment.amount := "26.031567";
     Enrichment.seller := "0x1111111111111111111111111111111111111111";
     Enrichment.status := Enrichment.active;
     Enrichment.createdAt := 1700000000000;
     Enrichment.chain := Enrichment.gnosis;
     Enrichment.tokenDetails := None;
     Enrichment.offerAddress := "0x9528a7402C0Fe85B817aa6E106EAFa03A02924c4";
     Enrichment.offerDecimals := Some 18;
     Enrichment.offerSymbol := "Unknown property";
     Enrichment.buyerAddress := Some "0xDDAfbb505ad214D7b80b1f830fcCc89B60fb7A83";
     Enrichment.buyerDecimals := Some 6;
     Enrichment.buyerSymbol := Some "USDC";
     Enrichment.officialPriceUsd := Some 1%float;
     Enrichment.priceDiff := Some (-1)%float;
     Enrichment.priceDiffPct := Some (-100)%float;
     Enrichment.offerYieldPct := None;
     Enrichment.officialYieldPct := None;
     Enrichment.offerYieldDiff := None;
     Enrichment.offerYieldDiffPct := None |}.

(** The modal just opened on an offer by a connected wallet, with an
    amount typed in and the allowance and the balance read. *)
Definition opened (o : Enrichment.Offer) (amount : string)
    (allowance balance : Ethers.BigNumber) : Purchase.State :=
  {| Purchase.offer := Some o;
     Purchase.buyAmount := amount;
     Purchase.showBuyModal := true;
     Purchase.txStatus := Purchase.idle;
     Purchase.allowance := allowance;
     Purchase.isAllowanceLoading := false;
     Purchase.isApproving := false;
     Purchase.txError := None;
     Purchase.balance := balance;
     Purchase.isConnected := true;
     Purchase.signer := true |}.

(** Nothing loaded yet on the page. *)
Definition blank : Loading.State :=
  {| Loading.searchId := ""; Loading.offer := None;
     Loading.loading := true; Loading.error := None |}.

(** [gnosisChain] once the tokens of its offers are all sold, offer 7 as
    the gateway returns it then, and as the page shows it. *)
Definition soldOutChain : Gateway.Rpc :=
  {| Gateway.getOfferCount := Some 100;
     Gateway.showOffer := fun _ =>
       Some {| Gateway.value0 := "0x9528a7402C0Fe85B817aa6E106EAFa03A02924c4";
               Gateway.value1 := "0xDDAfbb505ad214D7b80b1f830fcCc89B60fb7A83";
               Gateway.seller := "0x1111111111111111111111111111111111111111";
               Gateway.buyer := "0x0000000000000000000000000000000000000000";
               Gateway.priceBN := 2000000;
               Gateway.amountBN := 0 |};
     Gateway.decimals := Gateway.decimals gnosisChain |}.

Definition soldOut7 : Gateway.YamOffer :=
  {| Gateway.offerId := "7";
     Gateway.buyerTokenAddress := "0xDDAfbb505ad214D7b80b1f830fcCc89B60fb7A83";
     Gateway.offerTokenAddress := "0x9528a7402C0Fe85B817aa6E106EAFa03A02924c4";
     Gateway.buyerAddress := "0x1111111111111111111111111111111111111111";
     Gateway.price := "2000000";
     Gateway.amount := "0";
     Gateway.type := 0;
     Gateway.createdAt := "0";
     Gateway.removedAt := None;
     Gateway.offerTokenDecimals := Some 18;
     Gateway.buyerTokenDecimals := Some 6 |}.

Definition soldOutDisplay : Enrichment.Offer :=
  {| Enrichment.id := "7";
     Enrichment.price := "2.00";
     Enrichment.reversePrice := "0.50";
     Enrichment.amount := "0.000000";
     Enrichment.seller := "0x1111111111111111111111111111111111111111";
     Enrichment.status := Enrichment.sold;
     Enrichment.createdAt := 1700000000000;
     Enrichment.chain := Enrichment.gnosis;
     Enrichment.tokenDetails := None;
     Enrichment.offerAddress := "0x9528a7402C0Fe85B817aa6E106EAFa03A02924c4";
     Enrichment.offerDecimals := Some 18;
     Enrichment.offerSymbol := "Unknown property";
     Enrichment.buyerAddress := Some "0xDDAfbb505ad214D7b80b1f830fcCc89B60fb7A83";
     Enrichment.buyerDecimals := Some 6;
     Enrichment.buyerSymbol := Some "USDC";
     Enrichment.officialPriceUsd := Some 1%float;
     Enrichment.priceDiff := Some 1%float;
     Enrichment.priceDiffPct := Some 100%float;
     Enrichment.offerYieldPct := None;
     Enrichment.officialYieldPct := None;
     Enrichment.offerYieldDiff := None;
     Enrichment.offerYieldDiffPct := None |}.

(** The page on an offer, the modal closed, the wallet connected. *)
Definition viewing (o : Enrichment.Offer) : Purchase.State :=
  {| Purchase.offer := Some o;
     Purchase.buyAmount := "";
     Purchase.showBuyModal := false;
     Purchase.txStatus := Purchase.idle;
     Purchase.allowance := 0;
     Purchase.isAllowanceLoading := false;
     Purchase.isApproving := false;
     Purchase.txError := None;
     Purchase.balance := 0;
     Purchase.isConnected := true;
     Purchase.signer := true |}.

End Samples.

(** * Properties *)

(** ** The platform functions on known values *)

Section PlatformChecks.

Example toFixed_rounds_the_binary_value :
  JS.toFixed (JS.Number "1.005") 2 = "1.00"
  /\ JS.toFixed (JS.Number "2.5") 0 = "3"
  /\ JS.toFixed (JS.Number "1.45") 1 = "1.4"
  /\ JS.toFixed (JS.Number "-0.001") 2 = "-0.00"
  /\ JS.toFixed (JS.Number "26.031567") 6 = "26.031567".
Proof. vm_compute. repeat split. Qed.

Example toFixed_of_special_values :
  JS.toFixed JS.Infinity 2 = "Infinity"
  /\ JS.toFixed JS.NaN 2 = "NaN"
  /\ JS.toFixed (JS.Number "1e21") 2 = "1e+21"
  /\ JS.toFixed (JS.Number "123456789012345680000") 2 = "123456789012345683968.00".
Proof. vm_compute. repeat split. Qed.

Example toString_is_shortest :
  JS.toString (JS.Number "0.1" + JS.Number "0.2")%float = "0.30000000000000004"
  /\ JS.toString (1 / 3)%float = "0.3333333333333333"
  /\ JS.toString (JS.Number "1e21") = "1e+21"
  /\ JS.toString (JS.Number "0.0000001") = "1e-7"
  /\ JS.toString (JS.Number "9007199254740993") = "9007199254740992"
  /\ JS.toString (JS.Number "5e-324") = "5e-324".
Proof. vm_compute. repeat split. Qed.

Example Number_of_strings :
  JS.Number "" = 0%float
  /\ JS.Number " 7 " = 7%float
  /\ JS.Number "0x1F" = 31%float
  /\ JS.Number "1e3" = 1000%float
  /\ JS.Number "12px" = JS.NaN
  /\ JS.Number "-0x10" = JS.NaN
  /\ JS.Number "Infinity" = JS.Infinity.
Proof. vm_compute. repeat split. Qed.

Example parseFloat_and_parseInt_read_a_prefix :
  JS.parseFloat "1.5e3xyz" = 1500%float
  /\ JS.parseFloat ".5" = 0.5%float
  /\ JS.parseFloat "" = JS.NaN
  /\ JS.parseFloat "0x10" = 0%float
  /\ JS.parseInt "42px" = 42%float
  /\ JS.parseInt "0x1f" = 31%float
  /\ JS.parseInt "abc" = JS.NaN.
Proof. vm_compute. repeat split. Qed.

Example formatUnits_and_parseUnits :
  Ethers.formatUnits 26031567000000000000 18 = Some "26.031567"
  /\ Ethers.formatUnits 2000000 6 = Some "2.0"
  /\ Ethers.formatUnits 1 18 = Some "0.000000000000000001"
  /\ Ethers.formatUnits 5 257 = None
  /\ Ethers.parseUnits "2.00" 6 = Some 2000000
  /\ Ethers.parseUnits "26.031567" 6 = Some 26031567
  /\ Ethers.parseUnits "26.0315671" 6 = None
  /\ Ethers.parseUnits "Infinity" 6 = None
  /\ Ethers.parseUnits "1e+21" 6 = None
  /\ Ethers.parseUnits "." 6 = None.
Proof. vm_compute. repeat split. Qed.

End PlatformChecks.

(** ** The cache service *)

Section ServerProperties.

Import Server.
Implicit Types (env : Env) (req : Request) (w : World) (c : CacheFile).

Lemma diskWritable_true env : diskWritable env = true -> diskFault env = NoFault.
Proof. unfold diskWritable. by destruct (diskFault env). Qed.

Lemma handlerTry_status env req w r w' :
  handlerTry env req w = (Some r, w') -> status r = 200.
Proof.
  unfold handlerTry, logCache, isCacheValid, fetchAllTokens, writeCache, ensureDataDir,
    refreshFailed, now.
  intros H. repeat (case_match; simplify_eq/=); reflexivity.
Qed.

Lemma handlerCatch_status env w : status (fst (handlerCatch env w)) = 200.
Proof. unfold handlerCatch. destruct (readCache w); reflexivity. Qed.

(** Every GET request is answered with status 200. *)
Lemma handler_get_status env req w :
  method req = "GET" -> status (fst (handler env req w)) = 200.
Proof.
  intros Hm. unfold handler. rewrite Hm. simpl.
  destruct (handlerTry env req w) as [[r|] w'] eqn:E.
  - simpl. eapply handlerTry_status; eauto.
  - apply handlerCatch_status.
Qed.

(** Any other method is answered with status 405. *)
Lemma handler_other_method env req w :
  method req <> "GET" -> status (fst (handler env req w)) = 405.
Proof.
  intros Hm. unfold handler.
  destruct (String.eqb_spec (method req) "GET") as [E|E]; [contradiction|].
  reflexivity.
Qed.


(** A configured service with no cache file, or with one that is stale
    at both readings of the clock, asks the registry exactly once; one
    with a file that is valid, and no forced refresh, does not ask. *)
Lemma handler_asks_registry_once env req w :
  method req = "GET" ->
  configured env = true ->
  match disk w with
  | None => True
  | Some c =>
      JS.validTime (lastUpdated c) = true
      /\ CACHE_MAX_AGE_MS <= clock env (S (ticks w)) - lastUpdated c
      /\ CACHE_MAX_AGE_MS <= clock env (S (S (ticks w))) - lastUpdated c
  end ->
  registryCalls (snd (handler env req w)) = S (registryCalls w).
Proof.
  intros Hm Hc Hd. unfold handler. rewrite Hm. simpl.
  unfold handlerTry, handlerCatch, logCache, isCacheValid, fetchAllTokens,
    writeCache, ensureDataDir, refreshFailed, readCache, now.
  unfold configured in Hc. apply andb_true_iff in Hc as [Hc1 Hc2].
  rewrite Hc1, Hc2. simpl.
  destruct (disk w) as [c|] eqn:Ed; simpl.
  - destruct Hd as (Hv & H1 & H2). rewrite Hv. simpl.
    apply Z.ltb_ge in H1, H2. rewrite H1, H2. simpl.
    destruct (diskFault env); reflexivity.
  - destruct (diskFault env); simpl; rewrite ?Ed; reflexivity.
Qed.

Lemma handler_serves_valid_cache env req w c :
  method req = "GET" ->
  refresh req = None ->
  disk w = Some c ->
  JS.validTime (lastUpdated c) = true ->
  clock env (S (ticks w)) - lastUpdated c < CACHE_MAX_AGE_MS ->
  fst (handler env req w) = ok200 (payloadOfCache c)
  /\ registryCalls (snd (handler env req w)) = registryCalls w.
Proof.
  intros Hm Hr Hd Hv Ht. unfold handler. rewrite Hm. simpl.
  unfold handlerTry, logCache, isCacheValid, readCache, now.
  rewrite Hd, Hr, Hv. simpl. apply Z.ltb_lt in Ht. rewrite Ht. simpl. done.
Qed.

(** [fetchAllTokens] throws exactly when the configuration is missing:
    no answer of the registry makes it throw. *)
Lemma fetchAllTokens_throws env w :
  fst (fetchAllTokens env w) = None <-> configured env = false.
Proof.
  unfold fetchAllTokens, configured.
  destruct (JS.truthyStr (JS.orStr _ _)), (JS.truthyStr (COMMUNITY_API_KEY env));
    simpl; split; intros H; congruence.
Qed.

(** When the refresh throws (the configuration is missing, or the file
    cannot be written) and a cache file exists, the answer is that file
    and the file is left as it is. *)
Lemma handler_stale_serve env req w c :
  method req = "GET" ->
  disk w = Some c ->
  configured env = false \/ diskWritable env = false ->
  fst (handler env req w) = ok200 (payloadOfCache c)
  /\ disk (snd (handler env req w)) = Some c.
Proof.
  intros Hm Hd Hf. unfold handler. rewrite Hm. simpl.
  unfold handlerTry, handlerCatch, logCache, isCacheValid, fetchAllTokens,
    writeCache, ensureDataDir, refreshFailed, readCache, now.
  unfold configured in Hf. rewrite Hd. simpl.
  destruct Hf as [Hf|Hf].
  - destruct (JS.truthyStr (JS.orStr _ _)) eqn:E1,
      (JS.truthyStr (COMMUNITY_API_KEY env)) eqn:E2; simpl in *;
      try discriminate; repeat (case_match; simplify_eq/=); done.
  - unfold diskWritable in Hf.
    destruct (diskFault env); [discriminate|..];
      repeat (case_match; simplify_eq/=); done.
Qed.

(** When the refresh throws and no cache file can be read, the answer is
    the empty cache with its [error] member. *)
Lemma handler_empty_with_error env req w :
  method req = "GET" ->
  disk w = None ->
  configured env = false ->
  fst (handler env req w)
  = ok200 {| p_lastUpdated := Some (clock env (ticks w));
             p_tokens := Some [];
             p_error := Some "Cache temporarily unavailable" |}.
Proof.
  intros Hm Hd Hf. unfold handler. rewrite Hm. simpl.
  unfold handlerTry, handlerCatch, logCache, isCacheValid, fetchAllTokens,
    writeCache, ensureDataDir, refreshFailed, readCache, now.
  unfold configured in Hf. rewrite Hd. simpl.
  destruct (JS.truthyStr (JS.orStr _ _)) eqn:E1,
    (JS.truthyStr (COMMUNITY_API_KEY env)) eqn:E2; simpl in *;
    try discriminate; rewrite Hd; reflexivity.
Qed.

(** A configured service whose registry request fails in any way takes
    the empty list for the registry's answer. *)
Lemma fetchAllTokens_swallows env w :
  configured env = true ->
  tryTokensEndpoint (registry env) = None ->
  fst (fetchAllTokens env w) = Some [].
Proof.
  unfold configured, fetchAllTokens. intros Hc Ht.
  apply andb_true_iff in Hc as [-> ->]. simpl. by rewrite Ht.
Qed.

(** A first request to a configured service whose registry answers: the
    token with an address is cached under its lower-case address, the one
    without is skipped, and the file is written. *)
Example first_request_fills_cache :
  let '(response, w) :=
    handler Samples.answering Samples.getRequest (Samples.worldWith None) in
  status response = 200
  /\ p_tokens (body response) = Some (tokens Samples.oldFile)
  /\ p_error (body response) = None
  /\ disk w = Some {| lastUpdated := 1700000000000;
                      tokens := tokens Samples.oldFile |}
  /\ registryCalls w = 1%nat.
Proof. vm_compute. repeat split; reflexivity. Qed.

(** A configured service whose registry request fails, asked without a
    cache file: the empty record is written and returned as a fresh cache,
    without an [error] member. *)
Lemma handler_swallows_registry_failure env req w :
  method req = "GET" ->
  disk w = None ->
  configured env = true ->
  diskWritable env = true ->
  tryTokensEndpoint (registry env) = None ->
  fst (handler env req w)
  = ok200 {| p_lastUpdated := Some (clock env (S (ticks w)));
             p_tokens := Some [];
             p_error := None |}
  /\ disk (snd (handler env req w))
     = Some {| lastUpdated := clock env (ticks w); tokens := [] |}.
Proof.
  intros Hm Hd Hc Hw Ht. apply diskWritable_true in Hw.
  unfold handler. rewrite Hm. simpl.
  unfold handlerTry, logCache, isCacheValid, fetchAllTokens, writeCache, ensureDataDir,
    readCache, now.
  unfold configured in Hc. apply andb_true_iff in Hc as [Hc1 Hc2].
  rewrite Hd. simpl. rewrite Hc1, Hc2, Ht, Hw. simpl. done.
Qed.

(** The same failure with an old cache file: the file is replaced by the
    empty cache. *)
Example unreachable_registry_overwrites_cache :
  let '(response, w) :=
    handler Samples.unreachable Samples.getRequest
      (Samples.worldWith (Some Samples.oldFile)) in
  status response = 200
  /\ p_tokens (body response) = Some []
  /\ p_error (body response) = None
  /\ disk w = Some {| lastUpdated := 1700000000003; tokens := [] |}.
Proof. vm_compute. repeat split; reflexivity. Qed.

(** C9, at the input on which the code leaves the claim: a GET request,
    no cache file, a configured service and a registry that cannot be
    reached. The answer has status 200 and an empty [tokens] member, as
    the claim says, but no [error] member; and the empty cache is written
    to the file, where it is valid for a day. *)
Theorem unreachable_registry_without_cache :
  let '(response, w) :=
    handler Samples.unreachable Samples.getRequest (Samples.worldWith None) in
  status response = 200
  /\ p_tokens (body response) = Some []
  /\ p_error (body response) = None
  /\ disk w = Some {| lastUpdated := 1700000000000; tokens := [] |}
  /\ registryCalls w = 1%nat.
Proof. vm_compute. repeat split; reflexivity. Qed.

End ServerProperties.

(** ** The in-memory registry cache *)

Section CacheProperties.

Import RealTokenAPI.
Implicit Types (w : World) (s : State) (t now : Z).


(** A call of [initializeCache] touches neither the map nor the
    timestamp. *)
Lemma initializeCache_cache now w :
  cache (api (snd (initializeCache now w))) = cache (api w)
  /\ cacheTimestamp (api (snd (initializeCache now w))) = cacheTimestamp (api w).
Proof.
  unfold initializeCache. destruct (isFresh _ _); [done|].
  destruct (initializationPromise (api w)); done.
Qed.

Lemma settleState_promise now r s :
  initializationPromise (settleState now r s) = None.
Proof. unfold settleState. repeat case_match; done. Qed.





(** Calls that find a fresh cache resolve at once and send nothing. *)
Lemma calls_fresh ts w :
  Forall (fun t => isFresh (api w) t = true) ts ->
  calls ts w = (repeat Resolved (length ts), w).
Proof.
  induction 1 as [|t ts Ht _ IH]; [done|].
  simpl. unfold initializeCache. by rewrite Ht, IH.
Qed.

(** Calls that come while a refresh is in flight send nothing, whatever
    the clock says: each resolves at once or joins that refresh. *)
Lemma calls_in_flight p ts w :
  initializationPromise (api w) = Some p ->
  fetches (snd (calls ts w)) = fetches w
  /\ Forall (fun r => r = Resolved \/ r = Pending p) (fst (calls ts w)).
Proof.
  intros Hp. induction ts as [|t ts IH]; [by split|].
  simpl. unfold initializeCache. rewrite Hp.
  destruct (isFresh (api w) t); destruct (calls ts w) as [rs w2]; simpl in *;
    destruct IH as [IH1 IH2]; split; auto.
Qed.

(** Any calls with no completion in between send one request at most,
    and the callers that do not resolve at once all hold one promise. *)
Lemma calls_at_most_one ts w :
  (fetches (snd (calls ts w)) <= S (fetches w))%nat
  /\ exists p, Forall (fun r => r = Resolved \/ r = Pending p) (fst (calls ts w)).
Proof.
  destruct (initializationPromise (api w)) as [p|] eqn:Hp.
  { destruct (calls_in_flight p ts w Hp) as [H1 H2]. split; [lia|by exists p]. }
  induction ts as [|t ts IH]; [split; [simpl; lia|by exists 0%nat]|].
  simpl. unfold initializeCache. rewrite Hp.
  destruct (isFresh (api w) t).
  - destruct (calls ts w) as [rs w2]. simpl in *.
    destruct IH as [IH1 [p IH2]]. split; [done|]. exists p. auto.
  - match goal with |- context [calls ts ?w1] =>
      destruct (calls_in_flight (nextPromise w) ts w1 eq_refl) as [H1 H2];
      destruct (calls ts w1) as [rs w2]
    end.
    simpl in *. split; [lia|]. exists (nextPromise w). auto.
Qed.

(** The page loads what the cache service sends: the token is found
    under any spelling of its address, and the snapshot carries the
    [lastUpdated] of the file. *)
Example page_loads_cache_file :
  let s :=
    settleState 1700000000500
      (HttpResponse 200 (JsonObject (Server.payloadOfCache Samples.oldFile)))
      (api initial) in
  getTokenDetails s "0x9528A7402C0FE85B817AA6E106EAFA03A02924C4"
  = Some (Samples.property7 (Some 5000%float) (Some 1000%float))
  /\ getTokenDetails s "0xDDAfbb505ad214D7b80b1f830fcCc89B60fb7A83" = None
  /\ cacheTimestamp s = Some 1600000000000
  /\ initializationPromise s = None.
Proof. vm_compute. repeat split; reflexivity. Qed.

(** A failed [fetch] leaves the map as it is and stamps the attempt. *)
Lemma settleState_failed now r s :
  fetchFailed r = true ->
  cache (settleState now r s) = cache s
  /\ cacheTimestamp (settleState now r s) = Some now.
Proof.
  unfold fetchFailed, settleState. intros H.
  destruct r as [|st json]; [done|].
  destruct ((200 <=? st) && (st <=? 299)); simpl in *; [|done].
  destruct json as [| |p]; try done.
  destruct (Server.p_tokens p); done.
Qed.

(** After a failed refresh the attempt counts as an update: for the next
    24 hours every call resolves at once and nothing is sent. *)
Lemma no_retry_after_failure p now r w w2 ts :
  settle p now r w = Some w2 ->
  fetchFailed r = true ->
  now <> 0 ->
  Forall (fun t => t - now < CACHE_MAX_AGE_MS) ts ->
  calls ts w2 = (repeat Resolved (length ts), w2).
Proof.
  unfold settle. intros Hs Hf Hn Hts.
  case_bool_decide; [|done]. injection Hs as <-.
  apply calls_fresh. eapply Forall_impl; [exact Hts|].
  intros t Ht. unfold isFresh. simpl.
  destruct (settleState_failed now r (api w) Hf) as [_ ->].
  apply andb_true_iff. split.
  - apply negb_true_iff, Z.eqb_neq. done.
  - by apply Z.ltb_lt.
Qed.



(** C3: the failing input. The cache service holds a cache file written
    long ago with one token, the page holds that snapshot in memory, and
    the registry cannot be reached. The page's refresh asks the service;
    [fetchAllTokens] catches the error of the registry request and returns
    the empty record, so the service does not reach the [catch] that would
    return the stale cache: it writes the empty record over the file, with
    a new [lastUpdated], and answers with it, without an [error] member.
    The page loads that answer: the token it returned before is gone, and
    its [cacheTimestamp] has moved. *)
Theorem failed_refresh_loses_the_snapshot :
  let address := "0x9528a7402C0Fe85B817aa6E106EAFa03A02924c4" in
  let token := Samples.property7 (Some 5000%float) (Some 1000%float) in
  let '(promise, page1) := initializeCache 1700000000000 Samples.loaded in
  let '(response, sw) :=
    Server.handler Samples.unreachable Samples.getRequest
      (Samples.worldWith (Some Samples.oldFile)) in
  Server.tryTokensEndpoint (Server.registry Samples.unreachable) = None
  /\ Server.lastUpdated Samples.oldFile = 1600000000000
  /\ getTokenDetails (api Samples.loaded) address = Some token
  /\ cacheTimestamp (api Samples.loaded) = Some 1600000000000
  /\ promise = Pending 1%nat
  /\ Server.status response = 200
  /\ Server.p_error (Server.body response) = None
  /\ Server.disk sw = Some {| Server.lastUpdated := 1700000000003; Server.tokens := [] |}
  /\ exists page2,
       settle 1%nat 1700000000010
         (HttpResponse (Server.status response) (JsonObject (Server.body response)))
         page1 = Some page2
       /\ getTokenDetails (api page2) address = None
       /\ cache (api page2) = ∅
       /\ cacheTimestamp (api page2) = Some 1700000000004.
Proof.
  cbv zeta.
  destruct (initializeCache 1700000000000 Samples.loaded) as [promise page1] eqn:Ep.
  destruct (Server.handler Samples.unreachable Samples.getRequest
              (Samples.worldWith (Some Samples.oldFile))) as [response sw] eqn:Eh.
  vm_compute in Ep. vm_compute in Eh. injection Ep as <- <-. injection Eh as <- <-.
  repeat split; try reflexivity.
  eexists. split; [vm_compute; reflexivity|]. repeat split; reflexivity.
Qed.

(** A refresh of the page that fails leaves the entries as they are and
    stamps the snapshot with the time of the attempt: a page that holds a
    snapshot stamped 1700000000000 and whose request, more than a day
    later, throws, still serves the token it held, under the new
    timestamp. *)
Lemma failed_refresh_moves_timestamp :
  let s := Samples.registryWith
             (Samples.property7 (Some 5000%float) (Some 1000%float)) in
  let s' := settleState 1700090000000 FetchThrows s in
  isFresh s 1700090000000 = false
  /\ getTokenDetails s' "0x9528a7402C0Fe85B817aa6E106EAFa03A02924c4"
     = getTokenDetails s "0x9528a7402C0Fe85B817aa6E106EAFa03A02924c4"
  /\ cacheTimestamp s = Some 1700000000000
  /\ cacheTimestamp s' = Some 1700090000000
  /\ cacheTimestamp s' <> cacheTimestamp s.
Proof. repeat split; try reflexivity. simpl. discriminate. Qed.

End CacheProperties.


(** ** The RPC gateway *)

Section GatewayProperties.

Import Gateway.
Implicit Types (rpc : Rpc) (y : YamOffer).

(** The bounds check does not look at [decimals()]. *)
Lemma beyondOfferCount_withDecimals f rpc x :
  beyondOfferCount (withDecimals f rpc) x = beyondOfferCount rpc x.
Proof. reflexivity. Qed.

(** What a successful fetch returns. *)
Lemma fetchOfferRpc_Some rpc offerId y :
  fetchOfferRpc rpc offerId = Some y ->
  exists n offerData,
    ofNumber (JS.Number offerId) = Some n
    /\ showOffer rpc n = Some offerData
    /\ offerTokenAddress y = value0 offerData
    /\ buyerTokenAddress y = value1 offerData
    /\ offerTokenDecimals y
       = Some (if JS.nonEmpty (value0 offerData)
               then getDecimals rpc (value0 offerData) else 18)
    /\ buyerTokenDecimals y
       = Some (if JS.nonEmpty (value1 offerData)
               then getDecimals rpc (value1 offerData) else 18)
    /\ createdAt y = "0".
Proof.
  unfold fetchOfferRpc. intros H.
  destruct (negb _ || _); [discriminate|].
  destruct (beyondOfferCount _ _); [discriminate|].
  destruct (ofNumber _) as [n|]; [|discriminate].
  cbn [mbind option_bind] in H.
  destruct (showOffer rpc n) as [offerData|] eqn:Es; [|discriminate].
  cbn [mbind option_bind] in H. injection H as <-.
  exists n, offerData. repeat split; done.
Qed.

(** C8. [getDecimals] is 18 whenever the [decimals()] call fails, for
    every token address; the decimals of a fetched offer are those of
    [getDecimals], and 18 for an address that is absent; and whether the
    fetch succeeds does not depend on the answers to [decimals()]: with
    any other answers, failures included, it succeeds on the same offers. *)
Theorem decimals_default rpc :
  (forall tokenAddress,
     decimals rpc tokenAddress = None -> getDecimals rpc tokenAddress = 18)
  /\ (forall offerId y,
        fetchOfferRpc rpc offerId = Some y ->
        offerTokenDecimals y
        = Some (if JS.nonEmpty (offerTokenAddress y)
                then default 18 (decimals rpc (offerTokenAddress y)) else 18)
        /\ buyerTokenDecimals y
           = Some (if JS.nonEmpty (buyerTokenAddress y)
                   then default 18 (decimals rpc (buyerTokenAddress y)) else 18))
  /\ (forall f offerId,
        is_Some (fetchOfferRpc (withDecimals f rpc) offerId)
        <-> is_Some (fetchOfferRpc rpc offerId)).
Proof.
  split; [|split].
  - intros a H. unfold getDecimals. by rewrite H.
  - intros offerId y H.
    destruct (fetchOfferRpc_Some _ _ _ H) as (n & d & _ & _ & -> & -> & -> & -> & _).
    unfold getDecimals. split; repeat case_match; done.
  - intros f offerId. unfold fetchOfferRpc.
    rewrite beyondOfferCount_withDecimals. simpl.
    destruct (negb _ || _); [done|].
    destruct (beyondOfferCount _ _); [done|].
    destruct (ofNumber _) as [n|]; [|done].
    cbn [mbind option_bind].
    destruct (showOffer rpc n) as [offerData|]; [|done].
    cbn [mbind option_bind]. split; intros _; eexists; reflexivity.
Qed.

(** On the sample chain, whose tokens answer no [decimals()] call, offer 1
    is fetched with 18 decimals on both sides. *)
Example fetch_without_decimals :
  exists y,
    fetchOfferRpc Samples.plainChain "1" = Some y
    /\ offerTokenDecimals y = Some 18
    /\ buyerTokenDecimals y = Some 18.
Proof. eexists. split; [vm_compute; reflexivity|]. split; reflexivity. Qed.

End GatewayProperties.

(** ** The enrichment *)

Section EnrichmentProperties.

Import Enrichment.
Implicit Types (registry : RealTokenAPI.State) (reads : Erc20)
  (y : Gateway.YamOffer) (o : Offer).

(** From a successful enrichment [H]: the two conversions and the date
    succeeded, and the offer is the record the function builds. *)
Ltac invert_combine H priceNum amountNum created Ep Ea Ec :=
  unfold combineOfferData in H;
  destruct (Ethers.unitsToNumber (orElse (Gateway.price _) "0") _)
    as [priceNum|] eqn:Ep; [|discriminate];
  destruct (Ethers.unitsToNumber (orElse (Gateway.amount _) "0") _)
    as [amountNum|] eqn:Ea; [|discriminate];
  cbn [mbind option_bind] in H;
  match type of H with
  | (?c ≫= _) = _ => destruct c as [created|] eqn:Ec; [|discriminate]
  end;
  cbn [mbind option_bind] in H; injection H as <-.

(** The scenario of the specification: offer 7 is shown with a price of
    2.00, an amount of 26.031567 and a reverse price of 0.50. *)
Example offer7_display :
  combineOfferData Samples.emptyRegistry Samples.noReads 1700000000000 Samples.offer7
  = Some Samples.display7
  /\ price Samples.display7 = "2.00"
  /\ amount Samples.display7 = "26.031567"
  /\ reversePrice Samples.display7 = "0.50".
Proof. split; [vm_compute; reflexivity|]. repeat split. Qed.

(** The fraction of zero: the zeros that pad it are stripped. *)
Lemma stripZeros_zeros n : Ethers.stripZeros (JS.zeros n ++ "0") = "".
Proof. induction n as [|n IH]; simpl; [done|]. by rewrite IH. Qed.

(** A raw price of zero is the number [0], whatever the decimals. *)
Lemma zero_price_number value d priceNum :
  Ethers.BigNumber_from value = Some 0 ->
  Ethers.unitsToNumber value d = Some priceNum ->
  priceNum = 0%float.
Proof.
  unfold Ethers.unitsToNumber, Ethers.formatUnitsStr, Ethers.formatUnits.
  intros ->. destruct (Ethers.getMultiplier d) as [m|]; [|discriminate].
  cbn [mbind option_bind fmap option_fmap option_map].
  rewrite Z.abs_0, Zmod_0_l, Zdiv_0_l.
  change (JS.digits 0) with "0". change (String.length "0") with 1%nat.
  rewrite stripZeros_zeros.
  destruct (d =? 0); intros [= <-]; vm_compute; reflexivity.
Qed.

(** What the enrichment writes as price and reverse price: [priceNum]
    and [1 / priceNum] with two decimals, where [priceNum] is the price in
    units of the payment token. *)
Lemma reverse_price registry reads now y o :
  combineOfferData registry reads now y = Some o ->
  exists priceNum,
    Ethers.unitsToNumber (orElse (Gateway.price y) "0")
      (default 18 (Gateway.buyerTokenDecimals y)) = Some priceNum
    /\ price o = JS.toFixed priceNum 2
    /\ reversePrice o = JS.toFixed (1 / priceNum)%float 2.
Proof.
  intros H. invert_combine H priceNum amountNum created Ep Ea Ec.
  exists priceNum. repeat split.
Qed.

(** C4: the failing inputs. For every raw offer whose price is zero that
    the enrichment accepts, the price is shown as 0.00 and the reverse
    price is the string [Infinity]: the division [1 / priceNum] has no
    guard. The yield of the offer, which divides by the same [priceNum],
    is guarded by [priceNum > 0] and is left undefined on these inputs. *)
Theorem reverse_price_is_unguarded registry reads now y o :
  combineOfferData registry reads now y = Some o ->
  Ethers.BigNumber_from (orElse (Gateway.price y) "0") = Some 0 ->
  price o = "0.00"
  /\ reversePrice o = "Infinity"
  /\ offerYieldPct o = None.
Proof.
  intros H H0. invert_combine H priceNum amountNum created Ep Ea Ec.
  assert (priceNum = 0%float) as -> by (eapply zero_price_number; eauto).
  simpl. repeat split; try (vm_compute; reflexivity).
  repeat case_match; done.
Qed.

(** Witness of [reverse_price_is_unguarded]: the offer with a price of
    zero whose token is in the registry with a net rent. *)
Lemma reverse_price_is_unguarded_witness :
  exists o,
    combineOfferData
      (Samples.registryWith
         (Samples.property7 (Some 5000%float) (Some 1000%float)))
      Samples.noReads 1700000000000 Samples.freeOffer = Some o
    /\ Ethers.BigNumber_from (orElse (Gateway.price Samples.freeOffer) "0") = Some 0
    /\ Server.netRentYear <$> tokenDetails o = Some (Some 5000%float)
    /\ price o = "0.00"
    /\ reversePrice o = "Infinity"
    /\ offerYieldPct o = None.
Proof.
  assert (H : combineOfferData
                (Samples.registryWith
                   (Samples.property7 (Some 5000%float) (Some 1000%float)))
                Samples.noReads 1700000000000 Samples.freeOffer = Some _)
    by (vm_compute; reflexivity).
  assert (H0 : Ethers.BigNumber_from (orElse (Gateway.price Samples.freeOffer) "0")
               = Some 0) by reflexivity.
  eexists. split; [exact H|]. split; [exact H0|]. split; [reflexivity|].
  exact (reverse_price_is_unguarded _ Samples.noReads 1700000000000
           Samples.freeOffer _ H H0).
Defined.

(** The registry metadata of an enriched offer is that of the sold token,
    and none for a known stablecoin. *)
Lemma combine_tokenDetails registry reads now y o :
  combineOfferData registry reads now y = Some o ->
  tokenDetails o
  = if isStableToken gnosis (Gateway.offerTokenAddress y) then None
    else RealTokenAPI.getTokenDetails registry (Gateway.offerTokenAddress y).
Proof.
  intros H. invert_combine H priceNum amountNum created Ep Ea Ec. reflexivity.
Qed.

(** The guards the yields do have: without registry metadata, or without
    a net rent in it, the four yield figures are unknown. *)
Lemma yields_unknown_without_rent registry reads now y o :
  combineOfferData registry reads now y = Some o ->
  tokenDetails o ≫= Server.netRentYear = None ->
  officialYieldPct o = None /\ offerYieldPct o = None
  /\ offerYieldDiff o = None /\ offerYieldDiffPct o = None.
Proof.
  intros H. invert_combine H priceNum amountNum created Ep Ea Ec. simpl.
  destruct (if isStableToken _ _ then None else _) as [td|]; simpl; [|done].
  intros ->. done.
Qed.

(** C5, at inputs on which the code leaves the claim. With a net rent
    and no token supply in the registry entry, the four yield figures are
    [NaN]; with a net rent of zero the official yield is zero and the
    relative yield deviation, a division by it, is [NaN]; with a supply of
    zero the official yield is infinite. *)
Theorem yields_leak_nan :
  (exists o,
     combineOfferData
       (Samples.registryWith (Samples.property7 (Some 5000%float) None))
       Samples.noReads 1700000000000 Samples.offer7 = Some o
     /\ officialYieldPct o = Some JS.NaN
     /\ offerYieldPct o = Some JS.NaN
     /\ offerYieldDiff o = Some JS.NaN
     /\ offerYieldDiffPct o = Some JS.NaN)
  /\ (exists o,
        combineOfferData
          (Samples.registryWith
             (Samples.property7 (Some 0%float) (Some 1000%float)))
          Samples.noReads 1700000000000 Samples.offer7 = Some o
        /\ officialYieldPct o = Some 0%float
        /\ offerYieldPct o = Some 0%float
        /\ offerYieldDiffPct o = Some JS.NaN)
  /\ (exists o,
        combineOfferData
          (Samples.registryWith
             (Samples.property7 (Some 5000%float) (Some 0%float)))
          Samples.noReads 1700000000000 Samples.offer7 = Some o
        /\ officialYieldPct o = Some JS.Infinity
        /\ offerYieldPct o = Some JS.Infinity
        /\ offerYieldDiffPct o = Some JS.NaN).
Proof.
  split; [|split]; eexists; (split; [vm_compute; reflexivity|]);
    repeat split; reflexivity.
Qed.

(** C10. When the sold token has no registry metadata, or its registry
    price is missing or zero, the official price is 1, and the price
    deviation and its percentage are computed against that 1: they are
    [priceNum - 1] and [(priceNum - 1) / 1 * 100], never left undefined. *)
Theorem official_price_default registry reads now y o :
  combineOfferData registry reads now y = Some o ->
  match tokenDetails o with
  | None => True
  | Some td =>
      match Server.tokenPrice td with
      | None => True
      | Some p => PrimFloat.eqb p 0 = true
      end
  end ->
  exists priceNum,
    Ethers.unitsToNumber (orElse (Gateway.price y) "0")
      (default 18 (Gateway.buyerTokenDecimals y)) = Some priceNum
    /\ officialPriceUsd o = Some 1%float
    /\ priceDiff o = Some (priceNum - 1)%float
    /\ priceDiffPct o = Some ((priceNum - 1) / 1 * 100)%float.
Proof.
  intros H. invert_combine H priceNum amountNum created Ep Ea Ec. simpl.
  intros Hp. exists priceNum. split; [reflexivity|].
  destruct (if isStableToken _ _ then None else _) as [td|]; simpl.
  - destruct (Server.tokenPrice td) as [p|]; simpl.
    + unfold JS.truthy. rewrite Hp. simpl. repeat split.
    + repeat split.
  - repeat split.
Qed.

(** Witness of [official_price_default]: offer 7, whose token the empty
    registry does not know. *)
Lemma official_price_default_witness :
  combineOfferData Samples.emptyRegistry Samples.noReads 1700000000000 Samples.offer7
  = Some Samples.display7
  /\ match tokenDetails Samples.display7 with
     | None => True
     | Some td =>
         match Server.tokenPrice td with
         | None => True
         | Some p => PrimFloat.eqb p 0 = true
         end
     end
  /\ exists priceNum,
       Ethers.unitsToNumber (orElse (Gateway.price Samples.offer7) "0")
         (default 18 (Gateway.buyerTokenDecimals Samples.offer7)) = Some priceNum
       /\ officialPriceUsd Samples.display7 = Some 1%float
       /\ priceDiff Samples.display7 = Some (priceNum - 1)%float
       /\ priceDiffPct Samples.display7 = Some ((priceNum - 1) / 1 * 100)%float.
Proof.
  assert (H : combineOfferData Samples.emptyRegistry Samples.noReads
                1700000000000 Samples.offer7 = Some Samples.display7)
    by (vm_compute; reflexivity).
  exact (conj H (conj I
           (official_price_default Samples.emptyRegistry Samples.noReads
              1700000000000 Samples.offer7 Samples.display7 H I))).
Defined.

(** An offer whose token is in the registry with a price of zero is
    compared with 1 USD as well. *)
Example official_price_of_unpriced_token :
  exists o,
    combineOfferData
      (Samples.registryWith
         {| Server.tokenAddress := "0x9528a7402C0Fe85B817aa6E106EAFa03A02924c4";
            Server.shortName := None; Server.fullName := None;
            Server.tokenPrice := Some 0%float; Server.netRentYear := None;
            Server.imageLink := None; Server.marketplaceLink := None;
            Server.totalTokens := JS.absent; Server.rentStartDate := None |})
      Samples.noReads 1700000000000 Samples.offer7 = Some o
    /\ officialPriceUsd o = Some 1%float
    /\ priceDiff o = Some 1%float
    /\ priceDiffPct o = Some 100%float.
Proof. eexists. split; [vm_compute; reflexivity|]. repeat split. Qed.

(** Offers fetched by the gateway carry the [createdAt] of ["0"]: the
    date of their enrichment is read from the clock. *)
Lemma fetched_offers_use_clock rpc offerId y :
  Gateway.fetchOfferRpc rpc offerId = Some y -> usesClock y = true.
Proof.
  intros H. destruct (fetchOfferRpc_Some _ _ _ H) as (n & d & Hy).
  unfold usesClock. destruct Hy as (_ & _ & _ & _ & _ & _ & ->). reflexivity.
Qed.

(** C6, as the code has it. Enriching the same raw offer with the same
    registry snapshot and the same ERC-20 reads at two times gives offers
    that are identical in every field but [createdAt]; [createdAt] is
    identical too unless the raw [createdAt] is empty or ["0"], in which
    case it is the time of the enrichment. *)
Theorem enrichment_deterministic registry reads t1 t2 y o1 :
  combineOfferData registry reads t1 y = Some o1 ->
  combineOfferData registry reads t2 y
  = Some (if usesClock y then withCreatedAt t2 o1 else o1)
  /\ (usesClock y = true -> createdAt o1 = t1).
Proof.
  intros H. invert_combine H priceNum amountNum created Ep Ea Ec.
  unfold combineOfferData, usesClock. rewrite Ep, Ea. cbn [mbind option_bind].
  destruct (JS.nonEmpty (Gateway.createdAt y)
            && negb (Gateway.createdAt y =? "0")%string) eqn:Eu; simpl.
  - rewrite Ec. split; [reflexivity|discriminate].
  - injection Ec as <-. split; reflexivity.
Qed.

(** Witness of [enrichment_deterministic]: offer 7 a minute later. *)
Lemma enrichment_deterministic_witness :
  combineOfferData Samples.emptyRegistry Samples.noReads 1700000000000 Samples.offer7
  = Some Samples.display7
  /\ combineOfferData Samples.emptyRegistry Samples.noReads 1700000060000 Samples.offer7
     = Some (if usesClock Samples.offer7
             then withCreatedAt 1700000060000 Samples.display7
             else Samples.display7)
  /\ (usesClock Samples.offer7 = true
      -> createdAt Samples.display7 = 1700000000000).
Proof.
  assert (H : combineOfferData Samples.emptyRegistry Samples.noReads
                1700000000000 Samples.offer7 = Some Samples.display7)
    by (vm_compute; reflexivity).
  exact (conj H (enrichment_deterministic Samples.emptyRegistry Samples.noReads
                   1700000000000 1700000060000 Samples.offer7 Samples.display7 H)).
Defined.

(** C6 as stated fails: offer 7 enriched twice, a minute apart, with the
    same registry snapshot and the same reads, gives two offers that
    differ in [createdAt]. *)
Lemma enrichment_depends_on_clock :
  combineOfferData Samples.emptyRegistry Samples.noReads 1700000000000 Samples.offer7
  <> combineOfferData Samples.emptyRegistry Samples.noReads 1700000060000 Samples.offer7.
Proof. vm_compute. discriminate. Qed.

End EnrichmentProperties.


(** ** The purchase modal *)

Section PurchaseProperties.

Import Purchase.
Implicit Types (s : State) (o : Enrichment.Offer).

(** The arithmetic of [handleSetMaxAmount] for a positive price and a
    balance that is not negative: the floor of the scaled balance over
    the price, capped by the offered amount. *)
Lemma maxAmountBN_value o b p a :
  Ethers.parseUnits (Enrichment.price o) PRECISION = Some p ->
  Ethers.parseUnits (Enrichment.amount o) PRECISION = Some a ->
  0 < p -> 0 <= b ->
  maxAmountBN o b = Some (maxAmountSpec b p a).
Proof.
  intros Hp Ha Hpos Hb. unfold maxAmountBN, maxAmountSpec, Ethers.div.
  rewrite Hp, Ha. cbn [mbind option_bind].
  destruct (p =? 0) eqn:E; [lia|]. cbn [mbind option_bind].
  rewrite Z.quot_div_nonneg by (unfold PRECISION; lia).
  f_equal. destruct (_ <? a) eqn:E'; lia.
Qed.

(** For a price of zero the handler throws, and no amount is set. *)
Lemma maxAmountBN_zero_price o b :
  Ethers.parseUnits (Enrichment.price o) PRECISION = Some 0 ->
  maxAmountBN o b = None.
Proof. intros Hp. unfold maxAmountBN. rewrite Hp. reflexivity. Qed.

(** C2. For an offer whose price reads as the positive fixed-point value
    [p] and whose remaining amount reads as [a], both with [PRECISION]
    decimals, and for balances [0 <= b1 <= b2]: the maximum is computed
    for both balances, it is the one the specification words
    ([maxAmountSpec]: the balance scaled by [10 ^ PRECISION], integer
    division by the price, minimum with the remaining amount); the
    maximum for [b2] is not smaller than the maximum for [b1], and neither
    exceeds the remaining amount. *)
Theorem max_amount_monotone_bounded o b1 b2 p a :
  Ethers.parseUnits (Enrichment.price o) PRECISION = Some p ->
  Ethers.parseUnits (Enrichment.amount o) PRECISION = Some a ->
  0 < p ->
  0 <= b1 <= b2 ->
  exists m1 m2,
    maxAmountBN o b1 = Some m1
    /\ maxAmountBN o b2 = Some m2
    /\ m1 = maxAmountSpec b1 p a
    /\ m2 = maxAmountSpec b2 p a
    /\ m1 <= m2
    /\ m1 <= a
    /\ m2 <= a.
Proof.
  intros Hp Ha Hpos [Hb1 Hb12].
  exists (maxAmountSpec b1 p a), (maxAmountSpec b2 p a).
  split; [apply maxAmountBN_value; auto|].
  split; [apply maxAmountBN_value; auto; lia|].
  split; [reflexivity|]. split; [reflexivity|].
  unfold maxAmountSpec.
  assert (b1 * 10 ^ PRECISION / p <= b2 * 10 ^ PRECISION / p).
  { apply Z.div_le_mono; [lia|]. unfold PRECISION. lia. }
  lia.
Qed.

(** Witness of [max_amount_monotone_bounded]: offer 7 with 10 and with
    100 USDC in the wallet. *)
Lemma max_amount_monotone_bounded_witness :
  Ethers.parseUnits (Enrichment.price Samples.display7) PRECISION = Some 2000000
  /\ Ethers.parseUnits (Enrichment.amount Samples.display7) PRECISION = Some 26031567
  /\ 0 < 2000000
  /\ 0 <= 10000000 <= 100000000
  /\ exists m1 m2,
       maxAmountBN Samples.display7 10000000 = Some m1
       /\ maxAmountBN Samples.display7 100000000 = Some m2
       /\ m1 = maxAmountSpec 10000000 2000000 26031567
       /\ m2 = maxAmountSpec 100000000 2000000 26031567
       /\ m1 <= m2
       /\ m1 <= 26031567
       /\ m2 <= 26031567.
Proof.
  assert (H1 : Ethers.parseUnits (Enrichment.price Samples.display7) PRECISION
               = Some 2000000) by reflexivity.
  assert (H2 : Ethers.parseUnits (Enrichment.amount Samples.display7) PRECISION
               = Some 26031567) by reflexivity.
  assert (H3 : 0 < 2000000) by lia.
  assert (H4 : 0 <= 10000000 <= 100000000) by lia.
  exact (conj H1 (conj H2 (conj H3 (conj H4
           (max_amount_monotone_bounded Samples.display7 10000000 100000000
              2000000 26031567 H1 H2 H3 H4))))).
Defined.

(** With ten USDC the maximum of offer 7 is five tokens; with a hundred
    it is the whole offer. *)
Example max_amount_offer7 :
  maxAmountBN Samples.display7 10000000 = Some 5000000
  /\ maxAmountBN Samples.display7 100000000 = Some 26031567.
Proof. split; reflexivity. Qed.

(** While a transaction is pending the amount field, the approve, buy
    and cancel buttons do nothing. *)
Lemma pending_blocks_controls s v :
  isPending s = true ->
  user s (EditAmount v) = s
  /\ user s ClickApprove = s
  /\ user s ClickBuy = s
  /\ user s ClickCancel = s.
Proof.
  intros Hp. unfold user, inputDisabled, approveDisabled, buyDisabled, cancelDisabled.
  rewrite Hp. destruct (modalShown s); simpl; [|done].
  destruct (isApproving s), (amountMissing s), (needsApproval (render s)); done.
Qed.

(** No user event changes the status of a pending transaction: it is
    left only when the transaction succeeds or fails. *)
Lemma pending_left_by_tx_only s e :
  isPending s = true -> isPending (user s e) = true.
Proof.
  intros Hp. destruct e as [v| | | | |].
  - by rewrite (proj1 (pending_blocks_controls s v Hp)).
  - unfold user, maxDisabled, handleSetMaxAmount.
    repeat case_match; done.
  - destruct (pending_blocks_controls s "" Hp) as (_ & -> & _). done.
  - destruct (pending_blocks_controls s "" Hp) as (_ & _ & -> & _). done.
  - destruct (pending_blocks_controls s "" Hp) as (_ & _ & _ & ->). done.
  - unfold user. destruct (modalShown s); done.
Qed.

(** How a pending transaction ends: a confirmed approval goes back to
    [idle] with the allowance and the balance read again, a confirmed
    purchase goes to [success] and from there, when its timer fires, to
    [idle] with the modal closed; a failure goes to [error] with its
    message. *)
Lemma pending_exits s reads message :
  txStatus (tx s (ApproveConfirmed reads)) = idle
  /\ isApproving (tx s (ApproveConfirmed reads)) = false
  /\ txStatus (tx s (ApproveFailed message)) = error
  /\ txStatus (tx s BuyConfirmed) = success
  /\ txStatus (tx s (BuyFailed message)) = error
  /\ txError (tx s (BuyFailed message)) = Some ("Error buying token: " ++ message)
  /\ txStatus (tx (tx s BuyConfirmed) SuccessTimeout) = idle
  /\ showBuyModal (tx (tx s BuyConfirmed) SuccessTimeout) = false.
Proof.
  unfold tx, updateBuyModalData.
  destruct (canReadAllowance s), reads as [[a b]|]; repeat split.
Qed.

(** The [Max] button stays live: on a modal that is shown, it sets the
    amount whatever the status of the transaction is. *)
Lemma max_ignores_status s o m maxAmount :
  modalShown s = true ->
  offer s = Some o ->
  maxAmountBN o (balance s) = Some m ->
  Ethers.formatUnits m PRECISION = Some maxAmount ->
  user s ClickMax = setBuyAmount maxAmount s.
Proof.
  intros Hs Ho Hm Hf. unfold user, maxDisabled, handleSetMaxAmount.
  rewrite Hs, Ho, Hm. cbn [negb mbind option_bind]. by rewrite Hf.
Qed.

(** The scenario of the specification: with an allowance of zero and an
    amount that costs 500 USDC, the modal offers the approval and not the
    purchase; the click on [Approve] starts the approval. *)
Example approval_comes_first :
  let s :=
    {| offer := Some Samples.display7; buyAmount := "250"; showBuyModal := true;
       txStatus := idle; allowance := 0; isAllowanceLoading := false;
       isApproving := false; txError := None; balance := 600000000;
       isConnected := true; signer := true |} in
  amountNeeded Samples.display7 "250" = Some 500000000
  /\ needsApproval (render s) = true
  /\ user s ClickBuy = s
  /\ txStatus (user s ClickApprove) = pending
  /\ isApproving (user s ClickApprove) = true.
Proof. vm_compute. repeat split; reflexivity. Qed.

(** C7, at the input on which the code leaves the claim: the modal on
    offer 7 with a purchase waiting for its confirmation. The amount
    field and the approve, buy and cancel buttons do nothing, as the claim
    says, but a click on [Max] replaces the amount 1 by 5.0 while the
    transaction is still pending. *)
Theorem max_edits_amount_while_pending :
  txStatus Samples.waiting7 = pending
  /\ user Samples.waiting7 (EditAmount "2") = Samples.waiting7
  /\ user Samples.waiting7 ClickApprove = Samples.waiting7
  /\ user Samples.waiting7 ClickBuy = Samples.waiting7
  /\ user Samples.waiting7 ClickCancel = Samples.waiting7
  /\ buyAmount Samples.waiting7 = "1"
  /\ buyAmount (user Samples.waiting7 ClickMax) = "5.0"
  /\ txStatus (user Samples.waiting7 ClickMax) = pending.
Proof. vm_compute. repeat split; reflexivity. Qed.

End PurchaseProperties.

(** * Further properties of the code *)

(** ** Strings of digits *)

Section DigitStrings.

Import Digits.

Lemma scanDigits_allDigits s acc len :
  allDigits s = true ->
  JS.scanDigits s acc len = (decVal s acc, (len + String.length s)%nat, "").
Proof.
  revert acc len. induction s as [|c r IH]; intros acc len H; simpl in *.
  - by rewrite Nat.add_0_r.
  - apply andb_true_iff in H as [Hc Hr]. rewrite Hc, IH by done.
    by rewrite Nat.add_succ_r.
Qed.

Lemma uint_string_digits d : allDigits (NilEmpty.string_of_uint d) = true.
Proof. induction d; simpl; done. Qed.

Lemma uint_string_acc d acc :
  decVal (NilEmpty.string_of_uint d) (Z.pos acc) = Z.pos (Pos.of_uint_acc d acc).
Proof.
  revert acc. induction d; intros acc; simpl; try done;
    rewrite <- IHd; f_equal; rewrite ?Pos2Z.inj_add, ?Pos2Z.inj_mul;
    match goal with
    | |- context [JS.digitVal ?c] =>
        let v := eval vm_compute in (JS.digitVal c) in
        change (JS.digitVal c) with v
    end; lia.
Qed.

Lemma uint_string_value d :
  decVal (NilEmpty.string_of_uint d) 0 = Z.of_N (Pos.of_uint d).
Proof. induction d; simpl; try done; apply (uint_string_acc d). Qed.

Lemma digits_allDigits n : allDigits (JS.digits n) = true.
Proof.
  unfold JS.digits, NilZero.string_of_uint.
  destruct (N.to_uint (Z.to_N n)) eqn:E; try done;
    rewrite <- E; apply uint_string_digits.
Qed.

(** The digits of a natural number stand for it. *)
Lemma digits_value n : 0 <= n -> decVal (JS.digits n) 0 = n.
Proof.
  intros Hn. unfold JS.digits, NilZero.string_of_uint.
  pose proof (DecimalN.Unsigned.of_to (Z.to_N n)) as Hof.
  unfold N.of_uint in Hof.
  destruct (N.to_uint (Z.to_N n)) eqn:E;
    [simpl in Hof; assert (n = 0) as -> by lia; reflexivity|..];
    rewrite uint_string_value, Hof; lia.
Qed.

Lemma digits_nonEmpty n : JS.nonEmpty (JS.digits n) = true.
Proof.
  unfold JS.digits, NilZero.string_of_uint.
  destruct (N.to_uint (Z.to_N n)); done.
Qed.

Lemma ofDigits_digits n : 0 <= n -> Ethers.ofDigits (JS.digits n) = Some n.
Proof.
  intros Hn. unfold Ethers.ofDigits.
  rewrite scanDigits_allDigits by apply digits_allDigits.
  rewrite digits_value by done.
  pose proof (digits_nonEmpty n). destruct (JS.digits n); done.
Qed.

(** A string of decimal digits has no radix prefix. *)
Lemma allDigits_no_radix s : allDigits s = true -> JS.startsWith "0x" s = false.
Proof.
  destruct s as [|c1 [|c2 r]]; [done| |].
  - intros _. unfold JS.startsWith.
    change (String.length "0x") with 2%nat.
    change (substring 0 2 (String c1 "")) with (String c1 "").
    change (String.eqb "0x" (String c1 "")) with (Ascii.eqb "0" c1 && false).
    apply andb_false_r.
  - simpl. intros H. apply andb_true_iff in H as [_ H].
    apply andb_true_iff in H as [H _].
    unfold JS.startsWith.
    change (String.length "0x") with 2%nat.
    change (substring 0 2 (String c1 (String c2 r)))
      with (String c1 (String c2 (substring 0 0 r))).
    replace (substring 0 0 r) with "" by (by destruct r).
    change (String.eqb "0x" (String c1 (String c2 "")))
      with (Ascii.eqb "0" c1 && (Ascii.eqb "x" c2 && true)).
    replace (Ascii.eqb "x" c2) with false; [apply andb_false_r|].
    destruct c2 as [[] [] [] [] [] [] [] []]; done.
Qed.

(** On decimal digits [BigNumber.from] reads the decimal value. *)
Lemma BigNumber_from_allDigits s :
  allDigits s = true -> Ethers.BigNumber_from s = Ethers.ofDigits s.
Proof.
  intros Ha. unfold Ethers.BigNumber_from.
  assert ((match s with String "-" r => (true, r) | _ => (false, s) end) = (false, s)) as ->.
  { destruct s as [|c r]; [done|]. simpl in Ha. apply andb_true_iff in Ha as [Hc _].
    destruct c as [[] [] [] [] [] [] [] []]; done. }
  rewrite allDigits_no_radix by done. by destruct (Ethers.ofDigits s).
Qed.

(** [BigNumber.from] reads back what [BigNumber.prototype.toString]
    writes. *)
Lemma BigNumber_from_toString n :
  Ethers.BigNumber_from (Ethers.toString n) = Some n.
Proof.
  unfold Ethers.toString. destruct (n <? 0) eqn:E.
  - change (Ethers.BigNumber_from ("-" ++ JS.digits (- n)))
      with ((fun v => if true then - v else v) <$>
            (if JS.startsWith "0x" (JS.digits (- n))
             then Ethers.ofHexDigits (JS.dropPrefix "0x" (JS.digits (- n)))
             else Ethers.ofDigits (JS.digits (- n)))).
    rewrite allDigits_no_radix by apply digits_allDigits.
    rewrite ofDigits_digits by lia. simpl. f_equal. lia.
  - rewrite BigNumber_from_allDigits by apply digits_allDigits.
    apply ofDigits_digits. lia.
Qed.

Lemma toString_nonEmpty n : JS.nonEmpty (Ethers.toString n) = true.
Proof.
  unfold Ethers.toString. destruct (n <? 0); [done|]. apply digits_nonEmpty.
Qed.

Lemma string_length_app s1 s2 :
  String.length (s1 ++ s2) = (String.length s1 + String.length s2)%nat.
Proof. induction s1 as [|c r IH]; simpl; [done|]. by rewrite IH. Qed.

Lemma string_app_assoc s1 s2 s3 : (s1 ++ s2) ++ s3 = s1 ++ s2 ++ s3.
Proof.
  induction s1 as [|c r IH]; [done|].
  change (String c ((r ++ s2) ++ s3) = String c (r ++ s2 ++ s3)). by rewrite IH.
Qed.

Lemma decVal_app s1 s2 acc : decVal (s1 ++ s2) acc = decVal s2 (decVal s1 acc).
Proof. revert acc. induction s1 as [|c r IH]; intros acc; simpl; [done|apply IH]. Qed.

Lemma decVal_zeros n acc : decVal (JS.zeros n) acc = acc * 10 ^ Z.of_nat n.
Proof.
  revert acc. induction n as [|n IH]; intros acc.
  - simpl. lia.
  - cbn [JS.zeros decVal]. rewrite IH. change (JS.digitVal "0") with 0.
    rewrite Nat2Z.inj_succ, Z.pow_succ_r by lia. lia.
Qed.

Lemma decVal_acc s acc :
  decVal s acc = acc * 10 ^ Z.of_nat (String.length s) + decVal s 0.
Proof.
  revert acc. induction s as [|c r IH]; intros acc.
  - simpl. lia.
  - cbn [decVal String.length]. rewrite IH, (IH (10 * 0 + _)).
    rewrite Nat2Z.inj_succ, Z.pow_succ_r by lia. lia.
Qed.

Lemma digitVal_bounds c : JS.isDigit c = true -> 0 <= JS.digitVal c <= 9.
Proof.
  unfold JS.isDigit, JS.digitVal. intros H. apply andb_true_iff in H as [H1 H2].
  apply Nat.leb_le in H1, H2. lia.
Qed.

Lemma decVal_nonneg s : allDigits s = true -> 0 <= decVal s 0.
Proof.
  induction s as [|c r IH]; simpl; [lia|]. intros H.
  apply andb_true_iff in H as [Hc Hr]. rewrite decVal_acc.
  pose proof (digitVal_bounds c Hc). specialize (IH Hr).
  assert (0 <= 10 ^ Z.of_nat (String.length r)) by (apply Z.pow_nonneg; lia).
  nia.
Qed.

Lemma allDigits_app s1 s2 :
  allDigits (s1 ++ s2) = allDigits s1 && allDigits s2.
Proof. induction s1 as [|c r IH]; simpl; [done|]. by rewrite IH, andb_assoc. Qed.

Lemma allDigits_zeros n : allDigits (JS.zeros n) = true.
Proof. induction n; simpl; done. Qed.

Lemma zeros_length n : String.length (JS.zeros n) = n.
Proof. induction n; simpl; [done|]. by f_equal. Qed.

(** A first digit that is not zero bounds the value from below. *)
Lemma decVal_leading c r k :
  allDigits r = true ->
  0 < JS.digitVal c ->
  decVal (String c r) 0 < 10 ^ Z.of_nat k ->
  (S (String.length r) <= k)%nat.
Proof.
  intros Ha Hc Hv. cbn [decVal] in Hv. rewrite decVal_acc in Hv.
  pose proof (decVal_nonneg _ Ha).
  assert (10 ^ Z.of_nat (String.length r) < 10 ^ Z.of_nat k) as Hlt.
  { assert (0 < 10 ^ Z.of_nat (String.length r)) by (apply Z.pow_pos_nonneg; lia).
    nia. }
  apply Z.pow_lt_mono_r_iff in Hlt; lia.
Qed.

(** A number below [10 ^ k] has [k] digits at most: [digits] writes no
    leading zero. *)
Lemma digits_length x k :
  0 <= x < 10 ^ Z.of_nat k -> (0 < k)%nat -> (String.length (JS.digits x) <= k)%nat.
Proof.
  intros Hx Hk. pose proof (digits_value x (proj1 Hx)) as Hv.
  pose proof (digits_allDigits x) as Ha.
  unfold JS.digits, NilZero.string_of_uint in *.
  pose proof (DecimalN.Unsigned.to_of (N.to_uint (Z.to_N x))) as Hn.
  rewrite DecimalN.Unsigned.of_to in Hn.
  destruct (N.to_uint (Z.to_N x)) as [|d|d|d|d|d|d|d|d|d|d] eqn:E;
    [simpl; lia| |..].
  { unfold Decimal.unorm in Hn.
    destruct (Decimal.nzhead (Decimal.D0 d)) eqn:En;
      try (exfalso;
           by eapply (DecimalFacts.nzhead_nonzero (Decimal.D0 d)); rewrite En, <- Hn).
    injection Hn as ->. simpl. lia. }
  all: cbn [NilEmpty.string_of_uint String.length allDigits] in *;
    apply andb_true_iff in Ha as [_ Ha];
    eapply decVal_leading; [exact Ha| |rewrite Hv; lia]; by vm_compute.
Qed.

Lemma stripZeros_decompose s : exists n, s = Ethers.stripZeros s ++ JS.zeros n.
Proof.
  induction s as [|c r [n IH]]; [by exists 0%nat|]. simpl.
  destruct (Ethers.stripZeros r) as [|c' r'] eqn:E.
  - destruct (Ascii.eqb c "0") eqn:Ec.
    + apply Ascii.eqb_eq in Ec as ->. exists (S n). simpl. by rewrite IH at 1.
    + exists n. simpl. by rewrite IH at 1.
  - exists n. simpl. by rewrite IH at 1.
Qed.

Lemma stripZeros_idempotent s :
  Ethers.stripZeros (Ethers.stripZeros s) = Ethers.stripZeros s.
Proof.
  induction s as [|c r IH]; [done|]. simpl.
  destruct (Ethers.stripZeros r) as [|c' r'] eqn:E.
  - destruct (Ascii.eqb c "0") eqn:Ec; [done|]. simpl. by rewrite Ec.
  - cbn [Ethers.stripZeros]. cbn [Ethers.stripZeros] in IH. by rewrite IH.
Qed.

Lemma allDigits_no_dot s :
  allDigits s = true -> Ethers.hasDot s = false /\ Ethers.allDigitsOrDots s = true.
Proof.
  induction s as [|c r IH]; simpl; [done|]. intros H.
  apply andb_true_iff in H as [Hc Hr]. destruct (IH Hr) as [-> ->].
  rewrite Hc. split; [|done]. rewrite orb_false_r.
  apply Ascii.eqb_neq. intros ->. done.
Qed.

Lemma splitDot_app w f :
  Ethers.hasDot w = false -> Ethers.splitDot (w ++ "." ++ f) = (w, Some f).
Proof.
  induction w as [|c r IH]; simpl; [done|]. intros H.
  apply orb_false_iff in H as [Hc Hr]. by rewrite Hc, IH.
Qed.

Lemma allDigitsOrDots_app s1 s2 :
  Ethers.allDigitsOrDots (s1 ++ s2)
  = Ethers.allDigitsOrDots s1 && Ethers.allDigitsOrDots s2.
Proof. induction s1 as [|c r IH]; simpl; [done|]. by rewrite IH, andb_assoc. Qed.

Lemma BigNumber_from_digits s :
  allDigits s = true -> JS.nonEmpty s = true ->
  Ethers.BigNumber_from s = Some (decVal s 0).
Proof.
  intros Ha Hn. rewrite BigNumber_from_allDigits by done. unfold Ethers.ofDigits.
  rewrite scanDigits_allDigits by done.
  destruct s as [|c r]; done.
Qed.

(** A string that starts with a digit carries no sign. *)
Lemma no_sign c r t :
  JS.isDigit c = true ->
  match String c r ++ t with
  | String "-" r' => (true, r')
  | _ => (false, String c r ++ t)
  end
  = (false, String c r ++ t).
Proof. intros H. destruct c as [[] [] [] [] [] [] [] []]; done. Qed.

(** [parseUnits] on digits, a dot and digits. *)
Lemma parseUnits_decimal w f d :
  allDigits w = true -> JS.nonEmpty w = true ->
  allDigits f = true -> JS.nonEmpty f = true ->
  0 <= d <= 256 ->
  (String.length (Ethers.stripZeros f) <= Z.to_nat d)%nat ->
  Ethers.parseUnits (w ++ "." ++ f) d
  = Some (decVal w 0 * 10 ^ d
          + decVal (Ethers.stripZeros f) 0
            * 10 ^ (d - Z.of_nat (String.length (Ethers.stripZeros f)))).
Proof.
  intros Hwa Hwn Hfa Hfn Hd Hlen.
  destruct (allDigits_no_dot _ Hwa) as [Hwd Hwo].
  destruct (allDigits_no_dot _ Hfa) as [Hfd Hfo].
  pose proof (splitDot_app w f Hwd) as Hsplit.
  assert (Ethers.allDigitsOrDots (w ++ "." ++ f) = true) as Hbo.
  { rewrite !allDigitsOrDots_app, Hwo, Hfo. done. }
  pose proof (BigNumber_from_digits w Hwa Hwn) as Hwv.
  destruct w as [|c r]; [done|].
  assert (JS.isDigit c = true) as Hc.
  { simpl in Hwa. by apply andb_true_iff in Hwa as [? _]. }
  assert (((String c r ++ "." ++ f) =? ".")%string = false) as Hbd.
  { apply String.eqb_neq. simpl. intros [= -> _]. done. }
  unfold Ethers.parseUnits, Ethers.getMultiplier.
  assert (((0 <=? d) && (d <=? 256)) = true) as ->
    by (apply andb_true_iff; split; apply Z.leb_le; lia).
  cbn [mbind option_bind].
  rewrite (no_sign c r _ Hc), Hbo, Hbd, Hsplit.
  change (JS.nonEmpty (String c r ++ "." ++ f)) with true.
  cbn [negb andb JS.nonEmpty].
  rewrite Hfd, Hfn.
  assert ((Z.of_nat (String.length (Ethers.stripZeros f)) >? d) = false) as ->.
  { rewrite Z.gtb_ltb. apply Z.ltb_ge. lia. }
  rewrite Hwv. cbn [mbind option_bind].
  destruct (stripZeros_decompose f) as [n Hdec].
  assert (allDigits (Ethers.stripZeros f) = true) as Hta.
  { rewrite Hdec, allDigits_app in Hfa. by apply andb_true_iff in Hfa as [? _]. }
  destruct (Ethers.stripZeros f) as [|c' r'] eqn:Et.
  - cbn [JS.nonEmpty String.length]. rewrite BigNumber_from_digits.
    + cbn [mbind option_bind]. f_equal.
      change ("0" ++ ?x) with (String "0" x). cbn [decVal].
      change (JS.digitVal "0") with 0. rewrite decVal_zeros. simpl. lia.
    + change ("0" ++ ?x) with (String "0" x). simpl. apply allDigits_zeros.
    + done.
  - cbn [JS.nonEmpty]. rewrite BigNumber_from_digits.
    + cbn [mbind option_bind]. f_equal. rewrite decVal_app, decVal_zeros.
      do 3 f_equal. lia.
    + by rewrite allDigits_app, Hta, allDigits_zeros.
    + done.
Qed.

(** What [formatUnits] writes with [k] decimals, [parseUnits] reads back
    with [d >= k] decimals: the value is scaled by [10 ^ (d - k)]. *)
Lemma parseUnits_formatUnits m k d s :
  0 <= m -> 0 < k <= d -> d <= 256 ->
  Ethers.formatUnits m k = Some s ->
  Ethers.parseUnits s d = Some (m * 10 ^ (d - k)).
Proof.
  intros Hm Hk Hd. unfold Ethers.formatUnits, Ethers.getMultiplier.
  assert (((0 <=? k) && (k <=? 256)) = true) as ->
    by (apply andb_true_iff; split; apply Z.leb_le; lia).
  cbn [mbind option_bind]. rewrite Z.abs_eq by lia.
  assert ((k =? 0) = false) as -> by (apply Z.eqb_neq; lia).
  assert ((m <? 0) = false) as -> by (apply Z.ltb_ge; lia).
  assert (0 < 10 ^ k) as Hpow by (apply Z.pow_pos_nonneg; lia).
  set (fraction := JS.digits (m mod 10 ^ k)).
  set (whole := JS.digits (m / 10 ^ k)).
  pose proof (Z.mod_pos_bound m (10 ^ k) Hpow) as Hmod.
  assert (String.length fraction <= Z.to_nat k)%nat as Hlen.
  { apply digits_length; [|lia]. rewrite Z2Nat.id by lia. done. }
  set (padded := JS.zeros (Z.to_nat k - String.length fraction) ++ fraction).
  assert (String.length padded = Z.to_nat k) as Hpl.
  { unfold padded. rewrite string_length_app, zeros_length. lia. }
  assert (allDigits padded = true) as Hpa.
  { unfold padded. rewrite allDigits_app, allDigits_zeros. apply digits_allDigits. }
  assert (decVal padded 0 = m mod 10 ^ k) as Hpv.
  { unfold padded. rewrite decVal_app, decVal_zeros. simpl.
    apply digits_value. lia. }
  destruct (stripZeros_decompose padded) as [n Hdec].
  pose proof (stripZeros_idempotent padded) as Hidem.
  set (trimmed := Ethers.stripZeros padded) in *.
  assert (allDigits trimmed = true) as Hta.
  { rewrite Hdec, allDigits_app in Hpa. by apply andb_true_iff in Hpa as [? _]. }
  assert (String.length trimmed + n = Z.to_nat k)%nat as Htl.
  { rewrite <- Hpl, Hdec, string_length_app, zeros_length. done. }
  assert (decVal trimmed 0 * 10 ^ Z.of_nat n = m mod 10 ^ k) as Htv.
  { rewrite <- Hpv, Hdec, decVal_app, decVal_zeros. done. }
  set (frac := match trimmed with "" => "0" | String a s => String a s end).
  assert (allDigits frac = true /\ JS.nonEmpty frac = true
          /\ Ethers.stripZeros frac = trimmed) as (Hfa & Hfn & Hfs).
  { unfold frac. destruct trimmed as [|c r] eqn:Et; [done|]. done. }
  assert (allDigits whole = true) as Hwa by apply digits_allDigits.
  assert (JS.nonEmpty whole = true) as Hwn by apply digits_nonEmpty.
  assert (decVal whole 0 = m / 10 ^ k) as Hwv.
  { apply digits_value. apply Z.div_pos; lia. }
  intros [= <-].
  rewrite (parseUnits_decimal whole frac d Hwa Hwn Hfa Hfn) by (rewrite ?Hfs; lia).
  f_equal. rewrite Hfs, Hwv.
  replace (d - Z.of_nat (String.length trimmed)) with (Z.of_nat n + (d - k)) by lia.
  rewrite Z.pow_add_r, Z.mul_assoc, Htv by lia.
  replace d with (k + (d - k)) at 1 by lia. rewrite Z.pow_add_r by lia.
  pose proof (Z.div_mod m (10 ^ k)). nia.
Qed.

End DigitStrings.

(** ** The cache service: requests *)

Section ServiceRequests.

Import Server.
Implicit Types (env : Env) (req : Request) (w : World) (c : CacheFile).

(** X1. The handler answers every GET request with status 200, whatever
    fails on the way, and a request with any other method with status
    405 and the error ["Method not allowed"]; the latter without reading
    the clock, the cache file or the registry. *)
Theorem handler_answers_200_or_405 env req w :
  let '(response, w') := handler env req w in
  (method req = "GET" /\ status response = 200)
  \/ (method req <> "GET"
      /\ status response = 405
      /\ p_error (body response) = Some "Method not allowed"
      /\ p_tokens (body response) = None
      /\ w' = w).
Proof.
  destruct (handler env req w) as [response w'] eqn:E.
  destruct (String.eqb (method req) "GET") eqn:Em.
  - left. apply String.eqb_eq in Em. split; [done|].
    pose proof (handler_get_status env req w Em) as H. by rewrite E in H.
  - right. apply String.eqb_neq in Em. unfold handler in E.
    destruct (String.eqb (method req) "GET") eqn:Em'.
    + apply String.eqb_eq in Em'. done.
    + simpl in E. by simplify_eq.
Qed.

(** What one request may leave on the disk: the file as it was, or a
    file stamped with the reading of the clock that [writeCache] takes,
    which is the fourth of the request when there was a cache file and
    the first when there was none, and the one before last in both. *)
Lemma handler_disk env req w :
  disk (snd (handler env req w)) = disk w
  \/ exists toks,
       fst (fetchAllTokens env w) = Some toks
       /\ diskWritable env = true
       /\ ticks (snd (handler env req w))
          = (2 + match disk w with Some _ => 3 + ticks w | None => ticks w end)%nat
       /\ registryCalls (snd (handler env req w)) = S (registryCalls w)
       /\ disk (snd (handler env req w))
          = Some {| lastUpdated :=
                      clock env (match disk w with
                                 | Some _ => 3 + ticks w
                                 | None => ticks w
                                 end)%nat;
                    tokens := toks |}.
Proof.
  unfold handler, handlerTry, handlerCatch, logCache, isCacheValid,
    fetchAllTokens, writeCache, ensureDataDir, diskWritable, refreshFailed,
    readCache, now.
  destruct (disk w) as [c|] eqn:Ed;
    repeat (case_match; simplify_eq/=); try (by left).
  all: right; eexists; repeat split; reflexivity.
Qed.

(** X2. A request leaves the cache file as it is, or replaces it by a
    file that holds the tokens the registry answered with and is stamped
    with the reading of the clock that [writeCache] takes in that request:
    the reading of index [3 + ticks w] when there was a cache file (the
    log line and the two validity checks read the clock before it), of
    index [ticks w] when there was none, and in both cases the last
    reading but one of the request, the last being the one for the
    response. The file is replaced only on a configured service with a
    writable disk, and after exactly one request to the registry. A cache
    file is never deleted: if there was one, there is one afterwards. *)
Theorem handler_keeps_or_rewrites_file env req w :
  (disk (snd (handler env req w)) = disk w
   \/ exists n,
        n = match disk w with Some _ => (3 + ticks w)%nat | None => ticks w end
        /\ (ticks w <= n < ticks (snd (handler env req w)))%nat
        /\ ticks (snd (handler env req w)) = (2 + n)%nat
        /\ registryCalls (snd (handler env req w)) = S (registryCalls w)
        /\ configured env = true
        /\ diskWritable env = true
        /\ disk (snd (handler env req w))
           = Some {| lastUpdated := clock env n;
                     tokens := processTokens
                                 (default [] (tryTokensEndpoint (registry env))) [] |})
  /\ (is_Some (disk w) -> is_Some (disk (snd (handler env req w)))).
Proof.
  assert (Hd := handler_disk env req w).
  split.
  - destruct Hd as [Hd|(toks & Hf & Hw & Ht & Hr & Hd)]; [by left|right].
    eexists. split; [reflexivity|].
    assert (configured env = true) as Hc.
    { destruct (configured env) eqn:Ec; [done|].
      apply (fetchAllTokens_throws env w) in Ec. rewrite Ec in Hf. done. }
    split; [rewrite Ht; destruct (disk w); lia|].
    split; [done|]. split; [done|]. split; [done|]. split; [done|].
    rewrite Hd. do 2 f_equal.
    unfold fetchAllTokens, configured in *.
    destruct (JS.truthyStr (JS.orStr _ _)), (JS.truthyStr (COMMUNITY_API_KEY env));
      simpl in *; try done.
    destruct (tryTokensEndpoint (registry env)); simpl in *; by simplify_eq.
  - intros Hs. destruct Hd as [Hd|(toks & _ & _ & _ & _ & Hd)]; rewrite Hd; done.
Qed.

(** X3. A GET request whose [refresh] parameter is not the string
    ["true"] and that finds a cache file less than 24 hours old is
    answered with that file: the registry is not asked and the file is
    left as it is. The age is taken at the second reading of the clock,
    the first one being that of the log line. *)
Theorem valid_cache_is_served_from_disk env req w c :
  method req = "GET" ->
  refresh req <> Some "true" ->
  disk w = Some c ->
  JS.validTime (lastUpdated c) = true ->
  clock env (S (ticks w)) - lastUpdated c < 24 * 60 * 60 * 1000 ->
  let '(response, w') := handler env req w in
  response = ok200 (payloadOfCache c)
  /\ registryCalls w' = registryCalls w
  /\ disk w' = Some c.
Proof.
  intros Hm Hr Hd Hv Ha.
  assert ((match refresh req with Some v => String.eqb v "true" | None => false end)
          = false) as Hf.
  { destruct (refresh req) as [v|]; [|done].
    apply String.eqb_neq. intros ->. done. }
  unfold handler, handlerTry, logCache, isCacheValid, readCache, now.
  rewrite Hm, Hd, Hv, Hf. simpl.
  assert ((clock env (S (ticks w)) - lastUpdated c <? CACHE_MAX_AGE_MS) = true) as ->
    by (apply Z.ltb_lt; done).
  simpl. done.
Qed.

Lemma valid_cache_is_served_from_disk_witness :
  method Samples.getRequest = "GET"
  /\ refresh Samples.getRequest <> Some "true"
  /\ disk (Samples.worldWith (Some Samples.freshFile)) = Some Samples.freshFile
  /\ JS.validTime (lastUpdated Samples.freshFile) = true
  /\ clock Samples.answering (S (ticks (Samples.worldWith (Some Samples.freshFile))))
     - lastUpdated Samples.freshFile < 24 * 60 * 60 * 1000
  /\ (let '(response, w') :=
        handler Samples.answering Samples.getRequest
          (Samples.worldWith (Some Samples.freshFile)) in
      response = ok200 (payloadOfCache Samples.freshFile)
      /\ registryCalls w' = registryCalls (Samples.worldWith (Some Samples.freshFile))
      /\ disk w' = Some Samples.freshFile).
Proof.
  split; [reflexivity|]. split; [discriminate|]. split; [reflexivity|].
  split; [reflexivity|]. split; [vm_compute; reflexivity|].
  apply (valid_cache_is_served_from_disk Samples.answering Samples.getRequest
           (Samples.worldWith (Some Samples.freshFile)) Samples.freshFile);
    [reflexivity|discriminate|reflexivity|reflexivity|vm_compute; reflexivity].
Defined.

(** X4. [refresh=true] goes past a cache file that is still valid: on a
    configured service with a writable disk the registry is asked once,
    the file is replaced by the tokens of the answer stamped with the
    fourth reading of the clock, and the answer carries the same tokens
    with the fifth reading as [lastUpdated]. *)
Theorem forced_refresh_bypasses_ttl env req w c :
  method req = "GET" ->
  refresh req = Some "true" ->
  disk w = Some c ->
  JS.validTime (lastUpdated c) = true ->
  configured env = true ->
  diskWritable env = true ->
  let tokens := processTokens (default [] (tryTokensEndpoint (registry env))) [] in
  let '(response, w') := handler env req w in
  registryCalls w' = S (registryCalls w)
  /\ disk w' = Some {| lastUpdated := clock env (3 + ticks w); tokens := tokens |}
  /\ response
     = ok200 (payloadOfCache
                {| lastUpdated := clock env (4 + ticks w); tokens := tokens |}).
Proof.
  intros Hm Hr Hd Hv Hc Hw tokens. subst tokens. apply diskWritable_true in Hw.
  unfold configured in Hc. apply andb_true_iff in Hc as [Hc1 Hc2].
  unfold handler, handlerTry, logCache, isCacheValid, readCache, now,
    fetchAllTokens, writeCache, ensureDataDir.
  rewrite Hm, Hr, Hd, Hv. simpl. rewrite andb_false_r, orb_true_r. simpl.
  rewrite Hc1, Hc2, Hw. simpl.
  destruct (tryTokensEndpoint (registry env)); done.
Qed.

Lemma forced_refresh_bypasses_ttl_witness :
  method Samples.refreshRequest = "GET"
  /\ refresh Samples.refreshRequest = Some "true"
  /\ disk (Samples.worldWith (Some Samples.freshFile)) = Some Samples.freshFile
  /\ JS.validTime (lastUpdated Samples.freshFile) = true
  /\ configured Samples.answering = true
  /\ diskWritable Samples.answering = true
  /\ (let tokens :=
        processTokens
          (default [] (tryTokensEndpoint (registry Samples.answering))) [] in
      let '(response, w') :=
        handler Samples.answering Samples.refreshRequest
          (Samples.worldWith (Some Samples.freshFile)) in
      registryCalls w' = S (registryCalls (Samples.worldWith (Some Samples.freshFile)))
      /\ disk w'
         = Some {| lastUpdated :=
                     clock Samples.answering
                       (3 + ticks (Samples.worldWith (Some Samples.freshFile)));
                   tokens := tokens |}
      /\ response
         = ok200 (payloadOfCache
                    {| lastUpdated :=
                         clock Samples.answering
                           (4 + ticks (Samples.worldWith (Some Samples.freshFile)));
                       tokens := tokens |})).
Proof.
  split; [reflexivity|]. split; [reflexivity|]. split; [reflexivity|].
  split; [reflexivity|]. split; [reflexivity|]. split; [reflexivity|].
  apply (forced_refresh_bypasses_ttl Samples.answering Samples.refreshRequest
           (Samples.worldWith (Some Samples.freshFile)) Samples.freshFile);
    reflexivity.
Defined.

(** X28. A registry request that fails empties a stale cache: on a
    configured service with a writable disk, a GET request that finds a
    cache file at least 24 hours old while the [/tokens] request throws
    (no answer, an error status, a body that is not JSON) replaces the
    file by one without tokens, and answers with status 200, no tokens
    and no [error] member. *)
Theorem failed_registry_request_empties_the_cache env req w c :
  method req = "GET" ->
  disk w = Some c ->
  JS.validTime (lastUpdated c) = true ->
  24 * 60 * 60 * 1000 <= clock env (1 + ticks w) - lastUpdated c ->
  24 * 60 * 60 * 1000 <= clock env (2 + ticks w) - lastUpdated c ->
  configured env = true ->
  diskWritable env = true ->
  tryTokensEndpoint (registry env) = None ->
  let '(response, w') := handler env req w in
  disk w' = Some {| lastUpdated := clock env (3 + ticks w); tokens := [] |}
  /\ response
     = ok200 {| p_lastUpdated := Some (clock env (4 + ticks w));
                p_tokens := Some [];
                p_error := None |}.
Proof.
  intros Hm Hd Hv H1 H2 Hc Hw Hr. apply diskWritable_true in Hw.
  unfold configured in Hc. apply andb_true_iff in Hc as [Hc1 Hc2].
  unfold handler, handlerTry, logCache, isCacheValid, readCache, now,
    fetchAllTokens, writeCache, ensureDataDir.
  rewrite Hm, Hd, Hv. simpl.
  assert ((clock env (S (ticks w)) - lastUpdated c <? CACHE_MAX_AGE_MS) = false)
    as -> by (apply Z.ltb_ge; exact H1).
  assert ((clock env (S (S (ticks w))) - lastUpdated c <? CACHE_MAX_AGE_MS) = false)
    as -> by (apply Z.ltb_ge; exact H2).
  simpl. rewrite Hc1, Hc2, Hw, Hr. done.
Qed.

Lemma failed_registry_request_empties_the_cache_witness :
  method Samples.getRequest = "GET"
  /\ disk (Samples.worldWith (Some Samples.oldFile)) = Some Samples.oldFile
  /\ JS.validTime (lastUpdated Samples.oldFile) = true
  /\ 24 * 60 * 60 * 1000
     <= clock Samples.unreachable
          (1 + ticks (Samples.worldWith (Some Samples.oldFile)))
        - lastUpdated Samples.oldFile
  /\ 24 * 60 * 60 * 1000
     <= clock Samples.unreachable
          (2 + ticks (Samples.worldWith (Some Samples.oldFile)))
        - lastUpdated Samples.oldFile
  /\ configured Samples.unreachable = true
  /\ diskWritable Samples.unreachable = true
  /\ tryTokensEndpoint (registry Samples.unreachable) = None
  /\ (let '(response, w') :=
        handler Samples.unreachable Samples.getRequest
          (Samples.worldWith (Some Samples.oldFile)) in
      disk w'
      = Some {| lastUpdated :=
                  clock Samples.unreachable
                    (3 + ticks (Samples.worldWith (Some Samples.oldFile)));
                tokens := [] |}
      /\ response
         = ok200 {| p_lastUpdated :=
                      Some (clock Samples.unreachable
                              (4 + ticks (Samples.worldWith (Some Samples.oldFile))));
                    p_tokens := Some [];
                    p_error := None |}).
Proof.
  split; [reflexivity|]. split; [reflexivity|]. split; [reflexivity|].
  split; [vm_compute; discriminate|]. split; [vm_compute; discriminate|].
  split; [reflexivity|]. split; [reflexivity|]. split; [reflexivity|].
  apply (failed_registry_request_empties_the_cache Samples.unreachable
           Samples.getRequest (Samples.worldWith (Some Samples.oldFile))
           Samples.oldFile);
    [reflexivity|reflexivity|reflexivity|vm_compute; discriminate
    |vm_compute; discriminate|reflexivity|reflexivity|reflexivity].
Defined.

End ServiceRequests.

(** ** The cache service: the token record *)

Section TokenRecords.

Import Server.
Implicit Types (obj : TokenRecord) (token : RegistryToken).

Lemma setProperty_keys obj k v :
  (setProperty obj k v).*1
  = if bool_decide (k ∈ obj.*1) then obj.*1 else (obj.*1 ++ [k])%list.
Proof.
  induction obj as [|[k' v'] obj IH]; csimpl; [done|].
  destruct (String.eqb k' k) eqn:E.
  - apply String.eqb_eq in E as ->. csimpl.
    rewrite bool_decide_eq_true_2; [done|by left].
  - apply String.eqb_neq in E. csimpl. rewrite IH.
    destruct (bool_decide (k ∈ obj.*1)) eqn:Eb.
    + apply bool_decide_eq_true in Eb.
      rewrite bool_decide_eq_true_2; [done|by right].
    + apply bool_decide_eq_false in Eb.
      rewrite bool_decide_eq_false_2; [done|].
      rewrite elem_of_cons. intros [?|?]; by simplify_eq.
Qed.

Lemma setProperty_NoDup obj k v : NoDup obj.*1 -> NoDup (setProperty obj k v).*1.
Proof.
  intros H. rewrite setProperty_keys. case_bool_decide; [done|].
  apply NoDup_app. split; [done|]. split; [|apply NoDup_singleton].
  intros x Hx Hk. apply list_elem_of_singleton in Hk. by subst.
Qed.

(** Every key is the lower-case address of its token, which is not
    empty. *)
Lemma setProperty_keyed obj a token :
  JS.nonEmpty a = true ->
  Forall (fun kv => kv.1 = JS.toLowerCase (tokenAddress kv.2)
                    /\ JS.nonEmpty (tokenAddress kv.2) = true) obj ->
  Forall (fun kv => kv.1 = JS.toLowerCase (tokenAddress kv.2)
                    /\ JS.nonEmpty (tokenAddress kv.2) = true)
    (setProperty obj (JS.toLowerCase a) (cachedTokenOf a token)).
Proof.
  intros Ha.
  induction obj as [|[k' v'] obj IH]; simpl; intros H.
  - repeat constructor; done.
  - inversion H as [|? ? [H1 H2] H3]; subst. simpl in *.
    destruct (String.eqb _ _) eqn:E.
    + apply String.eqb_eq in E. constructor; [|done]. simpl. by rewrite E.
    + constructor; [done|]. by apply IH.
Qed.

Lemma setProperty_length obj k v :
  (length (setProperty obj k v) <= S (length obj))%nat.
Proof.
  induction obj as [|[k' v'] obj IH]; simpl; [lia|].
  destruct (String.eqb k' k); simpl; lia.
Qed.

Lemma processTokens_invariant allTokens obj :
  NoDup obj.*1 ->
  Forall (fun kv => kv.1 = JS.toLowerCase (tokenAddress kv.2)
                    /\ JS.nonEmpty (tokenAddress kv.2) = true) obj ->
  NoDup (processTokens allTokens obj).*1
  /\ Forall (fun kv => kv.1 = JS.toLowerCase (tokenAddress kv.2)
                       /\ JS.nonEmpty (tokenAddress kv.2) = true)
       (processTokens allTokens obj)
  /\ (length (processTokens allTokens obj) <= length obj + length allTokens)%nat.
Proof.
  revert obj. induction allTokens as [|token rest IH]; intros obj Hn Hk; simpl.
  - repeat split; [done|done|lia].
  - destruct (tokenAddressOf token) as [a|] eqn:Ea; simpl.
    + destruct (JS.nonEmpty a) eqn:Et.
      * destruct (IH (setProperty obj (JS.toLowerCase a) (cachedTokenOf a token)))
          as (H1 & H2 & H3).
        { by apply setProperty_NoDup. }
        { by apply setProperty_keyed. }
        repeat split; [done|done|].
        pose proof (setProperty_length obj (JS.toLowerCase a) (cachedTokenOf a token)).
        lia.
      * destruct (IH obj Hn Hk) as (H1 & H2 & H3). repeat split; [done|done|lia].
    + destruct (IH obj Hn Hk) as (H1 & H2 & H3). repeat split; [done|done|lia].
Qed.

(** X5. The record [fetchAllTokens] builds from the registry's tokens
    has no key twice; every key is the lower-case form of the address
    stored in its token, and that address is not empty; and the record
    has no more entries than the registry listed tokens. *)
Theorem cached_tokens_are_keyed_by_lower_case_address allTokens :
  let cachedTokens := processTokens allTokens [] in
  NoDup cachedTokens.*1
  /\ (forall key cached,
        (key, cached) ∈ cachedTokens ->
        key = JS.toLowerCase (tokenAddress cached)
        /\ tokenAddress cached <> "")
  /\ (length cachedTokens <= length allTokens)%nat.
Proof.
  destruct (processTokens_invariant allTokens []) as (H1 & H2 & H3).
  { constructor. } { constructor. }
  rewrite Forall_forall in H2.
  repeat split; [done| | |done].
  - apply H2 in H. simpl in H. tauto.
  - apply H2 in H. simpl in H. destruct H as [_ H]. intros E. rewrite E in H. done.
Qed.

(** Lookup after [obj[key] = value]. *)
Lemma property_setProperty obj k v k' :
  Enrichment.property (setProperty obj k v) k'
  = if String.eqb k k' then Some v else Enrichment.property obj k'.
Proof.
  induction obj as [|[k0 v0] obj IH]; simpl.
  - done.
  - destruct (String.eqb k0 k) eqn:E; simpl.
    + apply String.eqb_eq in E as ->. by destruct (String.eqb k k').
    + rewrite IH. destruct (String.eqb k0 k') eqn:E'; [|done].
      destruct (String.eqb k k') eqn:E2; [|done].
      apply String.eqb_eq in E', E2. subst. by rewrite String.eqb_refl in E.
Qed.


(** Tokens listed under other addresses leave the entry of a key as it
    is. *)
Lemma processTokens_other allTokens obj k :
  (forall token a, token ∈ allTokens -> tokenAddressOf token = Some a ->
                   a <> "" -> JS.toLowerCase a <> k) ->
  Enrichment.property (processTokens allTokens obj) k = Enrichment.property obj k.
Proof.
  revert obj. induction allTokens as [|token rest IH]; intros obj H; simpl; [done|].
  assert (forall token a, token ∈ rest -> tokenAddressOf token = Some a ->
                          a <> "" -> JS.toLowerCase a <> k) as H'.
  { intros t a Ht. apply H. by right. }
  destruct (tokenAddressOf token) as [a|] eqn:Ea; simpl; [|by apply IH].
  destruct (JS.nonEmpty a) eqn:En; [|by apply IH].
  rewrite IH by done. rewrite property_setProperty.
  destruct (String.eqb _ _) eqn:E; [|done].
  apply String.eqb_eq in E. exfalso. apply (H token a); [by left|done| |done].
  intros ->. done.
Qed.



(** X7. The record holds nothing under a key that is the lower-case
    address of no listed token: tokens without an address, or with an
    empty one, add no entry, and no entry is invented. *)
Theorem unlisted_address_is_not_cached allTokens k :
  (forall token a, token ∈ allTokens -> tokenAddressOf token = Some a ->
                   a <> "" -> JS.toLowerCase a <> k) ->
  Enrichment.property (processTokens allTokens []) k = None.
Proof. intros H. by rewrite processTokens_other. Qed.

Lemma unlisted_address_is_not_cached_witness :
  (forall token a,
     token ∈ Samples.listed -> tokenAddressOf token = Some a ->
     a <> "" -> JS.toLowerCase a <> "0xddafbb505ad214d7b80b1f830fccc89b60fb7a83")
  /\ Enrichment.property (processTokens Samples.listed [])
       "0xddafbb505ad214d7b80b1f830fccc89b60fb7a83" = None.
Proof.
  assert (forall token a,
            token ∈ Samples.listed -> tokenAddressOf token = Some a ->
            a <> "" ->
            JS.toLowerCase a <> "0xddafbb505ad214d7b80b1f830fccc89b60fb7a83") as H.
  { intros token a Hin. unfold Samples.listed in Hin.
    apply elem_of_cons in Hin as [->|Hin].
    - intros [= <-] _. discriminate.
    - apply list_elem_of_singleton in Hin as ->. discriminate. }
  split; [exact H|].
  apply (unlisted_address_is_not_cached Samples.listed
           "0xddafbb505ad214d7b80b1f830fccc89b60fb7a83" H).
Defined.

End TokenRecords.

(** ** The in-memory registry cache of the page *)

Section PageCache.

Import RealTokenAPI.
Implicit Types (w : World) (s : State) (t now : Z).

Lemma lowerChar_idempotent c : JS.lowerChar (JS.lowerChar c) = JS.lowerChar c.
Proof. destruct c as [[] [] [] [] [] [] [] []]; reflexivity. Qed.

Lemma toLowerCase_idempotent a :
  JS.toLowerCase (JS.toLowerCase a) = JS.toLowerCase a.
Proof.
  induction a as [|c r IH]; simpl; [done|]. by rewrite lowerChar_idempotent, IH.
Qed.

(** Loading a record whose keys are the lower-case addresses of its
    tokens gives a map with the entries of the record. *)
Lemma loadTokens_lookup (obj : Server.TokenRecord) (m : gmap string RealToken) k :
  NoDup obj.*1 ->
  Forall (fun kv => kv.1 = JS.toLowerCase (Server.tokenAddress kv.2)
                    /\ JS.nonEmpty (Server.tokenAddress kv.2) = true) obj ->
  loadTokens (map snd obj) m !! k
  = match Enrichment.property obj k with
    | Some v => Some v
    | None => m !! k
    end.
Proof.
  revert m. induction obj as [|[k0 v0] obj IH]; intros m Hn Hk; simpl; [done|].
  inversion Hk as [|? ? [H1 H2] H3]; subst. simpl in *.
  apply NoDup_cons in Hn as [Hnot Hn].
  rewrite H2, IH by done. rewrite <- H1.
  destruct (String.eqb k0 k) eqn:E.
  - apply String.eqb_eq in E as ->.
    destruct (Enrichment.property obj k) eqn:Ep.
    + exfalso. apply Hnot. clear -Ep.
      induction obj as [|[k1 v1] obj IH]; simpl in *; [done|].
      destruct (String.eqb k1 k) eqn:E.
      * apply String.eqb_eq in E as ->. by left.
      * right. by apply IH.
    + by rewrite lookup_insert_eq.
  - apply String.eqb_neq in E.
    destruct (Enrichment.property obj k); [done|]. by rewrite lookup_insert_ne.
Qed.

(** X8. From the service to the page: once the page has loaded a cache
    file whose tokens [fetchAllTokens] built, [getTokenDetails] on an
    address, in any letter case, gives the entry the file has under the
    lower-case address, and nothing when the file has none; what the
    page held before plays no part. *)
Theorem page_finds_what_the_service_cached allTokens t now s a :
  let file := {| Server.lastUpdated := t;
                 Server.tokens := Server.processTokens allTokens [] |} in
  let s' := settleState now
              (HttpResponse 200 (JsonObject (Server.payloadOfCache file))) s in
  getTokenDetails s' a = Enrichment.property (Server.tokens file) (JS.toLowerCase a).
Proof.
  simpl. unfold getTokenDetails. simpl.
  destruct (processTokens_invariant allTokens []) as (H1 & H2 & _).
  { constructor. } { constructor. }
  rewrite loadTokens_lookup by done.
  destruct (Enrichment.property _ _); [done|]. apply lookup_empty.
Qed.

Lemma loadTokens_keys values (m : gmap string RealToken) :
  (forall k v, m !! k = Some v -> k = JS.toLowerCase (Server.tokenAddress v)) ->
  forall k v, loadTokens values m !! k = Some v ->
              k = JS.toLowerCase (Server.tokenAddress v).
Proof.
  revert m. induction values as [|token rest IH]; intros m Hm; simpl; [done|].
  apply IH. destruct (JS.nonEmpty _); [|done].
  intros k v.
  destruct (decide (JS.toLowerCase (Server.tokenAddress token) = k)) as [<-|Hne].
  - rewrite lookup_insert_eq. by intros [= <-].
  - rewrite lookup_insert_ne by done. apply Hm.
Qed.

Lemma settleState_keys now r s :
  (forall k v, cache s !! k = Some v -> k = JS.toLowerCase (Server.tokenAddress v)) ->
  forall k v, cache (settleState now r s) !! k = Some v ->
              k = JS.toLowerCase (Server.tokenAddress v).
Proof.
  intros Hs. unfold settleState. repeat case_match; simpl; try done.
  all: apply loadTokens_keys; intros k v; by rewrite lookup_empty.
Qed.

(** Throughout a session every key of the map is the lower-case address
    of its token. *)
Lemma reachable_keys w :
  reachable w ->
  forall k v, cache (api w) !! k = Some v -> k = JS.toLowerCase (Server.tokenAddress v).
Proof.
  induction 1 as [|w e w' Hw IH Hstep].
  - intros k v. simpl. by rewrite lookup_empty.
  - destruct e as [now|p now r]; simpl in Hstep.
    + injection Hstep as <-.
      rewrite (proj1 (initializeCache_cache now w)). done.
    + unfold settle in Hstep. case_bool_decide; [|done]. injection Hstep as <-.
      simpl. by apply settleState_keys.
Qed.

Lemma loaded_reachable : reachable Samples.loaded.
Proof.
  apply (reachable_step Samples.refreshing
           (Settle 0%nat 1700000001000
              (HttpResponse 200 (JsonObject (Server.payloadOfCache Samples.oldFile))))).
  - apply (reachable_step initial (Call 1700000000000));
      [apply reachable_initial|reflexivity].
  - vm_compute. reflexivity.
Qed.

(** X9. At any moment of a session a lookup does not depend on the
    letter case of the address asked for, and the token it gives, if
    any, is one whose own address is the address asked for up to case. *)
Theorem lookup_is_by_address_up_to_case w a :
  reachable w ->
  getTokenDetails (api w) (JS.toLowerCase a) = getTokenDetails (api w) a
  /\ forall token,
       getTokenDetails (api w) a = Some token ->
       JS.toLowerCase (Server.tokenAddress token) = JS.toLowerCase a.
Proof.
  intros Hw. unfold getTokenDetails. split.
  - by rewrite toLowerCase_idempotent.
  - intros token H. symmetry. by apply (reachable_keys w Hw).
Qed.

Lemma lookup_is_by_address_up_to_case_witness :
  reachable Samples.loaded
  /\ getTokenDetails (api Samples.loaded)
       (JS.toLowerCase "0x9528A7402C0FE85B817AA6E106EAFA03A02924C4")
     = getTokenDetails (api Samples.loaded)
         "0x9528A7402C0FE85B817AA6E106EAFA03A02924C4"
  /\ forall token,
       getTokenDetails (api Samples.loaded)
         "0x9528A7402C0FE85B817AA6E106EAFA03A02924C4" = Some token ->
       JS.toLowerCase (Server.tokenAddress token)
       = JS.toLowerCase "0x9528A7402C0FE85B817AA6E106EAFA03A02924C4".
Proof.
  split; [exact loaded_reachable|].
  exact (lookup_is_by_address_up_to_case Samples.loaded
           "0x9528A7402C0FE85B817AA6E106EAFA03A02924C4" loaded_reachable).
Defined.

(** X10. The page takes over the timestamp of the file it downloads, so
    its cache ages with the file and not with the download: after a
    successful refresh with a [lastUpdated] of [t], a call less than 24
    hours after [t] resolves at once and sends nothing, and a call 24
    hours after [t] or later sends a new request; the latter also when
    the file has just been downloaded, as with a stale file the service
    goes on serving. *)
Theorem page_cache_ages_with_the_file p now payload toks t w w1 :
  settle p now (HttpResponse 200 (JsonObject payload)) w = Some w1 ->
  Server.p_tokens payload = Some toks ->
  Server.p_lastUpdated payload = Some t ->
  t <> 0 ->
  cacheTimestamp (api w1) = Some t
  /\ (forall now', now' - t < 24 * 60 * 60 * 1000 ->
                   initializeCache now' w1 = (Resolved, w1))
  /\ (forall now', 24 * 60 * 60 * 1000 <= now' - t ->
                   fetches (snd (initializeCache now' w1)) = S (fetches w1)).
Proof.
  intros Hs Htoks Ht Hne. unfold settle in Hs. case_bool_decide; [|done].
  injection Hs as <-. unfold initializeCache, isFresh. simpl.
  rewrite Htoks, Ht. simpl.
  assert ((t =? 0) = false) as E0 by (by apply Z.eqb_neq).
  rewrite E0. simpl. rewrite E0. split; [done|]. split; intros now' Hn.
  - assert ((now' - t <? CACHE_MAX_AGE_MS) = true) as -> by (by apply Z.ltb_lt).
    done.
  - assert ((now' - t <? CACHE_MAX_AGE_MS) = false) as -> by (by apply Z.ltb_ge).
    done.
Qed.

Lemma page_cache_ages_with_the_file_witness :
  settle 0%nat 1700000001000
    (HttpResponse 200 (JsonObject (Server.payloadOfCache Samples.oldFile)))
    Samples.refreshing = Some Samples.loaded
  /\ Server.p_tokens (Server.payloadOfCache Samples.oldFile)
     = Some (Server.tokens Samples.oldFile)
  /\ Server.p_lastUpdated (Server.payloadOfCache Samples.oldFile)
     = Some 1600000000000
  /\ 1600000000000 <> 0
  /\ cacheTimestamp (api Samples.loaded) = Some 1600000000000
  /\ (forall now', now' - 1600000000000 < 24 * 60 * 60 * 1000 ->
                   initializeCache now' Samples.loaded = (Resolved, Samples.loaded))
  /\ (forall now', 24 * 60 * 60 * 1000 <= now' - 1600000000000 ->
                   fetches (snd (initializeCache now' Samples.loaded))
                   = S (fetches Samples.loaded)).
Proof.
  assert (settle 0%nat 1700000001000
            (HttpResponse 200 (JsonObject (Server.payloadOfCache Samples.oldFile)))
            Samples.refreshing = Some Samples.loaded) as H
    by (vm_compute; reflexivity).
  split; [exact H|]. split; [reflexivity|]. split; [reflexivity|].
  split; [discriminate|].
  apply (page_cache_ages_with_the_file 0%nat 1700000001000
           (Server.payloadOfCache Samples.oldFile) (Server.tokens Samples.oldFile)
           1600000000000 Samples.refreshing Samples.loaded H);
    [reflexivity|reflexivity|discriminate].
Defined.

(** X11. A refresh that succeeds replaces the snapshot as a whole: the
    state of the cache afterwards is the same whatever the cache held
    before, so no token of an older file survives. *)
Theorem successful_refresh_replaces_the_snapshot now r s1 s2 :
  fetchFailed r = false ->
  settleState now r s1 = settleState now r s2.
Proof.
  unfold fetchFailed, settleState. intros H.
  destruct r as [|st json]; [done|].
  destruct ((200 <=? st) && (st <=? 299)); simpl in *; [|done].
  destruct json as [| |p]; try done.
  destruct (Server.p_tokens p); done.
Qed.

Lemma successful_refresh_replaces_the_snapshot_witness :
  fetchFailed
    (HttpResponse 200 (JsonObject (Server.payloadOfCache Samples.oldFile))) = false
  /\ settleState 1700000001000
       (HttpResponse 200 (JsonObject (Server.payloadOfCache Samples.oldFile)))
       Samples.emptyRegistry
     = settleState 1700000001000
         (HttpResponse 200 (JsonObject (Server.payloadOfCache Samples.oldFile)))
         (Samples.registryWith (Samples.property7 None None)).
Proof.
  split; [reflexivity|].
  apply (successful_refresh_replaces_the_snapshot 1700000001000
           (HttpResponse 200 (JsonObject (Server.payloadOfCache Samples.oldFile)))
           Samples.emptyRegistry
           (Samples.registryWith (Samples.property7 None None))).
  reflexivity.
Defined.

(** X12. A refresh that fails stamps the cache with the time of the
    attempt: calls less than 24 hours after the attempt resolve at once
    and send nothing, so the failure is not retried, and the first call
    24 hours after it or later sends a new request. *)
Theorem failed_refresh_is_retried_after_a_day p now r w w2 :
  settle p now r w = Some w2 ->
  fetchFailed r = true ->
  now <> 0 ->
  (forall ts,
     Forall (fun t => t - now < 24 * 60 * 60 * 1000) ts ->
     calls ts w2 = (repeat Resolved (length ts), w2))
  /\ (forall t, 24 * 60 * 60 * 1000 <= t - now ->
                fetches (snd (initializeCache t w2)) = S (fetches w2)).
Proof.
  intros Hs Hf Hn. split.
  - intros ts Hts. by apply (no_retry_after_failure p now r w w2 ts).
  - intros t Ht. unfold settle in Hs. case_bool_decide; [|done].
    injection Hs as <-. unfold initializeCache, isFresh. simpl.
    destruct (settleState_failed now r (api w) Hf) as [_ ->].
    rewrite settleState_promise.
    assert ((t - now <? CACHE_MAX_AGE_MS) = false) as -> by (by apply Z.ltb_ge).
    rewrite andb_false_r. done.
Qed.

Lemma failed_refresh_is_retried_after_a_day_witness :
  settle 0%nat 1700000001000 FetchThrows Samples.refreshing = Some Samples.failedOnce
  /\ fetchFailed FetchThrows = true
  /\ 1700000001000 <> 0
  /\ (forall ts,
        Forall (fun t => t - 1700000001000 < 24 * 60 * 60 * 1000) ts ->
        calls ts Samples.failedOnce = (repeat Resolved (length ts), Samples.failedOnce))
  /\ (forall t, 24 * 60 * 60 * 1000 <= t - 1700000001000 ->
                fetches (snd (initializeCache t Samples.failedOnce))
                = S (fetches Samples.failedOnce)).
Proof.
  assert (settle 0%nat 1700000001000 FetchThrows Samples.refreshing
          = Some Samples.failedOnce) as H by (vm_compute; reflexivity).
  split; [exact H|]. split; [reflexivity|]. split; [discriminate|].
  apply (failed_refresh_is_retried_after_a_day 0%nat 1700000001000 FetchThrows
           Samples.refreshing Samples.failedOnce H); [reflexivity|discriminate].
Defined.

End PageCache.

(** ** Offers as the gateway returns them *)

Section FetchedOffers.

Import Gateway Enrichment.
Implicit Types (rpc : Rpc) (y : YamOffer) (registry : RealTokenAPI.State)
  (reads : Erc20).

(** The record a successful fetch builds. *)
Lemma fetchOfferRpc_record rpc offerId y :
  fetchOfferRpc rpc offerId = Some y ->
  exists n offerData,
    showOffer rpc n = Some offerData
    /\ y = {| Gateway.offerId := offerId;
              buyerTokenAddress := value1 offerData;
              offerTokenAddress := value0 offerData;
              Gateway.buyerAddress := Gateway.seller offerData;
              Gateway.price := Ethers.toString (priceBN offerData);
              Gateway.amount := Ethers.toString (amountBN offerData);
              type := 0;
              Gateway.createdAt := "0";
              removedAt := None;
              offerTokenDecimals :=
                Some (if JS.nonEmpty (value0 offerData)
                      then getDecimals rpc (value0 offerData) else 18);
              buyerTokenDecimals :=
                Some (if JS.nonEmpty (value1 offerData)
                      then getDecimals rpc (value1 offerData) else 18) |}.
Proof.
  unfold fetchOfferRpc. intros H.
  destruct (negb _ || _); [discriminate|].
  destruct (beyondOfferCount _ _); [discriminate|].
  destruct (ofNumber _) as [n|]; [|discriminate].
  cbn [mbind option_bind] in H.
  destruct (showOffer rpc n) as [offerData|] eqn:Es; [|discriminate].
  cbn [mbind option_bind] in H. injection H as <-.
  by exists n, offerData.
Qed.

(** X13. An offer the gateway returns carries the answer of [showOffer]
    unchanged: its price and its amount are decimal strings that
    [BigNumber.from] reads back as the two integers of the chain, its
    identifier is the string that was asked for, the creator of the
    offer is in [buyerAddress], and the sold and the payment token are
    the first and the second address of the answer. *)
Theorem fetched_offer_reads_back rpc offerId y :
  fetchOfferRpc rpc offerId = Some y ->
  exists n offerData,
    showOffer rpc n = Some offerData
    /\ Ethers.BigNumber_from (Gateway.price y) = Some (priceBN offerData)
    /\ Ethers.BigNumber_from (Gateway.amount y) = Some (amountBN offerData)
    /\ Gateway.offerId y = offerId
    /\ Gateway.buyerAddress y = Gateway.seller offerData
    /\ offerTokenAddress y = value0 offerData
    /\ buyerTokenAddress y = value1 offerData.
Proof.
  intros H. destruct (fetchOfferRpc_record _ _ _ H) as (n & d & Hs & ->).
  exists n, d. simpl. rewrite !BigNumber_from_toString. done.
Qed.

Lemma fetched_offer_reads_back_witness :
  fetchOfferRpc Samples.gnosisChain "7" = Some Samples.offer7
  /\ exists n offerData,
       showOffer Samples.gnosisChain n = Some offerData
       /\ Ethers.BigNumber_from (Gateway.price Samples.offer7) = Some (priceBN offerData)
       /\ Ethers.BigNumber_from (Gateway.amount Samples.offer7)
          = Some (amountBN offerData)
       /\ Gateway.offerId Samples.offer7 = "7"
       /\ Gateway.buyerAddress Samples.offer7 = Gateway.seller offerData
       /\ offerTokenAddress Samples.offer7 = value0 offerData
       /\ buyerTokenAddress Samples.offer7 = value1 offerData.
Proof.
  assert (fetchOfferRpc Samples.gnosisChain "7" = Some Samples.offer7) as H
    by (vm_compute; reflexivity).
  exact (conj H (fetched_offer_reads_back Samples.gnosisChain "7" Samples.offer7 H)).
Defined.

(** X14. An offer the gateway returns is never shown as cancelled, the
    gateway leaving [removedAt] undefined; and it is shown as sold when
    its remaining amount on the chain is zero. *)
Theorem fetched_offer_is_never_cancelled rpc offerId y :
  fetchOfferRpc rpc offerId = Some y ->
  getStatusFromOffer y <> cancelled
  /\ (Ethers.BigNumber_from (Gateway.amount y) = Some 0 ->
      getStatusFromOffer y = sold).
Proof.
  intros H. destruct (fetchOfferRpc_record _ _ _ H) as (n & d & Hs & ->).
  unfold getStatusFromOffer. simpl. split.
  - by destruct (PrimFloat.eqb _ _).
  - rewrite BigNumber_from_toString. intros [= ->]. reflexivity.
Qed.

Lemma fetched_offer_is_never_cancelled_witness :
  fetchOfferRpc Samples.gnosisChain "7" = Some Samples.offer7
  /\ getStatusFromOffer Samples.offer7 <> cancelled
  /\ (Ethers.BigNumber_from (Gateway.amount Samples.offer7) = Some 0 ->
      getStatusFromOffer Samples.offer7 = sold).
Proof.
  assert (fetchOfferRpc Samples.gnosisChain "7" = Some Samples.offer7) as H
    by (vm_compute; reflexivity).
  exact (conj H
           (fetched_offer_is_never_cancelled Samples.gnosisChain "7" Samples.offer7 H)).
Defined.

Lemma unitsToNumber_toString n d :
  0 <= d <= 256 ->
  is_Some (Ethers.unitsToNumber (orElse (Ethers.toString n) "0") d).
Proof.
  intros Hd. unfold orElse. rewrite toString_nonEmpty.
  unfold Ethers.unitsToNumber, Ethers.formatUnitsStr, Ethers.formatUnits,
    Ethers.getMultiplier.
  rewrite BigNumber_from_toString.
  assert (((0 <=? d) && (d <=? 256)) = true) as ->.
  { apply andb_true_iff. split; apply Z.leb_le; lia. }
  simpl. done.
Qed.

(** On a chain whose [decimals()] answers are those of a [uint8], the
    two conversions of the enrichment succeed on a fetched offer. *)
Lemma combine_fetched rpc offerId y registry reads now :
  (forall tokenAddress d, Gateway.decimals rpc tokenAddress = Some d -> 0 <= d <= 255) ->
  fetchOfferRpc rpc offerId = Some y ->
  is_Some (combineOfferData registry reads now y).
Proof.
  intros Hd H. destruct (fetchOfferRpc_record _ _ _ H) as (n & d & Hs & ->).
  unfold combineOfferData. simpl.
  assert (forall a, 0 <= (if JS.nonEmpty a then getDecimals rpc a else 18) <= 256)
    as Hdec.
  { intros a. destruct (JS.nonEmpty a); [|lia]. unfold getDecimals.
    destruct (Gateway.decimals rpc a) as [k|] eqn:E; [|lia].
    apply Hd in E. lia. }
  destruct (unitsToNumber_toString (priceBN d) _ (Hdec (value1 d)))
    as [priceNum ->].
  destruct (unitsToNumber_toString (amountBN d) _ (Hdec (value0 d)))
    as [amountNum ->].
  cbn [mbind option_bind]. done.
Qed.

(** X15. The gateway and the enrichment fit: on a chain whose
    [decimals()] answers are those of a [uint8], every offer the gateway
    returns is enriched without an exception, whatever the registry
    cache and the ERC-20 reads are; the enriched offer carries the
    identifier asked for, the creator of the offer as its seller, and
    the time of the enrichment as its date. *)
Theorem fetched_offers_always_enrich rpc offerId y registry reads now :
  (forall tokenAddress d, Gateway.decimals rpc tokenAddress = Some d -> 0 <= d <= 255) ->
  fetchOfferRpc rpc offerId = Some y ->
  exists o,
    combineOfferData registry reads now y = Some o
    /\ createdAt o = now
    /\ id o = offerId
    /\ seller o = Gateway.buyerAddress y.
Proof.
  intros Hd H.
  destruct (combine_fetched rpc offerId y registry reads now Hd H) as [o Ho].
  exists o. split; [done|].
  destruct (fetchOfferRpc_record _ _ _ H) as (n & d & Hs & ->).
  unfold combineOfferData in Ho. simpl in Ho.
  repeat (match type of Ho with
          | (?c ≫= _) = _ => destruct c; [|discriminate]
          end; cbn [mbind option_bind] in Ho).
  injection Ho as <-. done.
Qed.

(** The [decimals()] answers of the sample chain are 6 or 18. *)
Lemma gnosisChain_decimals tokenAddress d :
  Gateway.decimals Samples.gnosisChain tokenAddress = Some d -> 0 <= d <= 255.
Proof. simpl. case_match; intros [= <-]; lia. Qed.

Lemma fetched_offers_always_enrich_witness :
  (forall tokenAddress d,
     Gateway.decimals Samples.gnosisChain tokenAddress = Some d -> 0 <= d <= 255)
  /\ fetchOfferRpc Samples.gnosisChain "7" = Some Samples.offer7
  /\ exists o,
       combineOfferData Samples.emptyRegistry Samples.noReads 1700000000000
         Samples.offer7 = Some o
       /\ createdAt o = 1700000000000
       /\ id o = "7"
       /\ seller o = Gateway.buyerAddress Samples.offer7.
Proof.
  assert (fetchOfferRpc Samples.gnosisChain "7" = Some Samples.offer7) as H
    by (vm_compute; reflexivity).
  exact (conj gnosisChain_decimals
           (conj H
              (fetched_offers_always_enrich Samples.gnosisChain "7" Samples.offer7
                 Samples.emptyRegistry Samples.noReads 1700000000000
                 gnosisChain_decimals H))).
Defined.

(** X16. [loadOffer] ends with [loading] off and in one of two states:
    the enriched offer with no error and the identifier in the search
    field, when the gateway returns the offer; or no offer and the error
    ["Offer #<id> not found"], with the search field as it was, when it
    does not. On a chain whose [decimals()] answers are those of a
    [uint8] the error ["Error loading offer #<id>"] does not occur. *)
Theorem loadOffer_shows_the_offer_or_not_found rpc registry reads now offerId s :
  (forall tokenAddress d, Gateway.decimals rpc tokenAddress = Some d -> 0 <= d <= 255) ->
  let s' := Loading.loadOffer rpc registry reads now offerId s in
  Loading.loading s' = false
  /\ ((exists y o,
         fetchOfferRpc rpc offerId = Some y
         /\ combineOfferData registry reads now y = Some o
         /\ Loading.offer s' = Some o
         /\ Loading.error s' = None
         /\ Loading.searchId s' = offerId)
      \/ (fetchOfferRpc rpc offerId = None
          /\ Loading.offer s' = None
          /\ Loading.error s' = Some ("Offer #" ++ offerId ++ " not found")
          /\ Loading.searchId s' = Loading.searchId s)).
Proof.
  intros Hd. unfold Loading.loadOffer, Loading.getOffer.
  destruct (fetchOfferRpc rpc offerId) as [y|] eqn:Ef.
  - destruct (combine_fetched rpc offerId y registry reads now Hd Ef) as [o Ho].
    rewrite Ho. simpl. split; [done|]. left. by exists y, o.
  - simpl. split; [done|]. by right.
Qed.

Lemma loadOffer_shows_the_offer_or_not_found_witness :
  (forall tokenAddress d,
     Gateway.decimals Samples.gnosisChain tokenAddress = Some d -> 0 <= d <= 255)
  /\ (let s' :=
        Loading.loadOffer Samples.gnosisChain Samples.emptyRegistry Samples.noReads
          1700000000000 "7" Samples.blank in
      Loading.loading s' = false
      /\ ((exists y o,
             fetchOfferRpc Samples.gnosisChain "7" = Some y
             /\ combineOfferData Samples.emptyRegistry Samples.noReads
                  1700000000000 y = Some o
             /\ Loading.offer s' = Some o
             /\ Loading.error s' = None
             /\ Loading.searchId s' = "7")
          \/ (fetchOfferRpc Samples.gnosisChain "7" = None
              /\ Loading.offer s' = None
              /\ Loading.error s' = Some ("Offer #" ++ "7" ++ " not found")
              /\ Loading.searchId s' = Loading.searchId Samples.blank))).
Proof.
  exact (conj gnosisChain_decimals
           (loadOffer_shows_the_offer_or_not_found Samples.gnosisChain
              Samples.emptyRegistry Samples.noReads 1700000000000 "7" Samples.blank
              gnosisChain_decimals)).
Defined.

End FetchedOffers.

(** ** The labels of an enriched offer *)

Section Labels.

Import Enrichment.
Implicit Types (registry : RealTokenAPI.State) (reads : Erc20)
  (y : Gateway.YamOffer) (o : Offer).

(** X17. For an offer that sells a known stablecoin the enriched offer
    does not depend on the registry cache: the lookup of the sold token
    is skipped, and the enrichment gives the same result on any two
    states of the cache. *)
Theorem stablecoin_offer_ignores_registry registry registry' reads now y :
  isStableToken gnosis (Gateway.offerTokenAddress y) = true ->
  combineOfferData registry reads now y = combineOfferData registry' reads now y.
Proof.
  intros H. unfold combineOfferData, getChainFromOffer. rewrite H. reflexivity.
Qed.

Lemma stablecoin_offer_ignores_registry_witness :
  isStableToken gnosis (Gateway.offerTokenAddress Samples.swapOffer) = true
  /\ combineOfferData Samples.emptyRegistry Samples.noReads 1700000000000
       Samples.swapOffer
     = combineOfferData
         (Samples.registryWith (Samples.property7 None None))
         Samples.noReads 1700000000000 Samples.swapOffer.
Proof.
  split; [reflexivity|].
  apply (stablecoin_offer_ignores_registry Samples.emptyRegistry
           (Samples.registryWith (Samples.property7 None None))
           Samples.noReads 1700000000000 Samples.swapOffer).
  reflexivity.
Defined.

(** X18. When the payment token is a known stablecoin, its symbol on
    the enriched offer is the one of [STABLE_TOKENS], whatever the
    ERC-20 reads of the chain give. *)
Theorem payment_symbol_of_stablecoin registry reads now y o m :
  combineOfferData registry reads now y = Some o ->
  getStableMeta gnosis (Gateway.buyerTokenAddress y) = Some m ->
  buyerSymbol o = Some (symbol m).
Proof.
  intros H Hm.
  unfold combineOfferData, getChainFromOffer in H. rewrite Hm in H.
  repeat (match type of H with
          | (?c ≫= _) = _ => destruct c; [|discriminate]
          end; cbn [mbind option_bind] in H).
  injection H as <-. reflexivity.
Qed.

Lemma payment_symbol_of_stablecoin_witness :
  combineOfferData Samples.emptyRegistry Samples.noReads 1700000000000 Samples.offer7
  = Some Samples.display7
  /\ getStableMeta gnosis (Gateway.buyerTokenAddress Samples.offer7)
     = Some Samples.usdc
  /\ buyerSymbol Samples.display7 = Some (symbol Samples.usdc).
Proof.
  assert (combineOfferData Samples.emptyRegistry Samples.noReads 1700000000000
            Samples.offer7 = Some Samples.display7) as H
    by (vm_compute; reflexivity).
  split; [exact H|]. split; [reflexivity|].
  apply (payment_symbol_of_stablecoin Samples.emptyRegistry Samples.noReads
           1700000000000 Samples.offer7 Samples.display7 Samples.usdc H).
  reflexivity.
Defined.

(** A property that is found is one of the values of the object. *)
Lemma property_In {A} (obj : list (string * A)) k v :
  property obj k = Some v -> In v (map snd obj).
Proof.
  induction obj as [|[k0 v0] obj IH]; simpl; [done|].
  destruct (String.eqb k0 k); [intros [= ->]; by left|]. intros H. right. by apply IH.
Qed.

(** The symbols of [STABLE_TOKENS] are not empty. *)
Lemma getStableMeta_symbol chain tokenAddress m :
  getStableMeta chain tokenAddress = Some m -> symbol m <> "".
Proof.
  unfold getStableMeta. destruct (JS.nonEmpty tokenAddress); [|done].
  intros H. apply property_In in H. destruct chain; [|done].
  simpl in H. destruct H as [<-|[<-|[<-|[<-|[]]]]]; discriminate.
Qed.

(** X19. The label of the sold token is never empty: the chain of
    fall-backs (short name, full name, stablecoin name or symbol, ERC-20
    name, ERC-20 symbol) ends in ["Unknown property"]. *)
Theorem offer_symbol_is_never_empty registry reads now y o :
  combineOfferData registry reads now y = Some o -> offerSymbol o <> "".
Proof.
  intros H. unfold combineOfferData in H.
  repeat (match type of H with
          | (?c ≫= _) = _ => destruct c; [|discriminate]
          end; cbn [mbind option_bind] in H).
  injection H as <-. cbn [offerSymbol].
  assert (forall a b, b <> "" -> orDefault a b <> "") as Hor.
  { intros [[|c r]|] b Hb; simpl; done. }
  destruct (JS.truthyStr (JS.orStr _ _)) eqn:Et.
  - destruct (JS.orStr _ _) as [[|c r]|]; done.
  - destruct (getStableMeta _ _) as [m|] eqn:Em.
    + apply Hor. by apply (getStableMeta_symbol _ _ _ Em).
    + apply Hor, Hor. done.
Qed.

Lemma offer_symbol_is_never_empty_witness :
  combineOfferData Samples.emptyRegistry Samples.noReads 1700000000000 Samples.offer7
  = Some Samples.display7
  /\ offerSymbol Samples.display7 <> "".
Proof.
  assert (combineOfferData Samples.emptyRegistry Samples.noReads 1700000000000
            Samples.offer7 = Some Samples.display7) as H
    by (vm_compute; reflexivity).
  exact (conj H
           (offer_symbol_is_never_empty Samples.emptyRegistry Samples.noReads
              1700000000000 Samples.offer7 Samples.display7 H)).
Defined.

End Labels.

(** ** The purchase modal: the maximum and the approval *)

Section MaxAndApproval.

Import Purchase.
Implicit Types (s : State) (o : Enrichment.Offer).

(** The [Max] button with a payment token of 18 decimals: on the offer of
    26.031567 tokens at 2.00 WXDAI, a wallet that holds 1 WXDAI, which
    [balanceOf] gives as [10 ^ 18], gets the whole offer as its maximum,
    and the cost the page then computes for it, 52.063134 WXDAI, is more
    than the wallet holds. *)
Example max_with_one_wxdai :
  Enrichment.combineOfferData Samples.emptyRegistry Samples.noReads 1700000000000
    Samples.wxdaiOffer = Some Samples.wxdaiDisplay
  /\ buyAmount (handleSetMaxAmount (Samples.opened Samples.wxdaiDisplay "1" 0 (10 ^ 18)))
     = "26.031567"
  /\ amountNeeded Samples.wxdaiDisplay "26.031567" = Some 52063134000000000000
  /\ 10 ^ 18 < 52063134000000000000.
Proof. split; [vm_compute; reflexivity|]. repeat split; vm_compute; reflexivity. Qed.

(** X20. The maximum of [handleSetMaxAmount] takes the balance as an
    amount of six decimals, whatever the payment token. With the displayed
    price [p] and the offered amount [a] both read in units of [10 ^ -6],
    and [b] the balance as [balanceOf] returns it, the maximum [m] is the
    largest amount up to [a] with [m * p <= b * 10 ^ 6]: it is at most
    [a], it satisfies that bound, and it is [a] or one unit more would
    break the bound. The decimals of the payment token play no part: any
    offer that shows the same price and amount gets the same maximum from
    the same [b]. The bound says that the amount at the displayed price
    costs no more than the balance only for a payment token of 6
    decimals. *)
Theorem max_amount_reads_balance_at_six_decimals o b p a m :
  Ethers.parseUnits (Enrichment.price o) PRECISION = Some p ->
  Ethers.parseUnits (Enrichment.amount o) PRECISION = Some a ->
  0 < p -> 0 <= b ->
  maxAmountBN o b = Some m ->
  (m <= a
   /\ m * p <= b * 10 ^ PRECISION
   /\ (m = a \/ b * 10 ^ PRECISION < (m + 1) * p))
  /\ (forall o',
        Enrichment.price o' = Enrichment.price o ->
        Enrichment.amount o' = Enrichment.amount o ->
        maxAmountBN o' b = Some m).
Proof.
  intros Hp Ha Hpos Hb Hm. split.
  - rewrite (maxAmountBN_value o b p a Hp Ha Hpos Hb) in Hm. injection Hm as <-.
    unfold maxAmountSpec. set (q := b * 10 ^ PRECISION).
    assert (0 <= q) by (unfold q, PRECISION; lia).
    pose proof (Z.mul_div_le q p Hpos).
    pose proof (Z.mul_succ_div_gt q p Hpos).
    destruct (Z.min_spec (q / p) a) as [[? ->]|[? ->]]; nia.
  - intros o' Ep Ea. rewrite <- Hm. unfold maxAmountBN. by rewrite Ep, Ea.
Qed.

(** Witness of [max_amount_reads_balance_at_six_decimals]: the offer priced
    in USDC with a raw balance of [10 ^ 18]; the offer priced in WXDAI
    shows the same price and amount. *)
Lemma max_amount_reads_balance_at_six_decimals_witness :
  Ethers.parseUnits (Enrichment.price Samples.display7) PRECISION = Some 2000000
  /\ Ethers.parseUnits (Enrichment.amount Samples.display7) PRECISION = Some 26031567
  /\ 0 < 2000000
  /\ 0 <= 10 ^ 18
  /\ maxAmountBN Samples.display7 (10 ^ 18) = Some 26031567
  /\ (26031567 <= 26031567
      /\ 26031567 * 2000000 <= 10 ^ 18 * 10 ^ PRECISION
      /\ (26031567 = 26031567
          \/ 10 ^ 18 * 10 ^ PRECISION < (26031567 + 1) * 2000000))
  /\ (forall o',
        Enrichment.price o' = Enrichment.price Samples.display7 ->
        Enrichment.amount o' = Enrichment.amount Samples.display7 ->
        maxAmountBN o' (10 ^ 18) = Some 26031567).
Proof.
  split; [reflexivity|]. split; [reflexivity|]. split; [reflexivity|].
  split; [discriminate|]. split; [reflexivity|].
  apply (max_amount_reads_balance_at_six_decimals Samples.display7 (10 ^ 18)
           2000000 26031567 26031567);
    [reflexivity|reflexivity|reflexivity|discriminate|reflexivity].
Defined.

(** X21. On an offer whose displayed price is zero the [Max] button
    changes nothing: the division by the price throws before any state
    is set. *)
Theorem max_on_free_offer_changes_nothing s o :
  offer s = Some o ->
  Ethers.parseUnits (Enrichment.price o) PRECISION = Some 0 ->
  handleSetMaxAmount s = s.
Proof.
  intros Ho Hp. unfold handleSetMaxAmount. rewrite Ho.
  rewrite (maxAmountBN_zero_price o (balance s) Hp). reflexivity.
Qed.

Lemma max_on_free_offer_changes_nothing_witness :
  offer (Samples.opened Samples.freeDisplay "1" 0 10000000) = Some Samples.freeDisplay
  /\ Ethers.parseUnits (Enrichment.price Samples.freeDisplay) PRECISION = Some 0
  /\ handleSetMaxAmount (Samples.opened Samples.freeDisplay "1" 0 10000000)
     = Samples.opened Samples.freeDisplay "1" 0 10000000.
Proof.
  split; [reflexivity|]. split; [reflexivity|].
  apply (max_on_free_offer_changes_nothing
           (Samples.opened Samples.freeDisplay "1" 0 10000000) Samples.freeDisplay);
    reflexivity.
Defined.

(** X22. What [Max] writes, [handleBuy] reads back exactly: for a
    positive price, a balance and an offered amount that are not
    negative, and a sold token of [d] decimals with [6 <= d <= 256], the
    string that [handleSetMaxAmount] puts in the amount field is parsed
    by [parseUnits] without an exception, and the amount given to
    [contract.buy] is the maximum scaled by [10 ^ (d - 6)]. *)
Theorem max_amount_feeds_buy s o p a d priceArg :
  offer s = Some o ->
  Ethers.parseUnits (Enrichment.price o) PRECISION = Some p ->
  Ethers.parseUnits (Enrichment.amount o) PRECISION = Some a ->
  0 < p -> 0 <= a -> 0 <= balance s ->
  decimalsOr18 (Enrichment.offerDecimals o) = d ->
  PRECISION <= d <= 256 ->
  Ethers.parseUnits (Enrichment.price o)
    (decimalsOr18 (Enrichment.buyerDecimals o)) = Some priceArg ->
  let s' := handleSetMaxAmount s in
  Ethers.parseUnits (buyAmount s') PRECISION
  = Some (maxAmountSpec (balance s) p a)
  /\ buyArguments o (buyAmount s')
     = Some (JS.Number (Enrichment.id o), priceArg,
             maxAmountSpec (balance s) p a * 10 ^ (d - PRECISION)).
Proof.
  intros Ho Hp Ha Hpos Hna Hb Hd Hrange Hprice. unfold handleSetMaxAmount.
  rewrite Ho, (maxAmountBN_value o (balance s) p a Hp Ha Hpos Hb).
  cbn [mbind option_bind].
  set (m := maxAmountSpec (balance s) p a).
  assert (0 <= m) as Hm.
  { unfold m, maxAmountSpec. apply Z.min_glb; [|done].
    apply Z.div_pos; [|done]. unfold PRECISION. lia. }
  assert (exists maxAmount, Ethers.formatUnits m PRECISION = Some maxAmount)
    as [maxAmount Ef] by (eexists; reflexivity).
  rewrite Ef. simpl. unfold buyArguments. rewrite Hprice, Hd.
  unfold PRECISION in *. split.
  - rewrite (parseUnits_formatUnits m 6 6 maxAmount); [|lia..|done].
    rewrite Z.sub_diag, Z.mul_1_r. done.
  - rewrite (parseUnits_formatUnits m 6 d maxAmount); [|lia..|done]. done.
Qed.

Lemma max_amount_feeds_buy_witness :
  offer (Samples.opened Samples.display7 "" 0 10000000) = Some Samples.display7
  /\ Ethers.parseUnits (Enrichment.price Samples.display7) PRECISION = Some 2000000
  /\ Ethers.parseUnits (Enrichment.amount Samples.display7) PRECISION = Some 26031567
  /\ 0 < 2000000
  /\ 0 <= 26031567
  /\ 0 <= balance (Samples.opened Samples.display7 "" 0 10000000)
  /\ decimalsOr18 (Enrichment.offerDecimals Samples.display7) = 18
  /\ PRECISION <= 18 <= 256
  /\ Ethers.parseUnits (Enrichment.price Samples.display7)
       (decimalsOr18 (Enrichment.buyerDecimals Samples.display7)) = Some 2000000
  /\ (let s' := handleSetMaxAmount (Samples.opened Samples.display7 "" 0 10000000) in
      Ethers.parseUnits (buyAmount s') PRECISION
      = Some (maxAmountSpec
                (balance (Samples.opened Samples.display7 "" 0 10000000))
                2000000 26031567)
      /\ buyArguments Samples.display7 (buyAmount s')
         = Some (JS.Number (Enrichment.id Samples.display7), 2000000,
                 maxAmountSpec
                   (balance (Samples.opened Samples.display7 "" 0 10000000))
                   2000000 26031567 * 10 ^ (18 - PRECISION))).
Proof.
  split; [reflexivity|]. split; [reflexivity|]. split; [reflexivity|].
  split; [reflexivity|]. split; [discriminate|]. split; [discriminate|].
  split; [reflexivity|]. split; [split; discriminate|]. split; [reflexivity|].
  apply (max_amount_feeds_buy (Samples.opened Samples.display7 "" 0 10000000)
           Samples.display7 2000000 26031567 18 2000000);
    [reflexivity|reflexivity|reflexivity|reflexivity|discriminate|discriminate
    |reflexivity|split; discriminate|reflexivity].
Defined.

(** X23. With an empty wallet [Max] writes ["0.0"], an amount on which
    the approve and the buy button are both disabled. *)
Theorem max_with_an_empty_wallet s o p a :
  offer s = Some o ->
  Ethers.parseUnits (Enrichment.price o) PRECISION = Some p ->
  Ethers.parseUnits (Enrichment.amount o) PRECISION = Some a ->
  0 < p -> 0 <= a ->
  balance s = 0 ->
  let s' := handleSetMaxAmount s in
  buyAmount s' = "0.0"
  /\ amountMissing s' = true
  /\ (forall r, approveDisabled r s' = true /\ buyDisabled r s' = true).
Proof.
  intros Ho Hp Ha Hpos Hna Hb.
  assert (handleSetMaxAmount s = setBuyAmount "0.0" s) as ->.
  { unfold handleSetMaxAmount.
    rewrite Ho, (maxAmountBN_value o (balance s) p a Hp Ha Hpos) by lia.
    rewrite Hb. unfold maxAmountSpec. rewrite Z.mul_0_l, Z.div_0_l by lia.
    rewrite Z.min_l by done. reflexivity. }
  simpl. split; [done|].
  assert (amountMissing (setBuyAmount "0.0" s) = true) as Hmiss by reflexivity.
  split; [done|]. intros r. unfold approveDisabled, buyDisabled. rewrite Hmiss.
  rewrite !orb_true_r. done.
Qed.

Lemma max_with_an_empty_wallet_witness :
  offer (Samples.opened Samples.display7 "3" 0 0) = Some Samples.display7
  /\ Ethers.parseUnits (Enrichment.price Samples.display7) PRECISION = Some 2000000
  /\ Ethers.parseUnits (Enrichment.amount Samples.display7) PRECISION = Some 26031567
  /\ 0 < 2000000
  /\ 0 <= 26031567
  /\ balance (Samples.opened Samples.display7 "3" 0 0) = 0
  /\ (let s' := handleSetMaxAmount (Samples.opened Samples.display7 "3" 0 0) in
      buyAmount s' = "0.0"
      /\ amountMissing s' = true
      /\ (forall r, approveDisabled r s' = true /\ buyDisabled r s' = true)).
Proof.
  split; [reflexivity|]. split; [reflexivity|]. split; [reflexivity|].
  split; [reflexivity|]. split; [discriminate|]. split; [reflexivity|].
  apply (max_with_an_empty_wallet (Samples.opened Samples.display7 "3" 0 0)
           Samples.display7 2000000 26031567);
    [reflexivity|reflexivity|reflexivity|reflexivity|discriminate|reflexivity].
Defined.

(** X24. A confirmed approval lifts the gate: when the approval
    transaction is confirmed and the allowance read again covers the
    cost of the amount typed in, the status is [idle] again, the amount
    is as it was, and the modal asks for no approval any more. *)
Theorem confirmed_approval_lifts_the_gate s o needed a b :
  offer s = Some o ->
  canReadAllowance s = true ->
  amountNeeded o (buyAmount s) = Some needed ->
  needed <= a ->
  let s' := tx s (ApproveConfirmed (Some (a, b))) in
  txStatus s' = idle
  /\ isApproving s' = false
  /\ allowance s' = a
  /\ balance s' = b
  /\ buyAmount s' = buyAmount s
  /\ needsApproval (render s') = false.
Proof.
  intros Ho Hc Hn Ha. simpl. unfold updateBuyModalData. rewrite Hc. simpl.
  repeat split. unfold render. simpl. rewrite Ho. unfold costCheck.
  rewrite Hn. repeat case_match; simpl; try done. by apply Z.ltb_ge.
Qed.

Lemma confirmed_approval_lifts_the_gate_witness :
  offer (Samples.opened Samples.display7 "250" 0 600000000) = Some Samples.display7
  /\ canReadAllowance (Samples.opened Samples.display7 "250" 0 600000000) = true
  /\ amountNeeded Samples.display7
       (buyAmount (Samples.opened Samples.display7 "250" 0 600000000))
     = Some 500000000
  /\ 500000000 <= 500000000
  /\ (let s' :=
        tx (Samples.opened Samples.display7 "250" 0 600000000)
          (ApproveConfirmed (Some (500000000, 600000000))) in
      txStatus s' = idle
      /\ isApproving s' = false
      /\ allowance s' = 500000000
      /\ balance s' = 600000000
      /\ buyAmount s' = buyAmount (Samples.opened Samples.display7 "250" 0 600000000)
      /\ needsApproval (render s') = false).
Proof.
  assert (amountNeeded Samples.display7
            (buyAmount (Samples.opened Samples.display7 "250" 0 600000000))
          = Some 500000000) as H by (vm_compute; reflexivity).
  split; [reflexivity|]. split; [reflexivity|]. split; [exact H|].
  split; [discriminate|].
  apply (confirmed_approval_lifts_the_gate
           (Samples.opened Samples.display7 "250" 0 600000000) Samples.display7
           500000000 500000000 600000000);
    [reflexivity|reflexivity|exact H|discriminate].
Defined.

(** X26. An offer that is sold out cannot be bought: when the gateway
    returns an offer whose remaining amount on the chain is zero, the
    page shows it as sold, the [Buy this offer] button is not drawn and
    the modal stays closed. *)
Theorem sold_out_offer_cannot_be_opened rpc offerId y registry reads now o s :
  Gateway.fetchOfferRpc rpc offerId = Some y ->
  Ethers.BigNumber_from (Gateway.amount y) = Some 0 ->
  Enrichment.combineOfferData registry reads now y = Some o ->
  offer s = Some o ->
  Enrichment.status o = Enrichment.sold
  /\ buyOfferShown s = false
  /\ clickBuyOffer s = s.
Proof.
  intros Hf Ha Hc Ho.
  assert (Enrichment.getStatusFromOffer y = Enrichment.sold) as Hsold.
  { destruct (fetchOfferRpc_record _ _ _ Hf) as (n & d & _ & ->).
    simpl in Ha. rewrite BigNumber_from_toString in Ha. injection Ha as Ha.
    unfold Enrichment.getStatusFromOffer. simpl. rewrite Ha. reflexivity. }
  assert (Enrichment.status o = Enrichment.sold) as Hs.
  { unfold Enrichment.combineOfferData in Hc.
    repeat (match type of Hc with
            | (?c ≫= _) = _ => destruct c; [|discriminate]
            end; cbn [mbind option_bind] in Hc).
    injection Hc as <-. exact Hsold. }
  split; [done|]. unfold clickBuyOffer, buyOfferShown. rewrite Ho, Hs. done.
Qed.

Lemma sold_out_offer_cannot_be_opened_witness :
  Gateway.fetchOfferRpc Samples.soldOutChain "7" = Some Samples.soldOut7
  /\ Ethers.BigNumber_from (Gateway.amount Samples.soldOut7) = Some 0
  /\ Enrichment.combineOfferData Samples.emptyRegistry Samples.noReads
       1700000000000 Samples.soldOut7 = Some Samples.soldOutDisplay
  /\ offer (Samples.viewing Samples.soldOutDisplay) = Some Samples.soldOutDisplay
  /\ Enrichment.status Samples.soldOutDisplay = Enrichment.sold
  /\ buyOfferShown (Samples.viewing Samples.soldOutDisplay) = false
  /\ clickBuyOffer (Samples.viewing Samples.soldOutDisplay)
     = Samples.viewing Samples.soldOutDisplay.
Proof.
  assert (Gateway.fetchOfferRpc Samples.soldOutChain "7" = Some Samples.soldOut7)
    as Hf by (vm_compute; reflexivity).
  assert (Enrichment.combineOfferData Samples.emptyRegistry Samples.noReads
            1700000000000 Samples.soldOut7 = Some Samples.soldOutDisplay)
    as Hc by (vm_compute; reflexivity).
  split; [exact Hf|]. split; [reflexivity|]. split; [exact Hc|].
  split; [reflexivity|].
  apply (sold_out_offer_cannot_be_opened Samples.soldOutChain "7" Samples.soldOut7
           Samples.emptyRegistry Samples.noReads 1700000000000
           Samples.soldOutDisplay (Samples.viewing Samples.soldOutDisplay) Hf);
    [reflexivity|exact Hc|reflexivity].
Defined.

End MaxAndApproval.

(** ** The purchase modal: after a confirmed purchase *)

Section AfterPurchase.

Import Purchase.
Implicit Types (s : State).

(** When the buy button starts a purchase, it would do so in any status
    that is not [pending]: the guards read nothing else of the status. *)
Lemma buy_started s st :
  txStatus s <> pending ->
  txStatus (user s ClickBuy) = pending ->
  st <> pending ->
  user (setTxStatus st s) ClickBuy = setTxStatus pending s.
Proof.
  intros Hnp Hp Hst. unfold user in *.
  change (modalShown (setTxStatus st s)) with (modalShown s).
  change (render (setTxStatus st s)) with (render s).
  destruct (modalShown s) eqn:Hm; simpl in Hp; [|done].
  destruct (needsApproval (render s) || buyDisabled (render s) s) eqn:Hg;
    [done|].
  apply orb_false_iff in Hg as [Hna Hbd]. unfold buyDisabled in Hbd.
  apply orb_false_iff in Hbd as [Hbd Hce].
  apply orb_false_iff in Hbd as [Hbd _].
  apply orb_false_iff in Hbd as [Hbd _].
  apply orb_false_iff in Hbd as [Hmiss Happ].
  unfold handleBuy in *.
  change (offer (setTxStatus st s)) with (offer s).
  change (isConnected (setTxStatus st s)) with (isConnected s).
  change (signer (setTxStatus st s)) with (signer s).
  change (buyAmount (setTxStatus st s)) with (buyAmount s).
  destruct (offer s) as [o|] eqn:Ho; [|done].
  destruct (negb (isConnected s) || negb (signer s)) eqn:Hw; [done|].
  destruct (negb (JS.nonEmpty (buyAmount s)) || _) eqn:Hv; [done|].
  destruct (PrimFloat.ltb _ _) eqn:Hx; [done|].
  unfold buyDisabled, isPending.
  change (amountMissing (setTxStatus st s)) with (amountMissing s).
  change (isApproving (setTxStatus st s)) with (isApproving s).
  change (txStatus (setTxStatus st s)) with st.
  rewrite Hna, Hmiss, Happ, Hce. simpl. by destruct st.
Qed.

(** X27. A confirmed purchase does not close the gate. Between the
    confirmation and the timer that closes the modal the status is
    [success] and the buy button is enabled as it was before: a click
    that started the first purchase starts a second one, and the timer
    then sets the status to [idle] and closes the modal while that
    purchase is pending. *)
Theorem confirmed_purchase_leaves_buy_enabled s :
  txStatus s <> pending ->
  txStatus (user s ClickBuy) = pending ->
  let s1 := tx (user s ClickBuy) BuyConfirmed in
  txStatus s1 = success
  /\ txStatus (user s1 ClickBuy) = pending
  /\ txStatus (tx (user s1 ClickBuy) SuccessTimeout) = idle
  /\ showBuyModal (tx (user s1 ClickBuy) SuccessTimeout) = false.
Proof.
  intros Hnp Hp.
  assert (user s ClickBuy = setTxStatus pending s) as Hu.
  { rewrite <- (buy_started s (txStatus s) Hnp Hp Hnp). by destruct s. }
  rewrite Hu. cbv zeta.
  change (tx (setTxStatus pending s) BuyConfirmed) with (setTxStatus success s).
  rewrite (buy_started s success Hnp Hp) by done. done.
Qed.

Lemma confirmed_purchase_leaves_buy_enabled_witness :
  txStatus (Samples.opened Samples.display7 "1" 2000000 10000000) <> pending
  /\ txStatus (user (Samples.opened Samples.display7 "1" 2000000 10000000) ClickBuy)
     = pending
  /\ (let s1 :=
        tx (user (Samples.opened Samples.display7 "1" 2000000 10000000) ClickBuy)
          BuyConfirmed in
      txStatus s1 = success
      /\ txStatus (user s1 ClickBuy) = pending
      /\ txStatus (tx (user s1 ClickBuy) SuccessTimeout) = idle
      /\ showBuyModal (tx (user s1 ClickBuy) SuccessTimeout) = false).
Proof.
  assert (txStatus
            (user (Samples.opened Samples.display7 "1" 2000000 10000000) ClickBuy)
          = pending) as H by (vm_compute; reflexivity).
  split; [discriminate|]. split; [exact H|].
  apply (confirmed_purchase_leaves_buy_enabled
           (Samples.opened Samples.display7 "1" 2000000 10000000));
    [discriminate|exact H].
Defined.

End AfterPurchase.

(** ** Addresses as they are displayed *)

Section Addresses.

Lemma substring_all s : String.substring 0 (String.length s) s = s.
Proof. induction s as [|c r IH]; simpl; [done|]. by rewrite IH. Qed.

Lemma substring_prefix p s : String.substring 0 (String.length p) (p ++ s) = p.
Proof.
  induction p as [|c r IH].
  - change ("" ++ s) with s. by destruct s.
  - change (String c r ++ s) with (String c (r ++ s)). simpl. by rewrite IH.
Qed.

Lemma substring_suffix p s :
  String.substring (String.length p) (String.length s) (p ++ s) = s.
Proof.
  induction p as [|c r IH].
  - change ("" ++ s) with s. apply substring_all.
  - change (String c r ++ s) with (String c (r ++ s)). simpl. apply IH.
Qed.

(** X25. Both [shortenAddress] functions keep the first six and the
    last four characters of an address of ten characters or more and
    put three dots between them. *)
Theorem shortenAddress_keeps_six_and_four first middle last :
  String.length first = 6%nat ->
  String.length last = 4%nat ->
  Display.shortenAddress (first ++ middle ++ last) = first ++ "..." ++ last
  /\ ConnectButton.shortenAddress (first ++ middle ++ last) = first ++ "..." ++ last.
Proof.
  intros Hf Hl.
  assert (Display.shortenAddress (first ++ middle ++ last) = first ++ "..." ++ last)
    as H.
  { unfold Display.shortenAddress, JS.slice.
    set (len := String.length (first ++ middle ++ last)).
    assert (len = 6 + (String.length middle + 4))%nat as Hlen
      by (unfold len; rewrite !string_length_app; lia).
    assert (JS.sliceIndex len 0 = 0%nat) as ->
      by (unfold JS.sliceIndex; change (0 <? 0) with false; cbv iota; lia).
    assert (JS.sliceIndex len 6 = String.length first) as ->
      by (unfold JS.sliceIndex; change (6 <? 0) with false; cbv iota; lia).
    assert (JS.sliceIndex len (-4) = String.length (first ++ middle)) as ->
      by (unfold JS.sliceIndex; change (-4 <? 0) with true; cbv iota;
          rewrite string_length_app; lia).
    replace (len - String.length (first ++ middle))%nat with (String.length last)
      by (rewrite string_length_app; lia).
    rewrite Nat.sub_0_r, substring_prefix.
    rewrite <- (string_app_assoc first middle last), substring_suffix. done. }
  split; [done|]. unfold ConnectButton.shortenAddress.
  destruct first as [|c r]; [done|]. exact H.
Qed.

Lemma shortenAddress_keeps_six_and_four_witness :
  String.length "0x1111" = 6%nat
  /\ String.length "1111" = 4%nat
  /\ Display.shortenAddress ("0x1111" ++ "11111111111111111111111111111111" ++ "1111")
     = "0x1111" ++ "..." ++ "1111"
  /\ ConnectButton.shortenAddress
       ("0x1111" ++ "11111111111111111111111111111111" ++ "1111")
     = "0x1111" ++ "..." ++ "1111".
Proof.
  split; [reflexivity|]. split; [reflexivity|].
  apply (shortenAddress_keeps_six_and_four "0x1111"
           "11111111111111111111111111111111" "1111"); reflexivity.
Defined.

End Addresses.
